(** * Senti-Analysis: the browser-side transport and analysis coordinator

    A shallow embedding of the JavaScript of
    - [WebSocketManager] (connection life cycle, reconnection, event
      dispatch, [send], [close]),
    - [SentimentApp.debounce] and [SentimentApp.analyzeText]
      (static/js/app.js),
    - the list of recent reviews and the form around [analyzeText]
      ([handleSubmit], [debounceAnalyze], [clearForm], [updateCharCount]),
      with the calls of [analyzeText] that wait at an [await],
    - the HTTP-only build of the application,
    followed by the properties the specification states about them and by
    further properties of the same code.

    JavaScript statements that read or write object fields, or that may
    throw, are written in a state-and-exception monad; the browser objects
    the code talks to (sockets, timers, the status indicator, the console)
    are part of the state. *)

From stdpp Require Import base strings gmap list pretty.
From Stdlib Require Import ZArith Lia.

Local Open Scope Z_scope.
Set Warnings "-register-all".

(** ** JavaScript values *)

Module JS.

(** The values the code inspects or serialises.  Numbers are restricted to
    integer-valued ones, which is all the code computes with: [VNum z] is
    the Number value of [z].  A string holds one character for each UTF-16
    code unit, the character whose number is the code unit, so that the
    strings of the model are those whose code units are below 256. *)
Inductive JSVal :=
| VUndef
| VNull
| VBool (b : bool)
| VNum (z : Z)
| VStr (s : string)
| VBigInt (z : Z)
| VArr (elems : list JSVal)
| VObj (fields : list (string * JSVal)).

(** ToBoolean. *)
Definition truthy (v : JSVal) : bool :=
  match v with
  | VUndef | VNull => false
  | VBool b => b
  | VNum z | VBigInt z => negb (z =? 0)
  | VStr s => negb (String.eqb s EmptyString)
  | VArr _ | VObj _ => true
  end.

Fixpoint assoc (k : string) (fields : list (string * JSVal)) : option JSVal :=
  match fields with
  | [] => None
  | (k', v) :: rest => if String.eqb k k' then Some v else assoc k rest
  end.

(** [v.k] for a property name [k] that no built-in prototype defines
    ([type], [data], [error], ...): [None] stands for the TypeError that
    reading a property of [null] or [undefined] raises. *)
Definition get_prop (v : JSVal) (k : string) : option JSVal :=
  match v with
  | VUndef | VNull => None
  | VObj fields => Some (default VUndef (assoc k fields))
  | _ => Some VUndef
  end.

Fixpoint join (sep : string) (parts : list string) : string :=
  match parts with
  | [] => EmptyString
  | [p] => p
  | p :: rest => p +:+ sep +:+ join sep rest
  end.

(** The Number value of an integer: the double nearest to it, ties going to
    the even significand; [None] is an infinity. *)
Definition number_value (z : Z) : option Z :=
  let a := Z.abs z in
  if a <? 2 ^ 53 then Some z
  else
    let e := Z.log2 a - 52 in
    let q := a / 2 ^ e in
    let r := a mod 2 ^ e in
    let half := 2 ^ (e - 1) in
    let q' := if (half <? r) || ((r =? half) && Z.odd q) then q + 1 else q in
    if 2 ^ 1024 <=? q' * 2 ^ e then None else Some (Z.sgn z * (q' * 2 ^ e)).

Definition rounds_to (x v : Z) : bool :=
  match number_value v with
  | Some y => y =? x
  | None => false
  end.

(** The number of decimal digits of a positive integer. *)
Definition digits (v : Z) : Z := Z.of_nat (String.length (pretty v)).

(** The decimal with the fewest significant digits that rounds to the
    double [x] (a positive integer of [n] digits), and of those the one
    nearest to [x]: with [k] significant digits the candidates are the
    multiples of 10^(n-k) on either side of [x].  Seventeen digits always
    suffice. *)
Fixpoint shortest (x n k : Z) (fuel : nat) : Z :=
  match fuel with
  | O => x
  | S fuel' =>
      let p := 10 ^ (n - k) in
      let lo := x / p * p in
      let hi := lo + p in
      match rounds_to x lo, rounds_to x hi with
      | true, true =>
          if x - lo <? hi - x then lo
          else if hi - x <? x - lo then hi
          else if Z.even (lo / p) then lo else hi
      | true, false => lo
      | false, true => hi
      | false, false => shortest x n (k + 1) fuel'
      end
  end.

Fixpoint strip_zeros (v : Z) (fuel : nat) : Z :=
  match fuel with
  | O => v
  | S fuel' => if v mod 10 =? 0 then strip_zeros (v / 10) fuel' else v
  end.

(** A positive integer, given by its shortest decimal, as
    [Number::toString] writes it: in full up to 21 digits, with an exponent
    beyond. *)
Definition decimal (v : Z) : string :=
  let n := digits v in
  if n <=? 21 then pretty v
  else
    match pretty (strip_zeros v (Z.to_nat n)) with
    | String d EmptyString => String d EmptyString +:+ "e+" +:+ pretty (n - 1)
    | String d rest => String d ("." +:+ rest) +:+ "e+" +:+ pretty (n - 1)
    | EmptyString => EmptyString
    end.

(** [Number::toString] of the Number value of an integer. *)
Definition number_to_string (z : Z) : string :=
  match number_value z with
  | None => if z <? 0 then "-Infinity" else "Infinity"
  | Some x =>
      let a := Z.abs x in
      if a <? 2 ^ 53 then pretty x
      else (if x <? 0 then "-" else EmptyString)
             +:+ decimal (shortest a (digits a) 1 17)
  end.

(** JSON.stringify throws a TypeError on a BigInt, at any depth. *)
Fixpoint serializable (v : JSVal) : bool :=
  match v with
  | VBigInt _ => false
  | VArr elems => forallb serializable elems
  | VObj fields => forallb (fun kv => serializable (snd kv)) fields
  | _ => true
  end.

(** The document JSON.stringify writes, given as the value JSON.parse reads
    back from it: [undefined] members are dropped, [undefined] array
    elements become [null]. *)
Fixpoint json_image (v : JSVal) : JSVal :=
  match v with
  | VArr elems =>
      VArr (map (fun e => match e with
                          | VUndef => VNull
                          | _ => json_image e
                          end) elems)
  | VObj fields =>
      VObj (flat_map (fun kv => match snd kv with
                                | VUndef => []
                                | _ => [(fst kv, json_image (snd kv))]
                                end) fields)
  | _ => v
  end.

(** What can be thrown: the built-in errors the code can run into, the
    rejection of a constructor call or of a fetch, the
    [new Error(`HTTP ${status}: ${statusText}`)] of [analyzeText], an
    exception out of the view updates, and whatever a registered callback
    throws. *)
Inductive Error :=
| TypeError (message : string)
| SyntaxError
| InvalidStateError
| ConstructionError
| NetworkError
| HttpError (status : Z) (statusText : string)
| RenderingError
| Thrown (by_handler : nat).

(** What a completed statement leaves behind: a value, or a thrown error. *)
Inductive Completion (A : Type) :=
| Normal (a : A)
| Throw (e : Error).
Arguments Normal {A} a.
Arguments Throw {A} e.

(** ToPropertyKey of a value that serves as a property name.  An array is
    joined, its elements converted in turn; an object goes through
    [Object.prototype.toString], unless it has a member [toString] of its
    own: that member is no function, [valueOf] returns the object, and the
    conversion throws. *)
Fixpoint to_key (v : JSVal) : Completion string :=
  match v with
  | VUndef => Normal "undefined"
  | VNull => Normal "null"
  | VBool true => Normal "true"
  | VBool false => Normal "false"
  | VNum z => Normal (number_to_string z)
  | VBigInt z => Normal (pretty z)
  | VStr s => Normal s
  | VArr elems =>
      match
        (fix parts (l : list JSVal) : Completion (list string) :=
           match l with
           | [] => Normal []
           | e :: rest =>
               match (match e with
                      | VUndef | VNull => Normal EmptyString
                      | _ => to_key e
                      end) with
               | Normal p =>
                   match parts rest with
                   | Normal ps => Normal (p :: ps)
                   | Throw error => Throw error
                   end
               | Throw error => Throw error
               end
           end) elems
      with
      | Normal ps => Normal (join "," ps)
      | Throw error => Throw error
      end
  | VObj fields =>
      match assoc "toString" fields with
      | Some _ => Throw (TypeError "Cannot convert object to primitive value")
      | None => Normal "[object Object]"
      end
  end.

(** JSON.stringify of a value that is not [undefined] at top level. *)
Definition JSON_stringify (v : JSVal) : Completion JSVal :=
  if serializable v then Normal (json_image v)
  else Throw (TypeError "Do not know how to serialize a BigInt").

(** A text handed to JSON.parse: either the serialisation of a JSON
    document, or something that is not JSON. *)
Inductive Text :=
| JsonText (doc : JSVal)
| Malformed (raw : string).

Definition JSON_parse (t : Text) : Completion JSVal :=
  match t with
  | JsonText doc => Normal doc
  | Malformed _ => Throw SyntaxError
  end.

(** Statements over a store [S]. *)
Definition M (S A : Type) : Type := S -> Completion A * S.

Definition ret {S A} (a : A) : M S A := fun s => (Normal a, s).
Definition throw {S A} (e : Error) : M S A := fun s => (Throw e, s).
Definition bind {S A B} (m : M S A) (k : A -> M S B) : M S B :=
  fun s => match m s with
           | (Normal a, s') => k a s'
           | (Throw e, s') => (Throw e, s')
           end.
Definition get {S} : M S S := fun s => (Normal s, s).
Definition modify {S} (f : S -> S) : M S unit := fun s => (Normal tt, f s).

(** [try { body } catch (e) { handler e }] *)
Definition try_catch {S A} (body : M S A) (handler : Error -> M S A) : M S A :=
  fun s => match body s with
           | (Normal a, s') => (Normal a, s')
           | (Throw e, s') => handler e s'
           end.

(** [try { body } finally { final }] *)
Definition try_finally {S A} (body : M S A) (final : M S unit) : M S A :=
  fun s => match body s with
           | (r, s') => match final s' with
                        | (Normal _, s'') => (r, s'')
                        | (Throw e, s'') => (Throw e, s'')
                        end
           end.

Definition lift {S A} (c : Completion A) : M S A := fun s => (c, s).

End JS.

Export JS.

Declare Scope js_scope.
Delimit Scope js_scope with js.
Notation "x <- m ;; k" := (bind m (fun x => k))
  (at level 100, m at next level, right associativity) : js_scope.
Notation "m ;; k" := (bind m (fun _ => k))
  (at level 100, right associativity) : js_scope.

(** ** WebSocketManager *)

Module WebSocketManager.

Local Open Scope js_scope.

(** A registered callback is a reference to a function object. *)
Definition HandlerId := nat.

(** What running a callback does to a dispatch: the calls it makes to the
    manager's own [on] and [off], in order, and whether it then throws.
    Whatever else a callback does (a call of [send], say) is not part of
    the dispatch; in a trace of events it is an event of its own. *)
Inductive RegistryCall :=
| CallOn (event : string) (h : HandlerId)
| CallOff (event : string) (h : HandlerId).

Record Behaviour := { registry_calls : list RegistryCall; throws : bool }.

Inductive ReadyState := CONNECTING | OPEN | CLOSING | CLOSED.

Definition ReadyState_eqb (a b : ReadyState) : bool :=
  match a, b with
  | CONNECTING, CONNECTING | OPEN, OPEN | CLOSING, CLOSING | CLOSED, CLOSED => true
  | _, _ => false
  end.

(** A WebSocket object: its URL, its readyState, and the frames handed to
    the network by [socket.send]. *)
Record Socket := { url : string; readyState : ReadyState; outbox : list JSVal }.

(** What the #connection-status element shows: the connection state, as far
    as the code keeps one besides [isConnected]. *)
Inductive Indicator := ShowsConnecting | ShowsConnected | ShowsDisconnected | ShowsError.

Inductive LogEntry :=
| LogConnecting (wsUrl : string)
| LogConnected
| LogReceived (type : JSVal)
| LogClosed (code : Z) (reason : string)
| LogReconnect (delay attempt : Z)
| WarnNotSent (type data : JSVal)
| ErrParsing (e : Error)
| ErrSocket
| ErrCreate (e : Error)
| ErrSending (e : Error)
| ErrListener (event : string) (e : Error).

(** The fields of the WebSocketManager object. *)
Record Manager := {
  socket : option nat;
  isConnected : bool;
  reconnectAttempts : Z;
  maxReconnectAttempts : Z;
  reconnectInterval : Z;
  listeners : gmap string (list HandlerId)
}.

(** The browser around it: every WebSocket constructed so far ([socket]
    above is an index into this list), the reconnect timers that are
    pending (each with its delay), the status indicator ([None] when the
    page has no such element), the toasts requested, the console, and a
    record of every callback invocation made by [emit]. *)
Record Browser := {
  location_protocol : string;
  location_host : string;
  sockets : list Socket;
  timers : list Z;
  indicator : option Indicator;
  toasts : list (string * string * string);
  console : list LogEntry;
  invocations : list (HandlerId * JSVal)
}.

Record State := { this : Manager; page : Browser }.

Definition on_this (f : Manager -> Manager) (s : State) : State :=
  {| this := f (this s); page := page s |}.
Definition on_page (f : Browser -> Browser) (s : State) : State :=
  {| this := this s; page := f (page s) |}.

Definition set_socket (v : option nat) (m : Manager) : Manager :=
  {| socket := v; isConnected := isConnected m;
     reconnectAttempts := reconnectAttempts m;
     maxReconnectAttempts := maxReconnectAttempts m;
     reconnectInterval := reconnectInterval m; listeners := listeners m |}.
Definition set_isConnected (v : bool) (m : Manager) : Manager :=
  {| socket := socket m; isConnected := v;
     reconnectAttempts := reconnectAttempts m;
     maxReconnectAttempts := maxReconnectAttempts m;
     reconnectInterval := reconnectInterval m; listeners := listeners m |}.
Definition set_reconnectAttempts (v : Z) (m : Manager) : Manager :=
  {| socket := socket m; isConnected := isConnected m;
     reconnectAttempts := v;
     maxReconnectAttempts := maxReconnectAttempts m;
     reconnectInterval := reconnectInterval m; listeners := listeners m |}.
Definition set_reconnectInterval (v : Z) (m : Manager) : Manager :=
  {| socket := socket m; isConnected := isConnected m;
     reconnectAttempts := reconnectAttempts m;
     maxReconnectAttempts := maxReconnectAttempts m;
     reconnectInterval := v; listeners := listeners m |}.
Definition set_listeners (v : gmap string (list HandlerId)) (m : Manager) : Manager :=
  {| socket := socket m; isConnected := isConnected m;
     reconnectAttempts := reconnectAttempts m;
     maxReconnectAttempts := maxReconnectAttempts m;
     reconnectInterval := reconnectInterval m; listeners := v |}.

Definition set_sockets (v : list Socket) (b : Browser) : Browser :=
  {| location_protocol := location_protocol b; location_host := location_host b;
     sockets := v; timers := timers b; indicator := indicator b;
     toasts := toasts b; console := console b; invocations := invocations b |}.
Definition set_timers (v : list Z) (b : Browser) : Browser :=
  {| location_protocol := location_protocol b; location_host := location_host b;
     sockets := sockets b; timers := v; indicator := indicator b;
     toasts := toasts b; console := console b; invocations := invocations b |}.
Definition set_indicator (v : option Indicator) (b : Browser) : Browser :=
  {| location_protocol := location_protocol b; location_host := location_host b;
     sockets := sockets b; timers := timers b; indicator := v;
     toasts := toasts b; console := console b; invocations := invocations b |}.
Definition set_toasts (v : list (string * string * string)) (b : Browser) : Browser :=
  {| location_protocol := location_protocol b; location_host := location_host b;
     sockets := sockets b; timers := timers b; indicator := indicator b;
     toasts := v; console := console b; invocations := invocations b |}.
Definition set_console (v : list LogEntry) (b : Browser) : Browser :=
  {| location_protocol := location_protocol b; location_host := location_host b;
     sockets := sockets b; timers := timers b; indicator := indicator b;
     toasts := toasts b; console := v; invocations := invocations b |}.
Definition set_invocations (v : list (HandlerId * JSVal)) (b : Browser) : Browser :=
  {| location_protocol := location_protocol b; location_host := location_host b;
     sockets := sockets b; timers := timers b; indicator := indicator b;
     toasts := toasts b; console := console b; invocations := v |}.

(** *** Browser primitives *)

Definition log (e : LogEntry) : M State unit :=
  modify (on_page (fun b => set_console (console b ++ [e]) b)).

(** [new WebSocket(wsUrl)]; [ctor] tells whether the constructor returns
    (it throws on a URL the browser rejects). *)
Definition new_WebSocket (ctor : bool) (wsUrl : string) : M State nat :=
  if ctor then
    s <- get ;;
    modify (on_page (set_sockets
      (sockets (page s) ++ [{| url := wsUrl; readyState := CONNECTING; outbox := [] |}]))) ;;
    ret (length (sockets (page s)))
  else throw ConstructionError.

Definition this_socket (s : State) : option Socket :=
  match socket (this s) with
  | Some i => sockets (page s) !! i
  | None => None
  end.

(** [this.socket.readyState] *)
Definition socket_readyState : M State ReadyState :=
  s <- get ;;
  match this_socket s with
  | Some sk => ret (readyState sk)
  | None => throw (TypeError "Cannot read properties of null (reading 'readyState')")
  end.

Definition update_socket (i : nat) (f : Socket -> Socket) (s : State) : State :=
  on_page (fun b => set_sockets (alter f i (sockets b)) b) s.

Definition with_readyState (r : ReadyState) (sk : Socket) : Socket :=
  {| url := url sk; readyState := r; outbox := outbox sk |}.
Definition with_frame (text : JSVal) (sk : Socket) : Socket :=
  {| url := url sk; readyState := readyState sk; outbox := outbox sk ++ [text] |}.

(** [this.socket.send(text)]: throws while the socket is still connecting,
    queues the frame when it is open, drops it silently afterwards. *)
Definition socket_send (text : JSVal) : M State unit :=
  s <- get ;;
  match socket (this s), this_socket s with
  | Some i, Some sk =>
      match readyState sk with
      | CONNECTING => throw InvalidStateError
      | OPEN => modify (update_socket i (with_frame text))
      | CLOSING | CLOSED => ret tt
      end
  | _, _ => throw (TypeError "Cannot read properties of null (reading 'send')")
  end.

(** [this.socket.close()] *)
Definition socket_close : M State unit :=
  s <- get ;;
  match socket (this s), this_socket s with
  | Some i, Some sk =>
      match readyState sk with
      | CONNECTING | OPEN => modify (update_socket i (with_readyState CLOSING))
      | CLOSING | CLOSED => ret tt
      end
  | _, _ => throw (TypeError "Cannot read properties of null (reading 'close')")
  end.

(** [setTimeout(callback, delay)] for the reconnect callback. *)
Definition setTimeout (delay : Z) : M State unit :=
  modify (on_page (fun b => set_timers (timers b ++ [delay]) b)).

(** *** updateConnectionStatus and showToast *)

Definition indicator_for (status : string) : Indicator :=
  if String.eqb status "connected" then ShowsConnected
  else if String.eqb status "disconnected" then ShowsDisconnected
  else if String.eqb status "error" then ShowsError
  else ShowsConnecting.

Definition updateConnectionStatus (status : string) : M State unit :=
  s <- get ;;
  match indicator (page s) with
  | None => throw (TypeError "Cannot read properties of null (reading 'querySelector')")
  | Some _ => modify (on_page (set_indicator (Some (indicator_for status))))
  end.

(** The request reaches the page's toast function, or the console when the
    page has none; the model records the request. *)
Definition showToast (title message type : string) : M State unit :=
  modify (on_page (fun b => set_toasts (toasts b ++ [(title, message, type)]) b)).

(** *** on, off, emit *)

(** [this.listeners] starts as the object literal [{}], so a lookup under a
    name that Object.prototype defines finds the inherited member, which is
    truthy and is not an array. *)
Definition object_prototype_names : list string :=
  ["constructor"; "hasOwnProperty"; "isPrototypeOf"; "propertyIsEnumerable";
   "toLocaleString"; "toString"; "valueOf"; "__proto__";
   "__defineGetter__"; "__defineSetter__"; "__lookupGetter__"; "__lookupSetter__"].

Definition inherited (event : string) : bool :=
  existsb (String.eqb event) object_prototype_names.

Definition not_a_function (member : string) : Error :=
  TypeError ("this.listeners[event]." +:+ member +:+ " is not a function").

Definition on (event : string) (callback : HandlerId) : M State unit :=
  s <- get ;;
  match listeners (this s) !! event with
  | Some l => modify (on_this (set_listeners (<[event := l ++ [callback]]> (listeners (this s)))))
  | None =>
      if inherited event then throw (not_a_function "push")
      else modify (on_this (set_listeners (<[event := [callback]]> (listeners (this s)))))
  end.

(** [indexOf]: the first position holding the callback. *)
Fixpoint indexOf (callback : HandlerId) (l : list HandlerId) : option nat :=
  match l with
  | [] => None
  | h :: rest => if Nat.eqb h callback then Some O else S <$> indexOf callback rest
  end.

Definition off (event : string) (callback : HandlerId) : M State unit :=
  s <- get ;;
  match listeners (this s) !! event with
  | Some l =>
      match indexOf callback l with
      | Some index => modify (on_this (set_listeners (<[event := delete index l]> (listeners (this s)))))
      | None => ret tt
      end
  | None => if inherited event then throw (not_a_function "indexOf") else ret tt
  end.

Section Dispatch.

(** The code of the registered callbacks. *)
Variable body : HandlerId -> JSVal -> Behaviour.

Definition registry_call (c : RegistryCall) : M State unit :=
  match c with
  | CallOn event h => on event h
  | CallOff event h => off event h
  end.

Fixpoint registry_calls_run (cs : list RegistryCall) : M State unit :=
  match cs with
  | [] => ret tt
  | c :: rest => registry_call c ;; registry_calls_run rest
  end.

(** [callback(data)] *)
Definition call (callback : HandlerId) (data : JSVal) : M State unit :=
  modify (on_page (fun b => set_invocations (invocations b ++ [(callback, data)]) b)) ;;
  registry_calls_run (registry_calls (body callback data)) ;;
  if throws (body callback data) then throw (Thrown callback) else ret tt.

(** The array stored under [event], as it is now. *)
Definition live_array (event : string) (s : State) : list HandlerId :=
  default [] (listeners (this s) !! event).

(** [Array.prototype.forEach] on the array stored under [event]: the length
    is read once, before the first call; at each index below it the
    element found in the array at that moment, if there still is one, is
    visited.  [on] and [off] change the array in place, so what a callback
    does to the registry is seen by the rest of the loop. *)
Fixpoint forEach (event : string) (visit : HandlerId -> M State unit)
    (remaining index : nat) : M State unit :=
  match remaining with
  | O => ret tt
  | S remaining' =>
      s <- get ;;
      match live_array event s !! index with
      | Some callback => visit callback
      | None => ret tt
      end ;;
      forEach event visit remaining' (S index)
  end.

(** The arrow function [emit] hands to [forEach]. *)
Definition visit (event : string) (data : JSVal) (callback : HandlerId) : M State unit :=
  try_catch (call callback data)
            (fun error => log (ErrListener event error)).

Definition emit (event : string) (data : JSVal) : M State unit :=
  s <- get ;;
  match listeners (this s) !! event with
  | None => if inherited event then throw (not_a_function "forEach") else ret tt
  | Some l => forEach event (visit event data) (length l) 0
  end.

(** *** connect and the socket's event handlers *)

Definition onopen (event : JSVal) : M State unit :=
  log LogConnected ;;
  modify (on_this (set_isConnected true)) ;;
  modify (on_this (set_reconnectAttempts 0)) ;;
  modify (on_this (set_reconnectInterval 1000)) ;;
  updateConnectionStatus "connected" ;;
  showToast "Connected" "Real-time connection established" "success" ;;
  emit "connected" event.

Definition onmessage (event_data : Text) : M State unit :=
  try_catch
    (data <- lift (JSON_parse event_data) ;;
     type <- match get_prop data "type" with
             | Some t => ret t
             | None => throw (TypeError "Cannot read properties of null (reading 'type')")
             end ;;
     log (LogReceived type) ;;
     emit "message" data ;;
     key <- lift (to_key type) ;;
     emit key data)
    (fun error => log (ErrParsing error)).

Definition scheduleReconnect : M State unit :=
  modify (on_this (fun m => set_reconnectAttempts (reconnectAttempts m + 1) m)) ;;
  s <- get ;;
  let delay :=
    Z.min (reconnectInterval (this s) * 2 ^ reconnectAttempts (this s)) 30000 in
  log (LogReconnect delay (reconnectAttempts (this s))) ;;
  showToast "Reconnecting"
    ("Attempting to reconnect... (" +:+ pretty (reconnectAttempts (this s)) +:+ "/"
       +:+ pretty (maxReconnectAttempts (this s)) +:+ ")")
    "warning" ;;
  setTimeout delay.

Definition close_event (code : Z) (reason : string) (wasClean : bool) : JSVal :=
  VObj [("code", VNum code); ("reason", VStr reason); ("wasClean", VBool wasClean)].

Definition onclose (code : Z) (reason : string) (wasClean : bool) : M State unit :=
  log (LogClosed code reason) ;;
  modify (on_this (set_isConnected false)) ;;
  updateConnectionStatus "disconnected" ;;
  emit "disconnected" (close_event code reason wasClean) ;;
  s <- get ;;
  if negb wasClean && (reconnectAttempts (this s) <? maxReconnectAttempts (this s)) then
    scheduleReconnect
  else if maxReconnectAttempts (this s) <=? reconnectAttempts (this s) then
    showToast "Connection Failed" "Unable to establish real-time connection" "error" ;;
    updateConnectionStatus "error"
  else ret tt.

Definition onerror (error : JSVal) : M State unit :=
  log ErrSocket ;;
  updateConnectionStatus "error" ;;
  emit "error" error.

Definition connect (ctor : bool) : M State unit :=
  try_catch
    (s <- get ;;
     let protocol :=
       if String.eqb (location_protocol (page s)) "https:" then "wss:" else "ws:" in
     let wsUrl := protocol +:+ "//" +:+ location_host (page s) +:+ "/ws" in
     log (LogConnecting wsUrl) ;;
     i <- new_WebSocket ctor wsUrl ;;
     modify (on_this (set_socket (Some i))))
    (fun error =>
       log (ErrCreate error) ;;
       updateConnectionStatus "error").

(** The callback [scheduleReconnect] hands to [setTimeout]. *)
Definition reconnect_callback (ctor : bool) : M State unit :=
  s <- get ;;
  if negb (isConnected (this s)) then connect ctor else ret tt.

Definition send (type data : JSVal) : M State bool :=
  s <- get ;;
  not_open <- (if negb (isConnected (this s)) then ret true
               else r <- socket_readyState ;; ret (negb (ReadyState_eqb r OPEN))) ;;
  if (not_open : bool) then
    log (WarnNotSent type data) ;;
    ret false
  else
    try_catch
      (let message := VObj [("type", type); ("data", data)] in
       text <- lift (JSON_stringify message) ;;
       socket_send text ;;
       ret true)
      (fun error =>
         log (ErrSending error) ;;
         ret false).

Definition close : M State unit :=
  s <- get ;;
  match socket (this s) with
  | Some _ => socket_close
  | None => ret tt
  end.

(** [new WebSocketManager()] on a page. *)
Definition constructor (page0 : Browser) (ctor : bool) : Completion unit * State :=
  connect ctor
    {| this := {| socket := None; isConnected := false; reconnectAttempts := 0;
                  maxReconnectAttempts := 5; reconnectInterval := 1000;
                  listeners := ∅ |};
       page := page0 |}.

(** *** The manager in the browser's event loop

    An event is either something the browser delivers (a socket event, a
    reconnect timer that fires) or a call of one of the manager's methods
    from outside.  [step] is [None] when the browser cannot deliver the
    event in that state: an open event needs a connecting socket, a message
    an open one, error and close a socket that is not closed yet, a timer
    must be pending.  An exception that leaves a handler ends that handler;
    what it had written stays. *)
Inductive Event :=
| SocketOpen (i : nat) (event : JSVal)
| SocketMessage (i : nat) (event_data : Text)
| SocketError (i : nat) (error : JSVal)
| SocketClose (i : nat) (code : Z) (reason : string) (wasClean : bool)
| TimerFires (k : nat) (ctor : bool)
| Call_connect (ctor : bool)
| Call_send (type data : JSVal)
| Call_close
| Call_on (event : string) (callback : HandlerId)
| Call_off (event : string) (callback : HandlerId)
| Call_emit (event : string) (data : JSVal).

Definition delivered (e : Event) : bool :=
  match e with
  | SocketOpen _ _ | SocketMessage _ _ | SocketError _ _
  | SocketClose _ _ _ _ | TimerFires _ _ => true
  | _ => false
  end.

Definition socket_state (i : nat) (s : State) : option ReadyState :=
  readyState <$> sockets (page s) !! i.

Definition step (e : Event) (s : State) : option State :=
  match e with
  | SocketOpen i event =>
      match socket_state i s with
      | Some CONNECTING => Some (snd (onopen event (update_socket i (with_readyState OPEN) s)))
      | _ => None
      end
  | SocketMessage i event_data =>
      match socket_state i s with
      | Some OPEN => Some (snd (onmessage event_data s))
      | _ => None
      end
  | SocketError i error =>
      match socket_state i s with
      | Some CLOSED | None => None
      | Some _ => Some (snd (onerror error s))
      end
  | SocketClose i code reason wasClean =>
      match socket_state i s with
      | Some CLOSED | None => None
      | Some _ =>
          Some (snd (onclose code reason wasClean (update_socket i (with_readyState CLOSED) s)))
      end
  | TimerFires k ctor =>
      match timers (page s) !! k with
      | Some _ =>
          Some (snd (reconnect_callback ctor
                       (on_page (fun b => set_timers (delete k (timers b)) b) s)))
      | None => None
      end
  | Call_connect ctor => Some (snd (connect ctor s))
  | Call_send type data => Some (snd (send type data s))
  | Call_close => Some (snd (close s))
  | Call_on event callback => Some (snd (on event callback s))
  | Call_off event callback => Some (snd (off event callback s))
  | Call_emit event data => Some (snd (emit event data s))
  end.

Fixpoint run (trace : list Event) (s : State) : option State :=
  match trace with
  | [] => Some s
  | e :: rest =>
      match step e s with
      | Some s' => run rest s'
      | None => None
      end
  end.

End Dispatch.

(** Sockets that have not been closed yet. *)
Definition live (sk : Socket) : bool := negb (ReadyState_eqb (readyState sk) CLOSED).
Definition live_sockets (s : State) : nat := length (filter (fun sk => live sk = true) (sockets (page s))).
Definition open_sockets (s : State) : nat :=
  length (filter (fun sk => ReadyState_eqb (readyState sk) OPEN = true) (sockets (page s))).

(** The guard of [send]. *)
Definition is_open (s : State) : bool :=
  isConnected (this s) &&
  match this_socket s with
  | Some sk => ReadyState_eqb (readyState sk) OPEN
  | None => false
  end.

Definition blank_page (protocol host : string) (ind : option Indicator) : Browser :=
  {| location_protocol := protocol; location_host := host; sockets := [];
     timers := []; indicator := ind; toasts := []; console := []; invocations := [] |}.

(** Everything but the handler registry, the console and the record of
    invocations: what [on], [off] and [emit] leave alone. *)
Definition connection (s : State) :=
  (socket (this s), isConnected (this s), reconnectAttempts (this s),
   maxReconnectAttempts (this s), reconnectInterval (this s),
   sockets (page s), timers (page s), indicator (page s), toasts (page s),
   location_protocol (page s), location_host (page s)).

Definition with_bus (ls : gmap string (list HandlerId)) (cs : list LogEntry)
    (inv : list (HandlerId * JSVal)) (s : State) : State :=
  on_this (set_listeners ls) (on_page (fun b => set_console cs (set_invocations inv b)) s).

(** What holds of the manager whatever happened to it: the policy
    constants keep their values, the attempt counter stays within 0..5,
    and [this.socket] is one of the sockets constructed, or null while
    none has been. *)
Definition well_formed (s : State) : Prop :=
  maxReconnectAttempts (this s) = 5 ∧
  reconnectInterval (this s) = 1000 ∧
  0 <= reconnectAttempts (this s) <= 5 ∧
  match socket (this s) with
  | Some j => (j < length (sockets (page s)))%nat
  | None => sockets (page s) = [] ∧ isConnected (this s) = false
  end.

(** At most one thing is under way: a socket that is not closed yet, or a
    reconnect timer. *)
Definition sequential (s : State) : Prop :=
  (live_sockets s + length (timers (page s)) <= 1)%nat.

(** The manager right after [new WebSocketManager()] on a fresh page. *)
Definition boot (protocol host : string) (ind : option Indicator) (ctor : bool) : State :=
  snd (constructor (blank_page protocol host ind) ctor).

(** What a dispatch leaves behind, besides what it does to the registry. *)
Definition bus_trace (s : State) := (invocations (page s), console (page s)).

(** The delays announced on the console by [scheduleReconnect], oldest
    first. *)
Definition reconnect_delays (s : State) : list Z :=
  omap (fun e => match e with LogReconnect delay _ => Some delay | _ => None end)
       (console (page s)).

Definition external_connect (e : Event) : bool :=
  match e with Call_connect _ => true | _ => false end.

(** The event of a registry call. *)
Definition event_of (c : RegistryCall) : string :=
  match c with CallOn event _ | CallOff event _ => event end.

(** Whether a registry call takes one of the callbacks [l] off the array
    stored under [event]: it is an [off] for that event and for one of
    them. *)
Definition takes_off (event : string) (l : list HandlerId) (c : RegistryCall) : Prop :=
  match c with
  | CallOff event' h => event' = event ∧ h ∈ l
  | CallOn _ _ => False
  end.

(** A connection attempt that fails: socket [i] reports an error and
    closes abnormally; when [retry] is set, the pending reconnect timer
    then fires. *)
Definition failure (i : nat) (retry : bool) : list Event :=
  [SocketError i VUndef; SocketClose i 1006 EmptyString false]
  ++ (if retry then [TimerFires 0 true] else []).

(** The first socket and the five reconnect attempts all fail. *)
Definition six_failures : list Event :=
  failure 0 true ++ failure 1 true ++ failure 2 true ++ failure 3 true
  ++ failure 4 true ++ failure 5 false.

(** Callbacks of which number 0 throws and the others return. *)
Definition first_throws : HandlerId -> JSVal -> Behaviour :=
  fun h _ => {| registry_calls := []; throws := Nat.eqb h 0 |}.

(** Callbacks of which number 0 unregisters itself from [analysis_result]
    (a callback meant to run once) and the others do nothing. *)
Definition first_unregisters_itself : HandlerId -> JSVal -> Behaviour :=
  fun h _ =>
    {| registry_calls := if Nat.eqb h 0 then [CallOff "analysis_result" 0%nat] else [];
       throws := false |}.

(** Callbacks of which number 0, while it runs, registers callback 2 under
    [analysis_result], takes it off again, registers callback 3 and then
    throws; the others do nothing. *)
Definition first_registers_more : HandlerId -> JSVal -> Behaviour :=
  fun h _ =>
    {| registry_calls := if Nat.eqb h 0
                         then [CallOn "analysis_result" 2%nat;
                               CallOff "analysis_result" 2%nat;
                               CallOn "analysis_result" 3%nat]
                         else [];
       throws := Nat.eqb h 0 |}.

(** Callbacks that neither touch the registry nor throw. *)
Definition quiet : HandlerId -> JSVal -> Behaviour :=
  fun _ _ => {| registry_calls := []; throws := false |}.

(** An [analysis_result] envelope as the server sends it, and its [data]
    member. *)
Definition example_result : JSVal :=
  VObj [("sentiment", VStr "positive"); ("confidence", VNum 1)].
Definition example_envelope : JSVal :=
  VObj [("type", VStr "analysis_result"); ("data", example_result)].

(** A manager on a page served over https, its first socket under way,
    and the state it is in after a trace of events (callbacks quiet). *)
Definition example_boot : State :=
  boot "https:" "example.org" (Some ShowsConnecting) true.

Definition state_after (trace : list Event) (s : State) : State :=
  default s (run quiet trace s).

(** The manager's picture of the connection agrees with the browser's:
    a socket that is not closed yet is [this.socket], and [isConnected] is
    set only while [this.socket] is open or closing. *)
Definition coherent (s : State) : Prop :=
  (∀ i sk, sockets (page s) !! i = Some sk → live sk = true → socket (this s) = Some i) ∧
  (isConnected (this s) = true →
     ∃ sk, this_socket s = Some sk ∧ (readyState sk = OPEN ∨ readyState sk = CLOSING)).

(** Where the page is, and where its sockets go. *)
Definition address (s : State) :=
  (location_protocol (page s), location_host (page s), url <$> sockets (page s)).

(** The URL [connect] computes on a page at [protocol]//[host]. *)
Definition ws_address (protocol host : string) : string :=
  (if String.eqb protocol "https:" then "wss:" else "ws:") +:+ "//" +:+ host +:+ "/ws".

(** The registry holds no array under a name that Object.prototype
    defines. *)
Definition own_names (s : State) : Prop :=
  ∀ event, inherited event = true → listeners (this s) !! event = None.

(** A statement that keeps a property of the state, however it ends. *)
Definition preserves {A} (P : State -> Prop) (m : M State A) : Prop :=
  ∀ s, P s → P (snd (m s)).

End WebSocketManager.

(** ** SentimentApp.debounce *)

Module Debounce.

Section Debounce.

(** The argument list of a call of the debounced function. *)
Variable A : Type.

(** The quiet window, in milliseconds. *)
Variable wait : Z.

(** A pending [setTimeout(later, wait)]: its id, the time it is due, and
    the arguments its [later] closure holds. *)
Record Timer := { id : nat; due : Z; args : A }.

(** [timeout] is the variable the closures share; [pending] is the
    browser's timer table; [invoked] lists the calls of [func] made so
    far, each with the time it was made at. *)
Record State := {
  timeout : option nat;
  pending : list Timer;
  next_id : nat;
  invoked : list (Z * A)
}.

(** [debounce(func, wait)]: what the two closures it returns start from,
    [timeout] still undefined and nothing scheduled. *)
Definition debounce : State :=
  {| timeout := None; pending := []; next_id := 0; invoked := [] |}.

(** [clearTimeout(timeout)]; clearing [undefined], or an id that is no
    longer pending, does nothing. *)
Definition clearTimeout (s : State) : State :=
  match timeout s with
  | None => s
  | Some i =>
      {| timeout := timeout s;
         pending := filter (fun tm => id tm ≠ i) (pending s);
         next_id := next_id s; invoked := invoked s |}
  end.

(** [timeout = setTimeout(later, wait)] at time [t], [later] closing over
    [a]. *)
Definition setTimeout (t : Z) (a : A) (s : State) : State :=
  {| timeout := Some (next_id s);
     pending := pending s ++ [{| id := next_id s; due := t + wait; args := a |}];
     next_id := S (next_id s); invoked := invoked s |}.

(** [debounced(...args)], called at time [t]. *)
Definition debounced (t : Z) (a : A) (s : State) : State :=
  setTimeout t a (clearTimeout s).

(** [debounced.cancel()] *)
Definition cancel (s : State) : State := clearTimeout s.

(** [later], run by the browser at time [t]: [clearTimeout(timeout)], then
    [func(...args)]. *)
Definition later (t : Z) (a : A) (s : State) : State :=
  let s' := clearTimeout s in
  {| timeout := timeout s'; pending := pending s'; next_id := next_id s';
     invoked := invoked s' ++ [(t, a)] |}.

Definition remove (i : nat) (s : State) : State :=
  {| timeout := timeout s; pending := filter (fun tm => id tm ≠ i) (pending s);
     next_id := next_id s; invoked := invoked s |}.

Definition is_pending (i : nat) (s : State) : bool :=
  existsb (fun tm => Nat.eqb (id tm) i) (pending s).

(** The browser lets time pass up to [t]: of the timers in the table, in
    the order they were set, each one that is due by [t] and has not been
    cleared meanwhile leaves the table and runs, at the time it is due. *)
Fixpoint fire (table : list Timer) (t : Z) (s : State) : State :=
  match table with
  | [] => s
  | tm :: rest =>
      if (due tm <=? t) && is_pending (id tm) s
      then fire rest t (later (due tm) (args tm) (remove (id tm) s))
      else fire rest t s
  end.

Definition advance (t : Z) (s : State) : State := fire (pending s) t s.

(** What happens to a debounced function over time. *)
Inductive Action :=
| Trigger (t : Z) (a : A)
| Cancel (t : Z)
| Idle (t : Z).

Definition act (x : Action) (s : State) : State :=
  match x with
  | Trigger t a => debounced t a (advance t s)
  | Cancel t => cancel (advance t s)
  | Idle t => advance t s
  end.

Definition run (trace : list Action) (s : State) : State :=
  foldl (fun s x => act x s) s trace.

(** Consecutive calls are closer than the quiet window. *)
Fixpoint rapid (calls : list (Z * A)) : Prop :=
  match calls with
  | c1 :: (c2 :: _) as rest => fst c1 <= fst c2 < fst c1 + wait ∧ rapid rest
  | _ => True
  end.


(** At most one timer is pending, and it is the one [timeout] names. *)
Definition single (s : State) : Prop :=
  pending s = [] ∨ ∃ tm, pending s = [tm] ∧ timeout s = Some (id tm).

End Debounce.

Arguments id {A} _.
Arguments due {A} _.
Arguments args {A} _.
Arguments timeout {A} _.
Arguments pending {A} _.
Arguments next_id {A} _.
Arguments invoked {A} _.
Arguments debounce {A}.
Arguments single {A} s.
Arguments Trigger {A} t a.
Arguments Cancel {A} t.
Arguments Idle {A} t.

End Debounce.

(** ** SentimentApp.analyzeText (static/js/app.js) *)

Module SentimentApp.

Local Open Scope js_scope.

(** The code units [String.prototype.trim] strips, the WhiteSpace and
    LineTerminator of ECMAScript: TAB, LF, VT, FF, CR, SP, NBSP (U+00A0),
    U+1680, U+2000 to U+200A, LS (U+2028), PS (U+2029), U+202F, U+205F,
    U+3000 and the byte order mark (U+FEFF). *)
Definition is_whitespace (u : N) : bool :=
  ((9 <=? u) && (u <=? 13) || (u =? 32) || (u =? 0xA0) || (u =? 0x1680)
   || (0x2000 <=? u) && (u <=? 0x200A) || (u =? 0x2028) || (u =? 0x2029)
   || (u =? 0x202F) || (u =? 0x205F) || (u =? 0x3000) || (u =? 0xFEFF))%N.

(** A text is a [string] that holds one character for each UTF-16 code
    unit, the character whose number is the code unit: position [i] of the
    [string] is [text.charCodeAt(i)], and U+00A0 is the character 160.  The
    texts of the model are therefore those whose code units are below
    256. *)
Definition code_unit (c : Ascii.ascii) : N := Ascii.N_of_ascii c.

Definition is_space (c : Ascii.ascii) : bool := is_whitespace (code_unit c).

(** The no-break space, U+00A0. *)
Definition NBSP : Ascii.ascii := Ascii.ascii_of_nat 160.

(** [String.prototype.trim]. *)

Fixpoint trim_start (l : list Ascii.ascii) : list Ascii.ascii :=
  match l with
  | c :: rest => if is_space c then trim_start rest else l
  | [] => []
  end.

Definition trim (text : string) : string :=
  String.string_of_list_ascii
    (rev (trim_start (rev (trim_start (String.list_ascii_of_string text))))).

(** [!text || text.trim().length === 0] *)
Definition is_empty (text : string) : bool :=
  String.eqb text EmptyString || (String.length (trim text) =? 0)%nat.

(** The Analyze button: whether it is disabled, and which of its two
    captions it shows. *)
Inductive Caption := AnalyzeSentiment | Analyzing.
Record Button := { disabled : bool; caption : Caption }.

Inductive ToastText :=
| Literal (s : string)
| MessageOf (e : Error)
| ValueOf (v : JSVal).

Inductive LogEntry :=
| LogWebSocketFailed
| WarnNotAvailable
| ErrAnalysis (e : Error).

(** The fields of the SentimentApp object that [analyzeText] touches (an
    element field is [None] when the page has no such element), the two
    global bindings it reaches the WebSocket manager through
    ([window.wsManager], which is either that manager or null, and the
    script-level [wsManager]), and what it leaves in the browser: bodies
    of the POST /api/analyze requests, toasts, console. *)
Record App := {
  isAnalyzing : bool;
  currentAnalysis : option JSVal;
  analyzeBtn : option Button;
  realtimeToggle : option bool;
  resultsSection : option string;
  window_wsManager : bool;
  wsManager : option WebSocketManager.State;
  requests : list JSVal;
  toasts : list (string * ToastText * string);
  console : list LogEntry
}.

Definition set_isAnalyzing (v : bool) (a : App) : App :=
  {| isAnalyzing := v; currentAnalysis := currentAnalysis a; analyzeBtn := analyzeBtn a;
     realtimeToggle := realtimeToggle a; resultsSection := resultsSection a;
     window_wsManager := window_wsManager a; wsManager := wsManager a;
     requests := requests a; toasts := toasts a; console := console a |}.
Definition set_currentAnalysis (v : option JSVal) (a : App) : App :=
  {| isAnalyzing := isAnalyzing a; currentAnalysis := v; analyzeBtn := analyzeBtn a;
     realtimeToggle := realtimeToggle a; resultsSection := resultsSection a;
     window_wsManager := window_wsManager a; wsManager := wsManager a;
     requests := requests a; toasts := toasts a; console := console a |}.
Definition set_analyzeBtn (v : option Button) (a : App) : App :=
  {| isAnalyzing := isAnalyzing a; currentAnalysis := currentAnalysis a; analyzeBtn := v;
     realtimeToggle := realtimeToggle a; resultsSection := resultsSection a;
     window_wsManager := window_wsManager a; wsManager := wsManager a;
     requests := requests a; toasts := toasts a; console := console a |}.
Definition set_resultsSection (v : option string) (a : App) : App :=
  {| isAnalyzing := isAnalyzing a; currentAnalysis := currentAnalysis a; analyzeBtn := analyzeBtn a;
     realtimeToggle := realtimeToggle a; resultsSection := v;
     window_wsManager := window_wsManager a; wsManager := wsManager a;
     requests := requests a; toasts := toasts a; console := console a |}.
Definition set_wsManager (v : option WebSocketManager.State) (a : App) : App :=
  {| isAnalyzing := isAnalyzing a; currentAnalysis := currentAnalysis a; analyzeBtn := analyzeBtn a;
     realtimeToggle := realtimeToggle a; resultsSection := resultsSection a;
     window_wsManager := window_wsManager a; wsManager := v;
     requests := requests a; toasts := toasts a; console := console a |}.
Definition set_requests (v : list JSVal) (a : App) : App :=
  {| isAnalyzing := isAnalyzing a; currentAnalysis := currentAnalysis a; analyzeBtn := analyzeBtn a;
     realtimeToggle := realtimeToggle a; resultsSection := resultsSection a;
     window_wsManager := window_wsManager a; wsManager := wsManager a;
     requests := v; toasts := toasts a; console := console a |}.
Definition set_toasts (v : list (string * ToastText * string)) (a : App) : App :=
  {| isAnalyzing := isAnalyzing a; currentAnalysis := currentAnalysis a; analyzeBtn := analyzeBtn a;
     realtimeToggle := realtimeToggle a; resultsSection := resultsSection a;
     window_wsManager := window_wsManager a; wsManager := wsManager a;
     requests := requests a; toasts := v; console := console a |}.
Definition set_console (v : list LogEntry) (a : App) : App :=
  {| isAnalyzing := isAnalyzing a; currentAnalysis := currentAnalysis a; analyzeBtn := analyzeBtn a;
     realtimeToggle := realtimeToggle a; resultsSection := resultsSection a;
     window_wsManager := window_wsManager a; wsManager := wsManager a;
     requests := requests a; toasts := toasts a; console := v |}.

Definition log (e : LogEntry) : M App unit :=
  modify (fun a => set_console (console a ++ [e]) a).

Definition showToast (title : string) (message : ToastText) (type : string) : M App unit :=
  modify (fun a => set_toasts (toasts a ++ [(title, message, type)]) a).

Definition setAnalyzeButtonState (isLoading : bool) : M App unit :=
  a <- get ;;
  match analyzeBtn a with
  | None => ret tt
  | Some _ =>
      if isLoading then
        modify (set_analyzeBtn (Some
          {| disabled := true; caption := Analyzing |}))
      else
        modify (set_analyzeBtn (Some
          {| disabled := false; caption := AnalyzeSentiment |}))
  end.

(** [window.wsManager?.isConnected] *)
Definition window_wsManager_isConnected (a : App) : bool :=
  window_wsManager a &&
  match wsManager a with
  | Some ws => WebSocketManager.isConnected (WebSocketManager.this ws)
  | None => false
  end.

(** [analyzeTextWebSocket(text)], the helper next to the manager. *)
Definition analyzeTextWebSocket (text : string) : M App bool :=
  a <- get ;;
  match wsManager a with
  | Some ws =>
      if WebSocketManager.isConnected (WebSocketManager.this ws) then
        fun a =>
          let sent :=
            WebSocketManager.send (VStr "analyze_text") (VObj [("text", VStr text)]) ws in
          (fst sent, set_wsManager (Some (snd sent)) a)
      else log WarnNotAvailable ;; ret false
  | None => log WarnNotAvailable ;; ret false
  end.

(** [analyzeText] is an async function: it runs until it returns or until
    it reaches an [await], and is resumed when the awaited promise is
    settled.  A suspended call remembers where it waits and its
    [isRealtime]. *)
Inductive AwaitPoint := AwaitFetch | AwaitJson.
Record Suspended := { point : AwaitPoint; realtime : bool }.
Inductive Progress := Finished | Waiting (k : Suspended).

(** The fields of a fetch Response that the code reads. *)
Record Response := { ok : bool; status : Z; statusText : string }.

Section Rendering.

(** The view updates of [displayAnalysisResult] (sentiment display, metrics,
    model comparison, detail tabs, emotions chart): whether they return on
    a given result, or throw. *)
Variable render : JSVal -> bool.

Definition displayAnalysisResult (result : JSVal) : M App unit :=
  error <- match get_prop result "error" with
           | Some e => ret e
           | None => throw (TypeError "Cannot read properties of null (reading 'error')")
           end ;;
  if truthy error then showToast "Analysis Error" (ValueOf error) "error"
  else
    modify (set_currentAnalysis (Some result)) ;;
    (if render result then ret tt else throw RenderingError) ;;
    a <- get ;;
    match resultsSection a with
    | Some _ => modify (set_resultsSection (Some "block"))
    | None => ret tt
    end.

(** [catch (error) { ... }] of [analyzeText] *)
Definition catch_block (error : Error) : M App unit :=
  log (ErrAnalysis error) ;;
  showToast "Analysis Error" (MessageOf error) "error".

(** [finally { ... }] of [analyzeText] *)
Definition finally_block (isRealtime : bool) : M App unit :=
  if negb isRealtime then
    modify (set_isAnalyzing false) ;;
    setAnalyzeButtonState false
  else ret tt.

(** A stretch of the [try] block: it ends at an [await] ([Some k]), at the
    end of the block ([None]), or by throwing.  Leaving the block, either
    way, goes through [catch] and [finally]; stopping at an [await] does
    not. *)
Definition try_block (isRealtime : bool) (stretch : M App (option Suspended)) : M App Progress :=
  fun a =>
    match stretch a with
    | (Normal (Some k), a') => (Normal (Waiting k), a')
    | (Normal None, a') =>
        try_finally (ret Finished) (finally_block isRealtime) a'
    | (Throw error, a') =>
        try_finally (catch_block error ;; ret Finished) (finally_block isRealtime) a'
    end.

(** [fetch('/api/analyze', { method: 'POST', ..., body })] *)
Definition fetch (body : JSVal) : M App unit :=
  modify (fun a => set_requests (requests a ++ [body]) a).

(** The [try] block up to [await fetch(...)]: the push channel first, when
    real-time is switched on and the manager is connected, then the
    fallback request. *)
Definition request_stretch (text : string) (isRealtime : bool) : M App (option Suspended) :=
  a <- get ;;
  success <-
    (if default false (realtimeToggle a) && window_wsManager_isConnected a then
       success <- analyzeTextWebSocket text ;;
       (if (success : bool) then ret tt else log LogWebSocketFailed) ;;
       ret success
     else ret false) ;;
  if (success : bool) then ret None
  else
    fetch (VObj [("text", VStr text); ("save_to_db", VBool (negb isRealtime))]) ;;
    ret (Some {| point := AwaitFetch; realtime := isRealtime |}).

Definition analyzeText (text : string) (isRealtime : bool) : M App Progress :=
  if is_empty text then
    setAnalyzeButtonState false ;;
    ret Finished
  else
    a <- get ;;
    if isAnalyzing a && negb isRealtime then ret Finished
    else
      modify (set_isAnalyzing true) ;;
      setAnalyzeButtonState true ;;
      try_block isRealtime (request_stretch text isRealtime).

(** From the settled [fetch] to [await response.json()]. *)
Definition response_stretch (isRealtime : bool) (settled : Completion Response)
    : M App (option Suspended) :=
  response <- lift settled ;;
  if negb (ok response) then throw (HttpError (status response) (statusText response))
  else ret (Some {| point := AwaitJson; realtime := isRealtime |}).

(** The call resumes after [await fetch(...)], the promise settled. *)
Definition after_fetch (isRealtime : bool) (settled : Completion Response) : M App Progress :=
  try_block isRealtime (response_stretch isRealtime settled).

(** From the parsed response to the end of the [try] block. *)
Definition result_stretch (isRealtime : bool) (settled : Completion JSVal)
    : M App (option Suspended) :=
  result <- lift settled ;;
  displayAnalysisResult result ;;
  (if negb isRealtime then
     a <- get ;;
     match resultsSection a with
     | Some _ => modify (set_resultsSection (Some "block"))
     | None => throw (TypeError "Cannot read properties of null (reading 'style')")
     end
   else ret tt) ;;
  ret None.

(** The call resumes after [await response.json()]. *)
Definition after_json (isRealtime : bool) (settled : Completion JSVal) : M App Progress :=
  try_block isRealtime (result_stretch isRealtime settled).

Definition resume (k : Suspended) (fetched : Completion Response)
    (parsed : Completion JSVal) : M App Progress :=
  match point k with
  | AwaitFetch => after_fetch (realtime k) fetched
  | AwaitJson => after_json (realtime k) parsed
  end.

(** One submission, carried to its end with nothing else running in
    between: what the network answers is given beforehand. *)
Definition attempt (text : string) (isRealtime : bool)
    (fetched : Completion Response) (parsed : Completion JSVal) : M App Progress :=
  p <- analyzeText text isRealtime ;;
  match p with
  | Finished => ret Finished
  | Waiting k =>
      p' <- resume k fetched parsed ;;
      match p' with
      | Finished => ret Finished
      | Waiting k' => resume k' fetched parsed
      end
  end.

End Rendering.

(** The call is over: it returned, or an exception left it. *)
Definition over (r : Completion Progress) : bool :=
  match r with
  | Normal (Waiting _) => false
  | _ => true
  end.

(** The page as the constructor leaves it, all elements present. *)
Definition fresh (ws : option WebSocketManager.State) (bound toggle : bool) : App :=
  {| isAnalyzing := false; currentAnalysis := None;
     analyzeBtn := Some {| disabled := false; caption := AnalyzeSentiment |};
     realtimeToggle := Some toggle; resultsSection := Some "none";
     window_wsManager := bound; wsManager := ws;
     requests := []; toasts := []; console := [] |}.

End SentimentApp.

(** ** The list of recent reviews (static/js/app.js) *)

Module Reviews.

(** What a [new_analysis] broadcast carries, and an entry of
    [this.recentReviews].  A timestamp stands for the instant
    [new Date(timestamp)] denotes, in milliseconds. *)
Record ReviewData := {
  text_preview : string;
  data_sentiment : string;
  data_confidence : JSVal;
  data_timestamp : Z
}.

Record Review := {
  text : string;
  sentiment : string;
  confidence : JSVal;
  timestamp : Z
}.

(** A [div.review-item]: the sentiment badge, the age and the preview of
    the text. *)
Record Element := { badge : string; review_time : string; review_text : string }.

(** [this.recentReviews], and the children of [#recent-reviews-list]
    ([None] when the page has no such element). *)
Record State := {
  recentReviews : list Review;
  recentReviewsList : option (list Element)
}.

(** [timeAgo(date)] at the instant [now]: [Math.floor((now - date) / 1000)]
    seconds, shown in the coarsest unit that is not zero. *)
Inductive Age := JustNow | Minutes (n : Z) | Hours (n : Z) | Days (n : Z).

Definition age (now date : Z) : Age :=
  let diff := (now - date) / 1000 in
  if diff <? 60 then JustNow
  else if diff <? 3600 then Minutes (diff / 60)
  else if diff <? 86400 then Hours (diff / 3600)
  else Days (diff / 86400).

Definition show (a : Age) : string :=
  match a with
  | JustNow => "just now"
  | Minutes n => pretty n +:+ "m ago"
  | Hours n => pretty n +:+ "h ago"
  | Days n => pretty n +:+ "d ago"
  end.

Definition timeAgo (now date : Z) : string := show (age now date).

(** [text.length > 150 ? text.substring(0, 150) + '...' : text] *)
Definition preview (text : string) : string :=
  if (150 <? String.length text)%nat then String.substring 0 150 text +:+ "..."
  else text.

Definition createReviewElement (now : Z) (review : Review) : Element :=
  {| badge := sentiment review;
     review_time := timeAgo now (timestamp review);
     review_text := preview (text review) |}.

Definition displayRecentReviews (now : Z) (s : State) : State :=
  match recentReviewsList s with
  | None => s
  | Some _ =>
      {| recentReviews := recentReviews s;
         recentReviewsList := Some (map (createReviewElement now) (recentReviews s)) |}
  end.

(** [addToRecentReviews(reviewData)]: [unshift], then the cut to the
    latest 50, then the list is drawn again. *)
Definition addToRecentReviews (now : Z) (reviewData : ReviewData) (s : State) : State :=
  let unshifted :=
    {| text := text_preview reviewData; sentiment := data_sentiment reviewData;
       confidence := data_confidence reviewData;
       timestamp := data_timestamp reviewData |} :: recentReviews s in
  let kept := if (50 <? length unshifted)%nat then take 50 unshifted else unshifted in
  displayRecentReviews now
    {| recentReviews := kept; recentReviewsList := recentReviewsList s |}.

(** The entry a broadcast becomes. *)
Definition entry (reviewData : ReviewData) : Review :=
  {| text := text_preview reviewData; sentiment := data_sentiment reviewData;
     confidence := data_confidence reviewData; timestamp := data_timestamp reviewData |}.

(** Broadcasts arriving one after the other, each at its instant. *)
Definition broadcasts (arrivals : list (Z * ReviewData)) (s : State) : State :=
  foldl (fun s x => addToRecentReviews (fst x) (snd x) s) s arrivals.

End Reviews.

(** ** The form around [analyzeText] (static/js/app.js) *)

Module Form.

Import SentimentApp.

Local Open Scope js_scope.

(** The application object with the rest of the form: the value of the
    text area and the number shown by the character counter ([None] when
    the page has no such element), and the timer state that the two
    closures of [this.debounceAnalyze] share. *)
Record Page := {
  app : App;
  textArea : option string;
  charCount : option nat;
  debounceAnalyze : Debounce.State string
}.

Definition set_app (v : App) (p : Page) : Page :=
  {| app := v; textArea := textArea p; charCount := charCount p;
     debounceAnalyze := debounceAnalyze p |}.
Definition set_textArea (v : option string) (p : Page) : Page :=
  {| app := app p; textArea := v; charCount := charCount p;
     debounceAnalyze := debounceAnalyze p |}.
Definition set_charCount (v : option nat) (p : Page) : Page :=
  {| app := app p; textArea := textArea p; charCount := v;
     debounceAnalyze := debounceAnalyze p |}.
Definition set_debounceAnalyze (v : Debounce.State string) (p : Page) : Page :=
  {| app := app p; textArea := textArea p; charCount := charCount p;
     debounceAnalyze := v |}.

(** A method of the application object, run on the page. *)
Definition on_app {A} (m : M App A) : M Page A :=
  fun p => let (r, a) := m (app p) in (r, set_app a p).

(** The quiet window of [debounceAnalyze]. *)
Definition wait : Z := 1500.

Definition updateCharCount : M Page unit :=
  p <- get ;;
  match charCount p, textArea p with
  | Some _, Some value =>
      let count := String.length value in
      modify (set_charCount (Some count)) ;;
      if (count =? 0)%nat then
        on_app (modify (set_isAnalyzing false)) ;;
        on_app (setAnalyzeButtonState false)
      else ret tt
  | _, _ => ret tt
  end.

(** [handleSubmit()]: [this.textArea?.value?.trim()], refused when it is
    not truthy, handed to [analyzeText] otherwise. *)
Definition handleSubmit : M Page Progress :=
  p <- get ;;
  let text := trim <$> textArea p in
  match text with
  | Some text =>
      if String.eqb text EmptyString then
        on_app (showToast "Empty Text" (Literal "Please enter some text to analyze")
                  "warning") ;;
        ret Finished
      else on_app (analyzeText text false)
  | None =>
      on_app (showToast "Empty Text" (Literal "Please enter some text to analyze")
                "warning") ;;
      ret Finished
  end.

(** The function [debounceAnalyze] wraps. *)
Definition debounceAnalyze_callback (text : string) : M Page Progress :=
  if is_empty text then
    on_app (setAnalyzeButtonState false) ;;
    ret Finished
  else if (10 <? String.length (trim text))%nat then
    on_app (analyzeText text true)
  else
    on_app (setAnalyzeButtonState false) ;;
    ret Finished.

Definition clearForm : M Page unit :=
  p <- get ;;
  (match textArea p with
   | Some _ =>
       modify (set_textArea (Some EmptyString)) ;;
       updateCharCount
   | None => ret tt
   end) ;;
  on_app (modify (set_isAnalyzing false)) ;;
  on_app (setAnalyzeButtonState false) ;;
  on_app (a <- get ;;
          match resultsSection a with
          | Some _ => modify (set_resultsSection (Some "none"))
          | None => ret tt
          end) ;;
  modify (fun p => set_debounceAnalyze (Debounce.cancel string (debounceAnalyze p)) p) ;;
  on_app (showToast "Cleared" (Literal "Form cleared successfully") "info").

(** The browser lets time pass up to [t]: the debounce timers due by then
    run, and each hands its text to the callback.  The callback does not
    wait for [analyzeText]; what a call does after its first [await] is
    not part of this step. *)
Definition elapse (t : Z) (p : Page) : Page :=
  let d := Debounce.advance string t (debounceAnalyze p) in
  let fired := drop (length (Debounce.invoked (debounceAnalyze p))) (Debounce.invoked d) in
  foldl (fun p call => snd (debounceAnalyze_callback (snd call) p))
        (set_debounceAnalyze d p) fired.

(** The listener of the text area's [input] event, at time [t], the user
    having made the text [value]. *)
Definition oninput (t : Z) (value : string) (p : Page) : Page :=
  let p1 := set_textArea (Some value) (elapse t p) in
  let p2 := snd (updateCharCount p1) in
  if default false (realtimeToggle (app p2)) then
    set_debounceAnalyze (Debounce.debounced string wait t value (debounceAnalyze p2)) p2
  else p2.

(** The user types: one [input] event after the other. *)
Definition typing (inputs : list (Z * string)) (p : Page) : Page :=
  foldl (fun p x => oninput (fst x) (snd x) p) p inputs.

(** The page when the constructor is done, the application as given. *)
Definition fresh (a : App) : Page :=
  {| app := a; textArea := Some EmptyString; charCount := Some 0%nat;
     debounceAnalyze := Debounce.debounce |}.

(** One real-time analysis is scheduled: for the text [value], typed at
    [t]. *)
Definition armed (t : Z) (value : string) (p : Page) : Prop :=
  ∃ tm, Debounce.pending (debounceAnalyze p) = [tm] ∧
        Debounce.timeout (debounceAnalyze p) = Some (Debounce.id tm) ∧
        Debounce.due tm = t + wait ∧ Debounce.args tm = value.

End Form.

(** ** The HTTP-only build (the first script of unnamed/part_001) *)

Module HttpApp.

Import SentimentApp.

Local Open Scope js_scope.

(** [analyzeText(text)]: no empty-text guard, no push channel, and a
    [finally] that does not ask which kind of call it ends. *)
Definition finally_block : M App unit :=
  modify (set_isAnalyzing false) ;;
  setAnalyzeButtonState false.

Definition try_block (stretch : M App (option Suspended)) : M App Progress :=
  fun a =>
    match stretch a with
    | (Normal (Some k), a') => (Normal (Waiting k), a')
    | (Normal None, a') => try_finally (ret Finished) finally_block a'
    | (Throw error, a') =>
        try_finally (catch_block error ;; ret Finished) finally_block a'
    end.

Definition request_stretch (text : string) : M App (option Suspended) :=
  fetch (VObj [("text", VStr text); ("save_to_db", VBool true)]) ;;
  ret (Some {| point := AwaitFetch; realtime := false |}).

Definition analyzeText (text : string) : M App Progress :=
  a <- get ;;
  if isAnalyzing a then ret Finished
  else
    modify (set_isAnalyzing true) ;;
    setAnalyzeButtonState true ;;
    try_block (request_stretch text).

Definition response_stretch (settled : Completion Response) : M App (option Suspended) :=
  response <- lift settled ;;
  if negb (ok response) then throw (HttpError (status response) (statusText response))
  else ret (Some {| point := AwaitJson; realtime := false |}).

Definition after_fetch (settled : Completion Response) : M App Progress :=
  try_block (response_stretch settled).

Section Rendering.

Variable render : JSVal -> bool.

Definition result_stretch (settled : Completion JSVal) : M App (option Suspended) :=
  result <- lift settled ;;
  displayAnalysisResult render result ;;
  (a <- get ;;
   match resultsSection a with
   | Some _ => modify (set_resultsSection (Some "block"))
   | None => throw (TypeError "Cannot read properties of null (reading 'style')")
   end) ;;
  ret None.

Definition after_json (settled : Completion JSVal) : M App Progress :=
  try_block (result_stretch settled).

Definition resume (k : Suspended) (fetched : Completion Response)
    (parsed : Completion JSVal) : M App Progress :=
  match point k with
  | AwaitFetch => after_fetch fetched
  | AwaitJson => after_json parsed
  end.

End Rendering.

(** The application object with the rest of the form: the value of the
    text area, the number the character counter shows and its colour
    ([None] when the page has no such element), and the calls of
    [analyzeText] that wait at an [await]. *)
Record Page := {
  app : App;
  textArea : option string;
  charCount : option (nat * string);
  calls : list Suspended
}.

Definition set_app (v : App) (p : Page) : Page :=
  {| app := v; textArea := textArea p; charCount := charCount p; calls := calls p |}.
Definition set_textArea (v : option string) (p : Page) : Page :=
  {| app := app p; textArea := v; charCount := charCount p; calls := calls p |}.
Definition set_charCount (v : option (nat * string)) (p : Page) : Page :=
  {| app := app p; textArea := textArea p; charCount := v; calls := calls p |}.
Definition set_calls (v : list Suspended) (p : Page) : Page :=
  {| app := app p; textArea := textArea p; charCount := charCount p; calls := v |}.

Definition on_app {A} (m : M App A) : M Page A :=
  fun p => let (r, a) := m (app p) in (r, set_app a p).

Definition updateCharCount (p : Page) : Page :=
  match textArea p, charCount p with
  | Some value, Some _ =>
      let length := String.length value in
      set_charCount
        (Some (length,
               if 8000 <? Z.of_nat length then "#ef4444"
               else if 6000 <? Z.of_nat length then "#f59e0b"
               else "#94a3b8")) p
  | _, _ => p
  end.

Definition clearForm (p : Page) : Page :=
  let p1 := match textArea p with
            | Some _ => updateCharCount (set_textArea (Some EmptyString) p)
            | None => p
            end in
  match resultsSection (app p1) with
  | Some _ => set_app (set_resultsSection (Some "none") (app p1)) p1
  | None => p1
  end.

Definition handleSubmit : M Page Progress :=
  p <- get ;;
  let text := trim <$> textArea p in
  match text with
  | Some text =>
      if String.eqb text EmptyString then
        on_app (showToast "Empty Text" (Literal "Please enter some text to analyze")
                  "warning") ;;
        ret Finished
      else on_app (analyzeText text)
  | None =>
      on_app (showToast "Empty Text" (Literal "Please enter some text to analyze")
                "warning") ;;
      ret Finished
  end.

(** What happens on the page: the user submits the form, edits the text
    or clears the form, or the promise that outstanding call number [i]
    waits for is settled. *)
Inductive Event :=
| Submit
| Input (value : string)
| Clear
| Settle (i : nat) (fetched : Completion Response) (parsed : Completion JSVal).

Definition is_submit (e : Event) : bool :=
  match e with Submit => true | _ => false end.

(** How often the user has submitted the form. *)
Definition submissions (trace : list Event) : nat :=
  length (filter (fun e => is_submit e = true) trace).

(** A call that has stopped at an [await] joins the outstanding ones. *)
Definition started (r : Completion Progress * Page) : Page :=
  match fst r with
  | Normal (Waiting k) => set_calls (calls (snd r) ++ [k]) (snd r)
  | _ => snd r
  end.

Section Loop.

Variable render : JSVal -> bool.

Definition step (e : Event) (p : Page) : option Page :=
  match e with
  | Submit => Some (started (handleSubmit p))
  | Input value =>
      match textArea p with
      | Some _ => Some (updateCharCount (set_textArea (Some value) p))
      | None => None
      end
  | Clear => Some (clearForm p)
  | Settle i fetched parsed =>
      match calls p !! i with
      | Some k =>
          Some (started (on_app (resume render k fetched parsed)
                           (set_calls (delete i (calls p)) p)))
      | None => None
      end
  end.

Fixpoint run (trace : list Event) (p : Page) : option Page :=
  match trace with
  | [] => Some p
  | e :: rest =>
      match step e p with
      | Some p' => run rest p'
      | None => None
      end
  end.

End Loop.

(** The page when the constructor is done, the application as given. *)
Definition fresh (a : App) : Page :=
  {| app := a; textArea := Some EmptyString; charCount := Some (0%nat, "#94a3b8");
     calls := [] |}.

(** A request of this build: a text that is not blank, without
    whitespace around it, to be saved. *)
Definition well_formed_request (body : JSVal) : Prop :=
  ∃ text, body = VObj [("text", VStr text); ("save_to_db", VBool true)] ∧
          trim text = text ∧ is_empty text = false.

(** The busy flag tells the truth: it is set exactly while a call is
    outstanding, there is never more than one, and every call is a manual
    one. *)
Definition exclusive (p : Page) : Prop :=
  (length (calls p) <= 1)%nat ∧
  (isAnalyzing (app p) = true ↔ calls p ≠ []) ∧
  (∀ k, k ∈ calls p → realtime k = false).

End HttpApp.

(** ** The form and the calls that wait (static/js/app.js) *)

Module FormLoop.

Import SentimentApp.

(** The page of the application together with the calls of [analyzeText]
    that wait at an [await]. *)
Record State := { page : Form.Page; calls : list Suspended }.

(** What happens on the page: the user submits the form, edits the text at
    time [t] or clears the form; time passes up to [t]; or the promise that
    outstanding call number [i] waits for is settled. *)
Inductive Event :=
| Submit
| Input (t : Z) (value : string)
| Clear
| Elapse (t : Z)
| Settle (i : nat) (fetched : Completion Response) (parsed : Completion JSVal).

(** A call that has stopped at an [await]. *)
Definition waiting (r : Completion Progress) : list Suspended :=
  match r with
  | Normal (Waiting k) => [k]
  | _ => []
  end.

(** A method of the page is called; a call that stops at an [await] joins
    the outstanding ones. *)
Definition start (m : M Form.Page Progress) (s : State) : State :=
  let r := m (page s) in
  {| page := snd r; calls := calls s ++ waiting (fst r) |}.

(** Time passes up to [t], as in [Form.elapse]: the debounce timers due by
    then run, and each hands its text to the callback. *)
Definition elapse (t : Z) (s : State) : State :=
  let d := Debounce.advance string t (Form.debounceAnalyze (page s)) in
  let fired := drop (length (Debounce.invoked (Form.debounceAnalyze (page s))))
                    (Debounce.invoked d) in
  foldl (fun s call => start (Form.debounceAnalyze_callback (snd call)) s)
        {| page := Form.set_debounceAnalyze d (page s); calls := calls s |} fired.

Section Loop.

Variable render : JSVal -> bool.

Definition step (e : Event) (s : State) : option State :=
  match e with
  | Submit => Some (start Form.handleSubmit s)
  | Input t value =>
      match Form.textArea (page s) with
      | Some _ =>
          Some {| page := Form.oninput t value (page s); calls := calls (elapse t s) |}
      | None => None
      end
  | Clear => Some {| page := snd (Form.clearForm (page s)); calls := calls s |}
  | Elapse t => Some (elapse t s)
  | Settle i fetched parsed =>
      match calls s !! i with
      | Some k =>
          Some (start (Form.on_app (resume render k fetched parsed))
                  {| page := page s; calls := delete i (calls s) |})
      | None => None
      end
  end.

Fixpoint run (trace : list Event) (s : State) : option State :=
  match trace with
  | [] => Some s
  | e :: rest =>
      match step e s with
      | Some s' => run rest s'
      | None => None
      end
  end.

End Loop.

(** The page when the constructor is done, the application as given. *)
Definition fresh (a : App) : State := {| page := Form.fresh a; calls := [] |}.

(** The manual calls among the outstanding ones. *)
Definition manual (s : State) : list Suspended :=
  List.filter (fun k => negb (realtime k)) (calls s).

(** At most one manual call waits, and the busy flag is set while one
    does. *)
Definition exclusive (s : State) : Prop :=
  (length (manual s) <= 1)%nat ∧
  (manual s ≠ [] → isAnalyzing (Form.app (page s)) = true).


End FormLoop.

(** * Properties *)

Import WebSocketManager.

(** Unfolding the statement monad. *)
Ltac js_unfold :=
  unfold bind, ret, throw, get, modify, lift, try_catch, try_finally in *.

(** ** The registry operations leave the connection alone *)

Section BusFacts.

Variable body : HandlerId -> JSVal -> Behaviour.

Lemma on_connection event h s :
  connection (snd (on event h s)) = connection s.
Proof.
  unfold on. js_unfold. simpl.
  destruct (listeners (this s) !! event); [reflexivity|].
  destruct (inherited event); reflexivity.
Qed.

Lemma off_connection event h s :
  connection (snd (off event h s)) = connection s.
Proof.
  unfold off. js_unfold. simpl.
  destruct (listeners (this s) !! event) as [l|].
  - destruct (indexOf h l); reflexivity.
  - destruct (inherited event); reflexivity.
Qed.

Lemma registry_calls_connection cs s :
  connection (snd (registry_calls_run cs s)) = connection s.
Proof.
  revert s. induction cs as [|c cs IH]; intros s; [reflexivity|].
  simpl. unfold bind.
  destruct (registry_call c s) as [[[]|e] s1] eqn:E.
  - rewrite IH. replace s1 with (snd (registry_call c s)) by (rewrite E; reflexivity).
    destruct c; simpl; [apply on_connection | apply off_connection].
  - simpl. replace s1 with (snd (registry_call c s)) by (rewrite E; reflexivity).
    destruct c; simpl; [apply on_connection | apply off_connection].
Qed.

Lemma call_connection h data s :
  connection (snd (call body h data s)) = connection s.
Proof.
  unfold call. unfold bind at 1. unfold modify at 1.
  unfold bind.
  match goal with |- context [registry_calls_run ?cs ?s0] =>
    pose proof (registry_calls_connection cs s0) as H;
    destruct (registry_calls_run cs s0) as [[[]|e] s1] end; simpl in *.
  - destruct (throws (body h data)); simpl; rewrite H; reflexivity.
  - rewrite H. reflexivity.
Qed.

Lemma visit_normal event data h s : fst (visit body event data h s) = Normal tt.
Proof.
  unfold visit, try_catch. destruct (call body h data s) as [[[]|e] s1]; reflexivity.
Qed.

Lemma visit_connection event data h s :
  connection (snd (visit body event data h s)) = connection s.
Proof.
  unfold visit, try_catch. pose proof (call_connection h data s) as H.
  destruct (call body h data s) as [[[]|e] s1]; simpl in *; rewrite <- H; reflexivity.
Qed.

Lemma forEach_visit event data n k s :
  fst (forEach event (visit body event data) n k s) = Normal tt ∧
  connection (snd (forEach event (visit body event data) n k s)) = connection s.
Proof.
  revert k s. induction n as [|n IH]; intros k s; [split; reflexivity|].
  cbn [forEach]. unfold bind, get, ret.
  destruct (live_array event s !! k) as [h|].
  - pose proof (visit_normal event data h s) as Hn.
    pose proof (visit_connection event data h s) as Hc.
    destruct (visit body event data h s) as [r s1]. simpl in Hn, Hc. subst r.
    destruct (IH (S k) s1) as [H1 H2]. split; [exact H1 | rewrite H2; exact Hc].
  - apply IH.
Qed.

Lemma emit_connection event data s :
  connection (snd (emit body event data s)) = connection s.
Proof.
  unfold emit. unfold bind, get.
  destruct (listeners (this s) !! event) as [l|].
  - apply (forEach_visit event data (length l) 0 s).
  - destruct (inherited event); reflexivity.
Qed.

Lemma emit_normal event data s :
  inherited event = false → fst (emit body event data s) = Normal tt.
Proof.
  intros Hi. unfold emit. unfold bind, get.
  destruct (listeners (this s) !! event) as [l|].
  - apply (forEach_visit event data (length l) 0 s).
  - rewrite Hi. reflexivity.
Qed.

End BusFacts.

(** ** The socket handlers, seen from the connection *)

Lemma connection_eq_bus s' s :
  connection s' = connection s →
  s' = with_bus (listeners (this s')) (console (page s')) (invocations (page s')) s.
Proof.
  destruct s as [[] []], s' as [[] []]. unfold connection, with_bus. simpl.
  intros [= -> -> -> -> -> -> -> -> -> -> ->]. reflexivity.
Qed.

(** Replace the next [emit] of the goal by its result: a normal completion
    (for an event name that is not inherited) and a state that differs
    from the one before in the registry, the console and the record of
    invocations only. *)
Ltac emit_result body :=
  match goal with
  | |- context [emit body ?ev ?d ?s] =>
      let Hc := fresh "Hc" in
      let Hn := fresh "Hn" in
      let r := fresh "r" in
      let s2 := fresh "s" in
      pose proof (emit_connection body ev d s) as Hc;
      pose proof (emit_normal body ev d s) as Hn;
      destruct (emit body ev d s) as [r s2];
      simpl in Hc, Hn;
      apply connection_eq_bus in Hc;
      try (specialize (Hn eq_refl); subst r);
      rewrite Hc; clear Hc
  end.

Section Handlers.

Variable body : HandlerId -> JSVal -> Behaviour.

Lemma onmessage_connection event_data s :
  connection (snd (onmessage body event_data s)) = connection s.
Proof.
  unfold onmessage. js_unfold.
  destruct (JSON_parse event_data) as [data|e]; [|reflexivity].
  destruct (get_prop data "type") as [type|]; [|reflexivity].
  unfold log. js_unfold.
  emit_result body. simpl.
  destruct (to_key type) as [key|error]; [|reflexivity].
  match goal with |- context [emit body ?ev ?d ?s] =>
    pose proof (emit_connection body ev d s) as Hc;
    destruct (emit body ev d s) as [[[]|e] s3] end;
    unfold connection in *; simpl in *; exact Hc.
Qed.

Lemma onerror_connection error s :
  connection (snd (onerror body error s)) =
  match indicator (page s) with
  | Some _ => connection (on_page (set_indicator (Some ShowsError)) s)
  | None => connection s
  end.
Proof.
  unfold onerror, log, updateConnectionStatus. js_unfold. simpl.
  destruct (indicator (page s)); [|reflexivity].
  emit_result body. reflexivity.
Qed.

Lemma onopen_connection event s :
  connection (snd (onopen body event s)) =
  match indicator (page s) with
  | Some _ =>
      connection
        (on_page (fun b => set_toasts (toasts b ++
                     [("Connected", "Real-time connection established", "success")])
                     (set_indicator (Some ShowsConnected) b))
           (on_this (fun m => set_reconnectInterval 1000
                       (set_reconnectAttempts 0 (set_isConnected true m))) s))
  | None =>
      connection
        (on_this (fun m => set_reconnectInterval 1000
                    (set_reconnectAttempts 0 (set_isConnected true m))) s)
  end.
Proof.
  unfold onopen, log, updateConnectionStatus, showToast. js_unfold. simpl.
  destruct (indicator (page s)); [|reflexivity].
  emit_result body. reflexivity.
Qed.

(** The delay [scheduleReconnect] computes in a state, after it has
    incremented the counter. *)
Lemma scheduleReconnect_connection s :
  let n := reconnectAttempts (this s) + 1 in
  let delay := Z.min (reconnectInterval (this s) * 2 ^ n) 30000 in
  connection (snd (scheduleReconnect s)) =
  connection
    (on_page (fun b => set_timers (timers b ++ [delay])
                (set_toasts (toasts b ++
                   [("Reconnecting",
                     "Attempting to reconnect... (" +:+ pretty n +:+ "/"
                       +:+ pretty (maxReconnectAttempts (this s)) +:+ ")",
                     "warning")]) b))
       (on_this (set_reconnectAttempts n) s)).
Proof. reflexivity. Qed.

Lemma onclose_connection code reason wasClean s :
  connection (snd (onclose body code reason wasClean s)) =
  match indicator (page s) with
  | None => connection (on_this (set_isConnected false) s)
  | Some _ =>
      let s1 := on_page (set_indicator (Some ShowsDisconnected))
                  (on_this (set_isConnected false) s) in
      if negb wasClean && (reconnectAttempts (this s) <? maxReconnectAttempts (this s))
      then connection (snd (scheduleReconnect s1))
      else if maxReconnectAttempts (this s) <=? reconnectAttempts (this s)
      then connection
             (on_page (fun b => set_indicator (Some ShowsError)
                         (set_toasts (toasts b ++
                            [("Connection Failed",
                              "Unable to establish real-time connection", "error")]) b)) s1)
      else connection s1
  end.
Proof.
  unfold onclose, log, updateConnectionStatus, showToast. js_unfold. simpl.
  destruct (indicator (page s)); [|reflexivity].
  emit_result body. simpl.
  destruct (negb wasClean && (reconnectAttempts (this s) <? maxReconnectAttempts (this s)));
    [reflexivity|].
  destruct (maxReconnectAttempts (this s) <=? reconnectAttempts (this s)); reflexivity.
Qed.

Lemma connect_connection ctor s :
  connection (snd (connect ctor s)) =
  if ctor then
    let protocol :=
      if String.eqb (location_protocol (page s)) "https:" then "wss:" else "ws:" in
    connection
      (on_this (set_socket (Some (length (sockets (page s)))))
         (on_page (set_sockets
            (sockets (page s) ++
               [{| url := protocol +:+ "//" +:+ location_host (page s) +:+ "/ws";
                   readyState := CONNECTING; outbox := [] |}])) s))
  else
    match indicator (page s) with
    | Some _ => connection (on_page (set_indicator (Some ShowsError)) s)
    | None => connection s
    end.
Proof.
  unfold connect, new_WebSocket, log, updateConnectionStatus. js_unfold.
  destruct ctor; simpl; [reflexivity|].
  destruct (indicator (page s)); reflexivity.
Qed.

End Handlers.

(** ** Invariants of the event loop *)

(** Compute field reads through the setters, and nothing else. *)
Ltac fields :=
  cbn [this page socket isConnected reconnectAttempts maxReconnectAttempts
       reconnectInterval listeners location_protocol location_host sockets timers
       indicator toasts console invocations on_this on_page with_bus
       set_socket set_isConnected set_reconnectAttempts set_reconnectInterval
       set_listeners set_sockets set_timers set_indicator set_toasts set_console
       set_invocations update_socket fst snd] in *.

Lemma connection_fields s' s :
  connection s' = connection s →
  socket (this s') = socket (this s) ∧
  isConnected (this s') = isConnected (this s) ∧
  reconnectAttempts (this s') = reconnectAttempts (this s) ∧
  maxReconnectAttempts (this s') = maxReconnectAttempts (this s) ∧
  reconnectInterval (this s') = reconnectInterval (this s) ∧
  sockets (page s') = sockets (page s) ∧
  timers (page s') = timers (page s) ∧
  indicator (page s') = indicator (page s).
Proof. unfold connection. intros [= -> -> -> -> -> -> -> -> _ _ _]. done. Qed.

Lemma fmap_alter_unchanged {A B} (g : A → B) (f : A → A) i (l : list A) :
  (∀ x, l !! i = Some x → g (f x) = g x) → g <$> alter f i l = g <$> l.
Proof.
  revert i. induction l as [|x l IH]; intros [|i] Hg; simpl; try reflexivity.
  - by rewrite Hg.
  - f_equal. apply IH. exact Hg.
Qed.

Lemma filter_alter_length {A} (P : A → Prop) `{∀ x, Decision (P x)}
    (f : A → A) i (l : list A) x :
  l !! i = Some x →
  (length (filter P (alter f i l)) + (if decide (P x) then 1 else 0) =
   length (filter P l) + (if decide (P (f x)) then 1 else 0))%nat.
Proof.
  revert i. induction l as [|y l IH]; intros [|i] Hi; simpl in Hi; try discriminate.
  - injection Hi as ->. simpl. rewrite !filter_cons.
    destruct (decide (P x)), (decide (P (f x))); simpl; lia.
  - simpl. rewrite !filter_cons. specialize (IH i Hi).
    destruct (decide (P y)); simpl; [f_equal|]; exact IH.
Qed.

Lemma filter_app_length {A} (P : A → Prop) `{∀ x, Decision (P x)} (l : list A) x :
  length (filter P (l ++ [x])) = (length (filter P l) + (if decide (P x) then 1 else 0))%nat.
Proof.
  rewrite filter_app, length_app. simpl. rewrite filter_cons, filter_nil.
  destruct (decide (P x)); reflexivity.
Qed.

Section Invariants.

Variable body : HandlerId -> JSVal -> Behaviour.

Lemma send_this type data s : this (snd (send type data s)) = this s.
Proof.
  unfold send, socket_readyState, socket_send, log. js_unfold.
  destruct (isConnected (this s)); simpl; [|reflexivity].
  destruct (this_socket s) as [sk|] eqn:E; simpl; [|reflexivity].
  destruct (readyState sk) eqn:R; simpl; try reflexivity.
  destruct (JSON_stringify _); simpl; [|reflexivity].
  destruct (socket (this s)); simpl; [|reflexivity].
  rewrite E, R. reflexivity.
Qed.

Lemma send_page type data s :
  timers (page (snd (send type data s))) = timers (page s) ∧
  indicator (page (snd (send type data s))) = indicator (page s) ∧
  readyState <$> sockets (page (snd (send type data s))) = readyState <$> sockets (page s).
Proof.
  unfold send, socket_readyState, socket_send, log. js_unfold.
  destruct (isConnected (this s)); simpl; [|done].
  destruct (this_socket s) as [sk|] eqn:E; simpl; [|done].
  destruct (readyState sk) eqn:R; simpl; try done.
  destruct (JSON_stringify _); simpl; [|done].
  destruct (socket (this s)) as [i|]; simpl; [|done].
  rewrite E, R. simpl. repeat split.
  apply (fmap_alter_unchanged readyState). reflexivity.
Qed.

Lemma close_fields s :
  this (snd (close s)) = this s ∧
  timers (page (snd (close s))) = timers (page s) ∧
  indicator (page (snd (close s))) = indicator (page s) ∧
  live <$> sockets (page (snd (close s))) = live <$> sockets (page s).
Proof.
  unfold close, socket_close. js_unfold.
  destruct (socket (this s)) as [i|] eqn:Ei; simpl; [|done].
  unfold this_socket. rewrite Ei.
  destruct (sockets (page s) !! i) as [sk|] eqn:Es; simpl; [|done].
  destruct (readyState sk) eqn:R; simpl; try done.
  all: repeat split.
  all: apply (fmap_alter_unchanged live); intros x Hx.
  all: assert (x = sk) as -> by congruence.
  all: unfold live; simpl; rewrite R; reflexivity.
Qed.

Lemma socket_state_Some i s r :
  socket_state i s = Some r → ∃ sk, sockets (page s) !! i = Some sk ∧ readyState sk = r.
Proof.
  unfold socket_state. destruct (sockets (page s) !! i) as [sk|]; simpl; [|done].
  intros [= <-]. eauto.
Qed.

Lemma well_formed_socket s i sk :
  well_formed s → sockets (page s) !! i = Some sk →
  ∃ j, socket (this s) = Some j ∧ (j < length (sockets (page s)))%nat.
Proof.
  intros (_ & _ & _ & H) Hi. destruct (socket (this s)) as [j|]; [eauto|].
  destruct H as [H _]. rewrite H in Hi. discriminate.
Qed.

(** A state that differs from a well-formed one in the fields the
    invariant does not read, or by an admissible change of those it does,
    is well-formed. *)
Lemma well_formed_from s s' :
  well_formed s →
  maxReconnectAttempts (this s') = maxReconnectAttempts (this s) →
  reconnectInterval (this s') = 1000 →
  0 <= reconnectAttempts (this s') <= 5 →
  (match socket (this s') with
   | Some j => (j < length (sockets (page s')))%nat
   | None => sockets (page s') = [] ∧ isConnected (this s') = false
   end) →
  well_formed s'.
Proof. intros (H1 & _ & _ & _) E1 E2 E3 E4. unfold well_formed. rewrite E1. done. Qed.

Lemma well_formed_connection s' s :
  connection s' = connection s → well_formed s → well_formed s'.
Proof.
  intros Hc. apply connection_fields in Hc as (H1 & H2 & H3 & H4 & H5 & H6 & _).
  unfold well_formed. rewrite H1, H2, H3, H4, H5, H6. done.
Qed.

Lemma step_well_formed e s s' :
  well_formed s → step body e s = Some s' → well_formed s'.
Proof.
  intros Hwf Hstep. pose proof Hwf as (Hmax & Hint & Hatt & Hsock).
  destruct e as [i event|i event_data|i error|i code reason wasClean|k ctor
                |ctor|type data| |event h|event h|event data]; simpl in Hstep.
  - (* open *)
    destruct (socket_state i s) as [[]|] eqn:Es; try discriminate.
    injection Hstep as <-.
    apply socket_state_Some in Es as (sk & Hsk & _).
    destruct (well_formed_socket _ _ _ Hwf Hsk) as (j & Hj & Hlt).
    match goal with |- well_formed (snd (onopen body ?ev ?s1)) =>
      pose proof (onopen_connection body ev s1) as Hc end.
    destruct (indicator (page (update_socket i (with_readyState OPEN) s)));
      apply (well_formed_connection _ _ Hc); apply (well_formed_from s); fields;
      try done; rewrite Hj, length_alter; done.
  - (* message *)
    destruct (socket_state i s) as [[]|] eqn:Es; try discriminate.
    injection Hstep as <-.
    apply (well_formed_connection _ s); [apply onmessage_connection | done].
  - (* error *)
    destruct (socket_state i s) as [[]|] eqn:Es; try discriminate.
    all: injection Hstep as <-.
    all: pose proof (onerror_connection body error s) as Hc.
    all: destruct (indicator (page s)); apply (well_formed_connection _ _ Hc); try done.
    all: apply (well_formed_from s); fields; done.
  - (* close *)
    destruct (socket_state i s) as [r|] eqn:Es; [|discriminate].
    apply socket_state_Some in Es as (sk & Hsk & _).
    destruct (well_formed_socket _ _ _ Hwf Hsk) as (j & Hj & Hlt).
    assert (well_formed (update_socket i (with_readyState CLOSED) s)) as Hwf1.
    { apply (well_formed_from s); fields; try done. rewrite Hj, length_alter. done. }
    assert (s' = snd (onclose body code reason wasClean
                        (update_socket i (with_readyState CLOSED) s))) as ->.
    { destruct r; try discriminate; injection Hstep as <-; reflexivity. }
    clear Hstep.
    match goal with |- well_formed (snd (onclose body _ _ _ ?s1)) =>
      pose proof (onclose_connection body code reason wasClean s1) as Hc;
      set (s1' := s1) in * end.
    destruct (indicator (page s1')).
    + cbv zeta in Hc.
      destruct (negb wasClean && _) eqn:Eb.
      * rewrite scheduleReconnect_connection in Hc.
        apply (well_formed_connection _ _ Hc). apply (well_formed_from s); fields; try done.
        -- apply andb_true_iff in Eb as [_ Eb]. apply Z.ltb_lt in Eb.
           subst s1'. fields. lia.
        -- subst s1'. fields. rewrite Hj, length_alter. done.
      * destruct (_ <=? _); apply (well_formed_connection _ _ Hc);
          apply (well_formed_from s); subst s1'; fields; try done;
          rewrite Hj, length_alter; done.
    + apply (well_formed_connection _ _ Hc). apply (well_formed_from s); subst s1'; fields;
        try done. rewrite Hj, length_alter. done.
  - (* timer *)
    destruct (timers (page s) !! k); [|discriminate]. injection Hstep as <-.
    unfold reconnect_callback. js_unfold. simpl.
    destruct (isConnected (this s)); simpl.
    + apply (well_formed_from s); fields; try done. apply Hwf.
    + match goal with |- well_formed (snd (connect ctor ?s1)) =>
        pose proof (connect_connection ctor s1) as Hc; set (s1' := s1) in * end.
      destruct ctor; [|destruct (indicator (page s1'))];
        apply (well_formed_connection _ _ Hc); apply (well_formed_from s);
        subst s1'; fields; try done; try apply Hwf.
      rewrite length_app. simpl. lia.
  - (* connect *)
    injection Hstep as <-. pose proof (connect_connection ctor s) as Hc.
    destruct ctor; [|destruct (indicator (page s))];
      apply (well_formed_connection _ _ Hc); try done; apply (well_formed_from s);
      fields; try done.
    rewrite length_app. simpl. lia.
  - (* send *)
    injection Hstep as <-.
    pose proof (send_this type data s) as Ht.
    destruct (send_page type data s) as (_ & _ & Hs).
    apply (f_equal length) in Hs. rewrite !length_fmap in Hs.
    apply (well_formed_from s); rewrite ?Ht; try done.
    destruct (socket (this s)); [rewrite Hs; done|].
    destruct Hsock as [Hnil Hc]. split; [|done].
    apply length_zero_iff_nil. rewrite Hs, Hnil. done.
  - (* close *)
    injection Hstep as <-.
    destruct (close_fields s) as (Ht & _ & _ & Hs).
    apply (f_equal length) in Hs. rewrite !length_fmap in Hs.
    apply (well_formed_from s); rewrite ?Ht; try done.
    destruct (socket (this s)); [rewrite Hs; done|].
    destruct Hsock as [Hnil Hc]. split; [|done].
    apply length_zero_iff_nil. rewrite Hs, Hnil. done.
  - injection Hstep as <-. apply (well_formed_connection _ s); [apply on_connection|done].
  - injection Hstep as <-. apply (well_formed_connection _ s); [apply off_connection|done].
  - injection Hstep as <-. apply (well_formed_connection _ s); [apply emit_connection|done].
Qed.

Lemma run_well_formed trace s s' :
  well_formed s → run body trace s = Some s' → well_formed s'.
Proof.
  revert s. induction trace as [|e trace IH]; intros s Hwf Hrun; simpl in Hrun.
  - injection Hrun as <-. exact Hwf.
  - destruct (step body e s) as [s1|] eqn:E; [|discriminate].
    apply (IH s1); [|exact Hrun]. exact (step_well_formed e s s1 Hwf E).
Qed.

Lemma boot_well_formed protocol host ind ctor : well_formed (boot protocol host ind ctor).
Proof.
  unfold boot, constructor.
  match goal with |- well_formed (snd (connect ctor ?s0)) =>
    pose proof (connect_connection ctor s0) as Hc;
    assert (well_formed s0) as Hwf by (unfold well_formed; simpl; repeat split; lia)
  end.
  destruct ctor; [|destruct ind]; simpl in Hc; apply (well_formed_connection _ _ Hc).
  - unfold well_formed. simpl. repeat split; lia.
  - unfold well_formed. simpl. repeat split; lia.
  - exact Hwf.
Qed.

(** *** One socket at a time, as long as nobody else calls [connect] *)

Lemma live_sockets_fmap s s' :
  live <$> sockets (page s') = live <$> sockets (page s) → live_sockets s' = live_sockets s.
Proof.
  unfold live_sockets. generalize (sockets (page s)) (sockets (page s')).
  intros l l'. revert l. induction l' as [|x l' IH]; intros [|y l] Heq; simpl in Heq;
    try discriminate; [reflexivity|].
  injection Heq as Hx Hl. rewrite !filter_cons, Hx.
  destruct (decide (live y = true)); simpl; rewrite (IH l Hl); reflexivity.
Qed.

Lemma live_sockets_readyState s s' :
  readyState <$> sockets (page s') = readyState <$> sockets (page s) →
  live_sockets s' = live_sockets s.
Proof.
  intros H. apply live_sockets_fmap.
  apply (f_equal (fmap (λ r, negb (ReadyState_eqb r CLOSED)))) in H.
  rewrite <- !list_fmap_compose in H. exact H.
Qed.

Lemma live_sockets_connection s s' :
  sockets (page s') = sockets (page s) → live_sockets s' = live_sockets s.
Proof. unfold live_sockets. by intros ->. Qed.

Lemma live_sockets_update i f s sk :
  sockets (page s) !! i = Some sk →
  (live_sockets (update_socket i f s) + (if live sk then 1 else 0) =
   live_sockets s + (if live (f sk) then 1 else 0))%nat.
Proof.
  intros Hi. unfold live_sockets. fields.
  pose proof (filter_alter_length (λ x, live x = true) f i _ sk Hi) as H.
  destruct (decide (live sk = true)) as [->|Hn], (decide (live (f sk) = true)) as [->|Hn'];
    try (apply not_true_is_false in Hn; rewrite Hn);
    try (apply not_true_is_false in Hn'; rewrite Hn'); exact H.
Qed.

Lemma step_sequential e s s' :
  external_connect e = false → sequential s → step body e s = Some s' → sequential s'.
Proof.
  unfold sequential. intros Hext Hseq Hstep.
  destruct e as [i event|i event_data|i error|i code reason wasClean|k ctor
                |ctor|type data| |event h|event h|event data]; simpl in Hstep;
    try discriminate Hext.
  - (* open *)
    destruct (socket_state i s) as [[]|] eqn:Es; try discriminate.
    injection Hstep as <-.
    apply socket_state_Some in Es as (sk & Hsk & Hr).
    pose proof (live_sockets_update i (with_readyState OPEN) s sk Hsk) as Hl.
    unfold live in Hl at 1 2. simpl in Hl. rewrite Hr in Hl. simpl in Hl.
    match goal with |- context [onopen body ?ev ?s1] =>
      pose proof (onopen_connection body ev s1) as Hc end.
    destruct (indicator (page (update_socket i (with_readyState OPEN) s)));
      apply connection_fields in Hc as (_ & _ & _ & _ & _ & Hs & Ht & _);
      unfold live_sockets in *; fields; rewrite Ht, Hs; lia.
  - (* message *)
    destruct (socket_state i s) as [[]|] eqn:Es; try discriminate.
    injection Hstep as <-.
    pose proof (onmessage_connection body event_data s) as Hc.
    apply connection_fields in Hc as (_ & _ & _ & _ & _ & Hs & Ht & _).
    rewrite Ht, (live_sockets_connection _ _ Hs). exact Hseq.
  - (* error *)
    destruct (socket_state i s) as [[]|] eqn:Es; try discriminate.
    all: injection Hstep as <-.
    all: pose proof (onerror_connection body error s) as Hc.
    all: destruct (indicator (page s));
      apply connection_fields in Hc as (_ & _ & _ & _ & _ & Hs & Ht & _);
      rewrite Ht, (live_sockets_connection _ _ Hs); exact Hseq.
  - (* close *)
    destruct (socket_state i s) as [r|] eqn:Es; [|discriminate].
    apply socket_state_Some in Es as (sk & Hsk & Hr).
    assert (r ≠ CLOSED ∧
            s' = snd (onclose body code reason wasClean
                        (update_socket i (with_readyState CLOSED) s))) as [Hlive ->].
    { destruct r; try discriminate; injection Hstep as <-; done. }
    clear Hstep.
    pose proof (live_sockets_update i (with_readyState CLOSED) s sk Hsk) as Hl.
    unfold live in Hl at 1 2. simpl in Hl. rewrite Hr in Hl.
    assert (ReadyState_eqb r CLOSED = false) as Hrb by (destruct r; done).
    rewrite Hrb in Hl. simpl in Hl.
    match goal with |- context [onclose body _ _ _ ?s1] =>
      pose proof (onclose_connection body code reason wasClean s1) as Hc end.
    destruct (indicator (page (update_socket i (with_readyState CLOSED) s))).
    + cbv zeta in Hc. destruct (negb wasClean && _).
      * rewrite scheduleReconnect_connection in Hc.
        apply connection_fields in Hc as (_ & _ & _ & _ & _ & Hs & Ht & _).
        unfold live_sockets in *; fields. rewrite Ht, Hs, length_app. simpl. lia.
      * destruct (_ <=? _);
          apply connection_fields in Hc as (_ & _ & _ & _ & _ & Hs & Ht & _);
          unfold live_sockets in *; fields; rewrite Ht, Hs; lia.
    + apply connection_fields in Hc as (_ & _ & _ & _ & _ & Hs & Ht & _).
      unfold live_sockets in *; fields. rewrite Ht, Hs. lia.
  - (* timer *)
    destruct (timers (page s) !! k) as [d|] eqn:Ek; [|discriminate]. injection Hstep as <-.
    assert (length (delete k (timers (page s))) + 1 = length (timers (page s)))%nat as Hd.
    { rewrite length_delete by eauto. apply lookup_lt_Some in Ek. lia. }
    unfold reconnect_callback. js_unfold. simpl.
    destruct (isConnected (this s)); simpl.
    + unfold live_sockets in *; fields. lia.
    + match goal with |- context [connect ctor ?s1] =>
        pose proof (connect_connection ctor s1) as Hc end.
      destruct ctor;
        [|destruct (indicator
                      (page (on_page (λ b, set_timers (delete k (timers b)) b) s)))];
        apply connection_fields in Hc as (_ & _ & _ & _ & _ & Hs & Ht & _);
        unfold live_sockets in *; fields; rewrite Ht, Hs;
        rewrite ?filter_app_length; simpl; lia.
  - (* send *)
    injection Hstep as <-. destruct (send_page type data s) as (Ht & _ & Hs).
    rewrite Ht, (live_sockets_readyState _ _ Hs). exact Hseq.
  - (* close *)
    injection Hstep as <-. destruct (close_fields s) as (_ & Ht & _ & Hs).
    rewrite Ht, (live_sockets_fmap _ _ Hs). exact Hseq.
  - injection Hstep as <-. pose proof (on_connection event h s) as Hc.
    apply connection_fields in Hc as (_ & _ & _ & _ & _ & Hs & Ht & _).
    rewrite Ht, (live_sockets_connection _ _ Hs). exact Hseq.
  - injection Hstep as <-. pose proof (off_connection event h s) as Hc.
    apply connection_fields in Hc as (_ & _ & _ & _ & _ & Hs & Ht & _).
    rewrite Ht, (live_sockets_connection _ _ Hs). exact Hseq.
  - injection Hstep as <-. pose proof (emit_connection body event data s) as Hc.
    apply connection_fields in Hc as (_ & _ & _ & _ & _ & Hs & Ht & _).
    rewrite Ht, (live_sockets_connection _ _ Hs). exact Hseq.
Qed.

End Invariants.

Section Reachable.

Variable body : HandlerId -> JSVal -> Behaviour.

Lemma run_sequential trace s s' :
  forallb (λ e, negb (external_connect e)) trace = true →
  sequential s → run body trace s = Some s' → sequential s'.
Proof.
  revert s. induction trace as [|e trace IH]; intros s Hno Hseq Hrun; simpl in *.
  - injection Hrun as <-. exact Hseq.
  - apply andb_true_iff in Hno as [He Hno]. apply negb_true_iff in He.
    destruct (step body e s) as [s1|] eqn:E; [|discriminate].
    apply (IH s1 Hno); [|exact Hrun]. exact (step_sequential body e s s1 He Hseq E).
Qed.

Lemma boot_sequential protocol host ind ctor : sequential (boot protocol host ind ctor).
Proof.
  unfold sequential, boot, constructor.
  match goal with |- context [connect ctor ?s0] =>
    pose proof (connect_connection ctor s0) as Hc;
    set (s' := snd (connect ctor s0)) in * end.
  destruct ctor; [|destruct ind]; simpl in Hc;
    apply connection_fields in Hc as (_ & _ & _ & _ & _ & Hs & Ht & _);
    unfold live_sockets; rewrite Ht, Hs; simpl; lia.
Qed.

Lemma open_le_live s : (open_sockets s <= live_sockets s)%nat.
Proof.
  unfold open_sockets, live_sockets. induction (sockets (page s)) as [|sk l IH]; [done|].
  rewrite !filter_cons.
  destruct (decide (ReadyState_eqb (readyState sk) OPEN = true)) as [Ho|Ho],
           (decide (live sk = true)) as [Hl|Hl]; simpl; try lia.
  exfalso. apply Hl. unfold live. destruct (readyState sk); done.
Qed.

(** With no socket alive, every socket is closed. *)
Lemma no_live_socket s i sk :
  live_sockets s = 0%nat → sockets (page s) !! i = Some sk → readyState sk = CLOSED.
Proof.
  unfold live_sockets. intros H Hi.
  assert (sk ∈ sockets (page s)) as Hin by (eapply list_elem_of_lookup_2; eauto).
  destruct (decide (live sk = true)) as [Hl|Hl].
  - assert (sk ∈ filter (λ x, live x = true) (sockets (page s))) as Hf
      by (apply list_elem_of_filter; done).
    apply length_zero_iff_nil in H. rewrite H in Hf. inversion Hf.
  - unfold live in Hl. destruct (readyState sk); simpl in Hl; done.
Qed.

(** Nothing alive and nothing pending: the browser has nothing to deliver. *)
Lemma quiescent s e :
  live_sockets s = 0%nat → timers (page s) = [] → delivered e = true →
  step body e s = None.
Proof.
  intros Hl Ht He. destruct e; try discriminate He; simpl.
  1-4: destruct (socket_state i s) as [r|] eqn:Es; [|reflexivity];
       apply socket_state_Some in Es as (sk & Hsk & <-);
       rewrite (no_live_socket s i sk Hl Hsk); reflexivity.
  rewrite Ht. reflexivity.
Qed.

End Reachable.

(** ** The reconnect timer *)

Section Timer.

Variable body : HandlerId -> JSVal -> Behaviour.

Lemma connect_opens s :
  ∃ sk, sockets (page (snd (connect true s))) = sockets (page s) ++ [sk] ∧
        readyState sk = CONNECTING ∧
        socket (this (snd (connect true s))) = Some (length (sockets (page s))).
Proof.
  pose proof (connect_connection true s) as Hc. cbv iota zeta in Hc.
  apply connection_fields in Hc as (H1 & _ & _ & _ & _ & Hs & _). fields.
  eexists. split; [exact Hs|]. split; [reflexivity|exact H1].
Qed.

(** C10.  When a reconnect timer fires while [isConnected] is set, no
    socket is constructed and [this.socket] stays what it was; when it
    fires while [isConnected] is clear, [connect()] runs: a new socket, in
    state CONNECTING, is constructed and becomes [this.socket]. *)
Theorem reconnect_timer_checks_connection k ctor s s' :
  step body (TimerFires k ctor) s = Some s' →
  (isConnected (this s) = true →
     sockets (page s') = sockets (page s) ∧ socket (this s') = socket (this s)) ∧
  (isConnected (this s) = false → ctor = true →
     ∃ sk, sockets (page s') = sockets (page s) ++ [sk] ∧
           readyState sk = CONNECTING ∧
           socket (this s') = Some (length (sockets (page s)))).
Proof.
  simpl. destruct (timers (page s) !! k); [|discriminate]. intros [= <-].
  unfold reconnect_callback, bind, get. fields. split.
  - intros ->. simpl. done.
  - intros -> ->. cbn [negb].
    match goal with |- context [connect true ?s1] => apply (connect_opens s1) end.
Qed.

End Timer.

Lemma reconnect_timer_checks_connection_witness :
  let s := state_after (failure 0 false) example_boot in
  let s' := state_after [TimerFires 0 true] s in
  step quiet (TimerFires 0 true) s = Some s' ∧
  isConnected (this s) = false ∧
  ∃ sk, sockets (page s') = sockets (page s) ++ [sk] ∧
        readyState sk = CONNECTING ∧
        socket (this s') = Some (length (sockets (page s))).
Proof.
  assert (step quiet (TimerFires 0 true) (state_after (failure 0 false) example_boot)
          = Some (state_after [TimerFires 0 true]
                    (state_after (failure 0 false) example_boot))) as H
    by (vm_compute; reflexivity).
  split; [exact H|]. split; [vm_compute; reflexivity|].
  apply (reconnect_timer_checks_connection quiet 0%nat true _ _ H);
    vm_compute; reflexivity.
Defined.

(** ** connect *)

Section Connect.

Variable body : HandlerId -> JSVal -> Behaviour.

(** C2, as the code has it.  [connect()] has no guard of its own: in every
    state, also with a socket connecting or open, a call constructs a new
    socket and makes it [this.socket].  The manager's own reconnects are
    sequential all the same: as long as [connect] is called by the
    constructor and by the reconnect timer only, at most one socket is not
    closed at any time (and none while a reconnect timer is pending), so no
    two sockets are open at once. *)
Theorem connect_unguarded_reconnects_sequential protocol host ind ctor trace s :
  run body trace (boot protocol host ind ctor) = Some s →
  forallb (λ e, negb (external_connect e)) trace = true →
  (live_sockets s + length (timers (page s)) <= 1)%nat ∧
  (open_sockets s <= 1)%nat ∧
  ∀ s0 : State,
    ∃ sk, sockets (page (snd (connect true s0))) = sockets (page s0) ++ [sk] ∧
          readyState sk = CONNECTING ∧
          socket (this (snd (connect true s0))) = Some (length (sockets (page s0))).
Proof.
  intros Hrun Hno.
  pose proof (run_sequential body trace _ s Hno (boot_sequential protocol host ind ctor) Hrun)
    as Hseq.
  unfold sequential in Hseq. pose proof (open_le_live s).
  split; [exact Hseq|]. split; [lia|]. apply connect_opens.
Qed.

End Connect.

Lemma connect_unguarded_reconnects_sequential_witness :
  let trace := failure 0 true ++ [SocketOpen 1 VUndef] in
  let s := state_after trace example_boot in
  run quiet trace example_boot = Some s ∧
  forallb (λ e, negb (external_connect e)) trace = true ∧
  (live_sockets s + length (timers (page s)) <= 1)%nat ∧
  (open_sockets s <= 1)%nat ∧
  ∀ s0 : State,
    ∃ sk, sockets (page (snd (connect true s0))) = sockets (page s0) ++ [sk] ∧
          readyState sk = CONNECTING ∧
          socket (this (snd (connect true s0))) = Some (length (sockets (page s0))).
Proof.
  assert (run quiet (failure 0 true ++ [SocketOpen 1 VUndef]) example_boot
          = Some (state_after (failure 0 true ++ [SocketOpen 1 VUndef]) example_boot)) as H
    by (vm_compute; reflexivity).
  split; [exact H|]. split; [reflexivity|].
  exact (connect_unguarded_reconnects_sequential quiet _ _ _ _ _ _ H eq_refl).
Defined.

(** C2, as the specification states it, fails: with the first socket open,
    a call of [connect()] constructs a second socket, and once that one
    has opened as well two sockets are open at the same time. *)
Lemma connect_while_open_opens_second_socket :
  let s := state_after [SocketOpen 0 VUndef] example_boot in
  is_open s = true ∧
  length (sockets (page s)) = 1%nat ∧
  length (sockets (page (snd (connect true s)))) = 2%nat ∧
  open_sockets (state_after [Call_connect true; SocketOpen 1 VUndef] s) = 2%nat.
Proof. vm_compute. repeat split; reflexivity. Qed.

(** ** Reconnection *)

Section Reconnection.

Variable body : HandlerId -> JSVal -> Behaviour.

Lemma onclose_schedules code reason s :
  is_Some (indicator (page s)) →
  reconnectAttempts (this s) < maxReconnectAttempts (this s) →
  let s' := snd (onclose body code reason false s) in
  timers (page s') =
    timers (page s) ++
      [Z.min (reconnectInterval (this s) * 2 ^ (reconnectAttempts (this s) + 1)) 30000] ∧
  reconnectAttempts (this s') = reconnectAttempts (this s) + 1 ∧
  indicator (page s') = Some ShowsDisconnected ∧
  sockets (page s') = sockets (page s).
Proof.
  intros [ind Hind] Hlt s'. subst s'.
  pose proof (onclose_connection body code reason false s) as Hc.
  rewrite Hind in Hc. cbv zeta in Hc.
  apply Z.ltb_lt in Hlt. rewrite Hlt in Hc. cbn [negb andb] in Hc.
  rewrite scheduleReconnect_connection in Hc.
  apply connection_fields in Hc as (_ & _ & H3 & _ & _ & H6 & H7 & H8). fields. done.
Qed.

Lemma onclose_exhausted code reason wasClean s :
  is_Some (indicator (page s)) →
  maxReconnectAttempts (this s) <= reconnectAttempts (this s) →
  let s' := snd (onclose body code reason wasClean s) in
  timers (page s') = timers (page s) ∧
  reconnectAttempts (this s') = reconnectAttempts (this s) ∧
  indicator (page s') = Some ShowsError ∧
  sockets (page s') = sockets (page s).
Proof.
  intros [ind Hind] Hle s'. subst s'.
  pose proof (onclose_connection body code reason wasClean s) as Hc.
  rewrite Hind in Hc. cbv zeta in Hc.
  assert ((reconnectAttempts (this s) <? maxReconnectAttempts (this s)) = false) as E1
    by (apply Z.ltb_ge; lia).
  assert ((maxReconnectAttempts (this s) <=? reconnectAttempts (this s)) = true) as E2
    by (apply Z.leb_le; lia).
  rewrite E1, andb_false_r, E2 in Hc.
  apply connection_fields in Hc as (_ & _ & H3 & _ & _ & H6 & H7 & H8). fields. done.
Qed.

(** C1, as the code has it.  With the interval at 1000 and the ceiling at
    5, the abnormal close that starts attempt n (the counter being n - 1
    before it) sets a timer of min(1000 * 2^n, 30000) milliseconds: 2000,
    4000, 8000, 16000 and 30000 (the cap) for attempts 1 to 5; the close
    that finds the counter at 5 sets no timer, so there is no 6th attempt. *)
Theorem reconnect_delay_sequence s n code reason :
  reconnectInterval (this s) = 1000 →
  maxReconnectAttempts (this s) = 5 →
  reconnectAttempts (this s) = n - 1 →
  is_Some (indicator (page s)) →
  1 <= n <= 6 →
  let delay := Z.min (1000 * 2 ^ n) 30000 in
  (n <= 5 →
     timers (page (snd (scheduleReconnect s))) = timers (page s) ++ [delay] ∧
     timers (page (snd (onclose body code reason false s))) = timers (page s) ++ [delay] ∧
     reconnectAttempts (this (snd (onclose body code reason false s))) = n ∧
     [2000; 4000; 8000; 16000; 30000] !! Z.to_nat (n - 1) = Some delay) ∧
  (n = 6 →
     ∀ wasClean,
       timers (page (snd (onclose body code reason wasClean s))) = timers (page s)).
Proof.
  intros Hint Hmax Hatt Hind Hn delay. split.
  - intros Hle.
    destruct (onclose_schedules code reason s Hind ltac:(lia)) as (H1 & H2 & _).
    rewrite Hint, Hatt in H1. replace (n - 1 + 1) with n in H1 by lia.
    split; [|split; [exact H1|split; [lia|]]].
    + pose proof (scheduleReconnect_connection s) as Hc. cbv zeta in Hc.
      apply connection_fields in Hc as (_ & _ & _ & _ & _ & _ & H7 & _). fields.
      rewrite H7, Hint, Hatt. replace (n - 1 + 1) with n by lia. reflexivity.
    + subst delay.
      assert (n = 1 ∨ n = 2 ∨ n = 3 ∨ n = 4 ∨ n = 5) as Hcases by lia.
      destruct Hcases as [->|[->|[->|[->| ->]]]]; reflexivity.
  - intros -> wasClean.
    destruct (onclose_exhausted code reason wasClean s Hind ltac:(lia)) as (H1 & _).
    exact H1.
Qed.

(** C5, as the code has it.  In every state the manager can reach, the
    attempt counter lies between 0 and the ceiling, which is 5.  An
    abnormal close that finds the counter below the ceiling raises it by
    one, sets a reconnect timer and leaves the indicator at disconnected:
    this is so for the close that brings the counter to the ceiling, too.
    A close of a socket (clean or not) that finds the counter at the
    ceiling sets no timer and constructs no socket, leaves the counter
    where it is, and turns the indicator to error; and when nobody but the
    manager itself has called [connect], nothing is left that the browser
    could deliver afterwards: the state stays as it is until a call from
    outside. *)
Theorem attempts_bounded_then_error protocol host ind ctor trace s :
  run body trace (boot protocol host ind ctor) = Some s →
  0 <= reconnectAttempts (this s) <= maxReconnectAttempts (this s) ∧
  maxReconnectAttempts (this s) = 5 ∧
  (∀ i code reason s',
     step body (SocketClose i code reason false) s = Some s' →
     is_Some (indicator (page s)) →
     reconnectAttempts (this s) < maxReconnectAttempts (this s) →
     reconnectAttempts (this s') = reconnectAttempts (this s) + 1 ∧
     timers (page s') =
       timers (page s) ++
         [Z.min (reconnectInterval (this s) * 2 ^ (reconnectAttempts (this s) + 1)) 30000] ∧
     length (sockets (page s')) = length (sockets (page s)) ∧
     indicator (page s') = Some ShowsDisconnected) ∧
  ∀ i code reason wasClean s',
    step body (SocketClose i code reason wasClean) s = Some s' →
    is_Some (indicator (page s)) →
    reconnectAttempts (this s) = maxReconnectAttempts (this s) →
    timers (page s') = timers (page s) ∧
    length (sockets (page s')) = length (sockets (page s)) ∧
    reconnectAttempts (this s') = maxReconnectAttempts (this s') ∧
    indicator (page s') = Some ShowsError ∧
    (forallb (λ e, negb (external_connect e)) trace = true →
       ∀ e, delivered e = true → step body e s' = None).
Proof.
  intros Hrun.
  pose proof (run_well_formed body trace _ s (boot_well_formed protocol host ind ctor) Hrun)
    as Hwf.
  pose proof Hwf as (Hmax & _ & Hatt & _).
  split; [lia|]. split; [exact Hmax|]. split.
  { intros i code reason s' Hstep Hind Hlt. simpl in Hstep.
    destruct (socket_state i s) as [r|] eqn:Es; [|discriminate].
    assert (s' = snd (onclose body code reason false
                        (update_socket i (with_readyState CLOSED) s))) as ->.
    { destruct r; try discriminate; injection Hstep as <-; done. }
    match goal with |- context [onclose body _ _ _ ?s1] =>
      destruct (onclose_schedules code reason s1) as (H1 & H2 & H3 & H4);
      [exact Hind | fields; lia | ] end.
    fields. split; [exact H2|]. split; [exact H1|].
    split; [rewrite H4; apply length_alter|exact H3]. }
  intros i code reason wasClean s' Hstep Hind Hfull.
  pose proof (step_well_formed body _ _ _ Hwf Hstep) as (Hmax' & _).
  simpl in Hstep.
  destruct (socket_state i s) as [r|] eqn:Es; [|discriminate].
  apply socket_state_Some in Es as (sk & Hsk & Hr).
  assert (ReadyState_eqb r CLOSED = false ∧
          s' = snd (onclose body code reason wasClean
                      (update_socket i (with_readyState CLOSED) s))) as [Hlive ->].
  { destruct r; try discriminate; injection Hstep as <-; done. }
  clear Hstep.
  match goal with |- context [onclose body _ _ _ ?s1] =>
    destruct (onclose_exhausted code reason wasClean s1) as (H1 & H2 & H3 & H4);
    [exact Hind | fields; lia | ] end.
  fields. split; [exact H1|]. split; [rewrite H4; apply length_alter|].
  split; [rewrite H2, Hmax'; lia|]. split; [exact H3|].
  intros Hno e He.
  pose proof (run_sequential body trace _ s Hno (boot_sequential protocol host ind ctor) Hrun)
    as Hseq.
  unfold sequential in Hseq.
  pose proof (live_sockets_update i (with_readyState CLOSED) s sk Hsk) as Hl.
  unfold live in Hl at 1 2. simpl in Hl. rewrite Hr, Hlive in Hl. simpl in Hl.
  apply quiescent; [| |exact He].
  - unfold live_sockets in *. rewrite H4. fields. lia.
  - rewrite H1. apply length_zero_iff_nil. lia.
Qed.

End Reconnection.

Lemma reconnect_delay_sequence_witness :
  reconnectInterval (this example_boot) = 1000 ∧
  maxReconnectAttempts (this example_boot) = 5 ∧
  reconnectAttempts (this example_boot) = 1 - 1 ∧
  is_Some (indicator (page example_boot)) ∧
  1 <= 1 <= 6 ∧
  timers (page (snd (scheduleReconnect example_boot))) = timers (page example_boot) ++ [2000] ∧
  timers (page (snd (onclose quiet 1006 EmptyString false example_boot)))
    = timers (page example_boot) ++ [2000].
Proof.
  assert (reconnectInterval (this example_boot) = 1000) as Hint by (vm_compute; reflexivity).
  assert (maxReconnectAttempts (this example_boot) = 5) as Hmax by (vm_compute; reflexivity).
  assert (reconnectAttempts (this example_boot) = 1 - 1) as Hatt by (vm_compute; reflexivity).
  assert (is_Some (indicator (page example_boot))) as Hind
    by (eexists; vm_compute; reflexivity).
  assert (1 <= 1 <= 6) as Hn by lia.
  destruct (reconnect_delay_sequence quiet example_boot 1 1006 EmptyString
              Hint Hmax Hatt Hind Hn) as [H _].
  destruct (H ltac:(lia)) as (H1 & H2 & _).
  split; [exact Hint|]. split; [exact Hmax|]. split; [exact Hatt|].
  split; [exact Hind|]. split; [exact Hn|]. split; [exact H1|exact H2].
Defined.

(** C1, as the specification states it, fails: over the failure of the
    first socket and of every reconnect attempt, the delays announced are
    2000, 4000, 8000, 16000 and 30000 milliseconds, not 1000 to 16000. *)
Lemma reconnect_delays_start_at_2000 :
  reconnect_delays (state_after six_failures example_boot)
    = [2000; 4000; 8000; 16000; 30000] ∧
  reconnect_delays (state_after six_failures example_boot)
    ≠ [1000; 2000; 4000; 8000; 16000].
Proof. split; [vm_compute; reflexivity | vm_compute; discriminate]. Qed.

Lemma attempts_bounded_then_error_witness :
  let trace := failure 0 true ++ failure 1 true ++ failure 2 true
               ++ failure 3 true ++ failure 4 true in
  let s := state_after trace example_boot in
  let s' := state_after [SocketClose 5 1006 EmptyString false] s in
  run quiet trace example_boot = Some s ∧
  step quiet (SocketClose 5 1006 EmptyString false) s = Some s' ∧
  is_Some (indicator (page s)) ∧
  reconnectAttempts (this s) = maxReconnectAttempts (this s) ∧
  forallb (λ e, negb (external_connect e)) trace = true ∧
  timers (page s') = timers (page s) ∧
  indicator (page s') = Some ShowsError ∧
  ∀ e, delivered e = true → step quiet e s' = None.
Proof.
  cbv zeta.
  set (trace := failure 0 true ++ failure 1 true ++ failure 2 true
                ++ failure 3 true ++ failure 4 true).
  assert (run quiet trace example_boot = Some (state_after trace example_boot)) as Hrun
    by (vm_compute; reflexivity).
  assert (step quiet (SocketClose 5 1006 EmptyString false) (state_after trace example_boot)
          = Some (state_after [SocketClose 5 1006 EmptyString false]
                    (state_after trace example_boot))) as Hstep
    by (vm_compute; reflexivity).
  assert (is_Some (indicator (page (state_after trace example_boot)))) as Hind
    by (eexists; vm_compute; reflexivity).
  assert (reconnectAttempts (this (state_after trace example_boot))
          = maxReconnectAttempts (this (state_after trace example_boot))) as Hfull
    by (vm_compute; reflexivity).
  assert (forallb (λ e, negb (external_connect e)) trace = true) as Hno
    by (vm_compute; reflexivity).
  destruct (attempts_bounded_then_error quiet _ _ _ _ _ _ Hrun) as (_ & _ & _ & H).
  destruct (H _ _ _ _ _ Hstep Hind Hfull) as (H1 & _ & _ & H4 & H5).
  split; [exact Hrun|]. split; [exact Hstep|]. split; [exact Hind|].
  split; [exact Hfull|]. split; [exact Hno|]. split; [exact H1|].
  split; [exact H4|]. exact (H5 Hno).
Defined.

(** C5, as the specification states it, fails: the fifth abnormal close in
    a row brings the counter to the ceiling, and yet it sets a reconnect
    timer (for 30000 ms) and leaves the indicator at disconnected, not at
    error; when that timer fires, the manager constructs a sixth socket. *)
Lemma fifth_close_still_reconnects :
  let trace := failure 0 true ++ failure 1 true ++ failure 2 true
               ++ failure 3 true ++ failure 4 false in
  let s := state_after trace example_boot in
  let s' := state_after [TimerFires 0 true] s in
  run quiet trace example_boot = Some s ∧
  length (List.filter (λ e, match e with SocketClose _ _ _ false => true | _ => false end)
            trace) = 5%nat ∧
  reconnectAttempts (this s) = 5 ∧
  maxReconnectAttempts (this s) = 5 ∧
  timers (page s) = [30000] ∧
  indicator (page s) = Some ShowsDisconnected ∧
  length (sockets (page s)) = 5%nat ∧
  step quiet (TimerFires 0 true) s = Some s' ∧
  timers (page s') = [] ∧
  length (sockets (page s')) = 6%nat ∧
  socket_state 5 s' = Some CONNECTING.
Proof. vm_compute. repeat split; reflexivity. Qed.

(** ** send *)

Section Send.

Variable body : HandlerId -> JSVal -> Behaviour.

Lemma well_formed_this_socket s :
  well_formed s → isConnected (this s) = true → is_Some (this_socket s).
Proof.
  intros (_ & _ & _ & H) Hc. unfold this_socket.
  destruct (socket (this s)) as [j|].
  - apply lookup_lt_is_Some. exact H.
  - destruct H as [_ H]. congruence.
Qed.

(** C6, as the code has it.  In a state the manager can reach, [send]
    never throws.  It returns false, hands nothing to any socket and logs
    the warning that the message was not sent, when the connection is not
    open ([isConnected] clear, or [this.socket] not in readyState OPEN).
    When the connection is open it serialises [{type, data}]: if that
    succeeds, the frame is handed to [this.socket], nothing is logged and
    the result is true; if serialising throws, the error is caught and
    logged on the console, nothing is handed over, and the result is
    false. *)
Theorem send_outcome protocol host ind ctor trace s type data :
  run body trace (boot protocol host ind ctor) = Some s →
  let message := VObj [("type", type); ("data", data)] in
  (is_open s = false →
     fst (send type data s) = Normal false ∧
     sockets (page (snd (send type data s))) = sockets (page s) ∧
     console (page (snd (send type data s)))
       = console (page s) ++ [WarnNotSent type data]) ∧
  (is_open s = true → serializable message = true →
     fst (send type data s) = Normal true ∧
     (∃ i, socket (this s) = Some i ∧
           sockets (page (snd (send type data s)))
             = alter (with_frame (json_image message)) i (sockets (page s))) ∧
     console (page (snd (send type data s))) = console (page s)) ∧
  (is_open s = true → serializable message = false →
     ∃ error,
       JSON_stringify message = Throw error ∧
       fst (send type data s) = Normal false ∧
       sockets (page (snd (send type data s))) = sockets (page s) ∧
       console (page (snd (send type data s)))
         = console (page s) ++ [ErrSending error]).
Proof.
  intros Hrun message.
  pose proof (run_well_formed body trace _ s (boot_well_formed protocol host ind ctor) Hrun)
    as Hwf.
  unfold is_open, send, socket_readyState, socket_send, log, JSON_stringify.
  fold message. js_unfold.
  destruct (isConnected (this s)) eqn:Ec; cbn [negb andb].
  - destruct (well_formed_this_socket s Hwf Ec) as [sk Hsk]. rewrite Hsk.
    unfold this_socket in Hsk.
    destruct (socket (this s)) as [i|] eqn:Ei; [|discriminate].
    destruct (readyState sk) eqn:Er; cbn [ReadyState_eqb negb fst snd].
    all: split; [|split]; try discriminate; try (intros _; simpl; done).
    + intros _ ->. unfold this_socket. rewrite Ei, Hsk, Er. cbn [fst snd].
      split; [reflexivity|]. split; [exists i; split; reflexivity|]. reflexivity.
    + intros _ ->. eexists. split; [reflexivity|]. simpl. done.
  - split; [|split]; try discriminate. intros _. simpl. done.
Qed.

End Send.

Lemma send_outcome_witness :
  let s := state_after [SocketOpen 0 VUndef] example_boot in
  let type := VStr "analyze_text" in
  let data := VObj [("text", VStr "a fine product")] in
  let message := VObj [("type", type); ("data", data)] in
  let big := VObj [("text", VBigInt 1)] in
  run quiet [SocketOpen 0 VUndef] example_boot = Some s ∧
  is_open s = true ∧
  serializable message = true ∧
  fst (send type data s) = Normal true ∧
  (∃ i, socket (this s) = Some i ∧
        sockets (page (snd (send type data s)))
          = alter (with_frame (json_image message)) i (sockets (page s))) ∧
  console (page (snd (send type data s))) = console (page s) ∧
  fst (send type big s) = Normal false ∧
  console (page (snd (send type big s)))
    = console (page s)
        ++ [ErrSending (TypeError "Do not know how to serialize a BigInt")] ∧
  is_open example_boot = false ∧
  fst (send type data example_boot) = Normal false ∧
  console (page (snd (send type data example_boot)))
    = console (page example_boot) ++ [WarnNotSent type data].
Proof.
  cbv zeta.
  assert (run quiet [SocketOpen 0 VUndef] example_boot
          = Some (state_after [SocketOpen 0 VUndef] example_boot)) as Hrun
    by (vm_compute; reflexivity).
  assert (run quiet [] example_boot = Some example_boot) as Hrun0 by reflexivity.
  assert (is_open (state_after [SocketOpen 0 VUndef] example_boot) = true) as Hopen
    by (vm_compute; reflexivity).
  assert (serializable
            (VObj [("type", VStr "analyze_text");
                   ("data", VObj [("text", VStr "a fine product")])]) = true) as Hser
    by (vm_compute; reflexivity).
  destruct (send_outcome quiet _ _ _ _ _ _ (VStr "analyze_text")
              (VObj [("text", VStr "a fine product")]) Hrun) as (_ & H & _).
  destruct (send_outcome quiet _ _ _ _ _ _ (VStr "analyze_text")
              (VObj [("text", VBigInt 1)]) Hrun) as (_ & _ & Hbig).
  destruct (send_outcome quiet _ _ _ _ _ _ (VStr "analyze_text")
              (VObj [("text", VStr "a fine product")]) Hrun0) as (Hclosed & _).
  destruct (H Hopen Hser) as (H1 & H2 & H3).
  destruct (Hbig Hopen eq_refl) as (error & He & B1 & _ & B3).
  assert (error = TypeError "Do not know how to serialize a BigInt") as ->
    by (vm_compute in He; congruence).
  destruct (Hclosed eq_refl) as (C1 & _ & C3).
  split; [exact Hrun|]. split; [exact Hopen|]. split; [exact Hser|].
  split; [exact H1|]. split; [exact H2|]. split; [exact H3|].
  split; [exact B1|]. split; [exact B3|]. split; [reflexivity|].
  split; [exact C1|exact C3].
Defined.

(** C6, as the specification states it, fails: with the connection open,
    [send] of a payload that JSON.stringify rejects (a BigInt) returns
    false, and no frame is handed to the socket. *)
Lemma send_open_returns_false :
  let s := state_after [SocketOpen 0 VUndef] example_boot in
  is_open s = true ∧
  fst (send (VStr "analyze_text") (VObj [("text", VBigInt 1)]) s) = Normal false ∧
  outbox <$> sockets (page (snd (send (VStr "analyze_text") (VObj [("text", VBigInt 1)]) s)))
    = [[]].
Proof. vm_compute. repeat split; reflexivity. Qed.

(** ** emit *)

Lemma indexOf_None h l : indexOf h l = None ↔ h ∉ l.
Proof.
  induction l as [|x l IH]; simpl.
  - split; [intros _; apply not_elem_of_nil | done].
  - destruct (Nat.eqb_spec x h) as [->|Hne].
    + split; [discriminate | intros H; exfalso; apply H; left].
    + destruct (indexOf h l); simpl.
      * split; [discriminate|]. intros H.
        assert (h ∉ l) as Hl by (intros Hin; apply H; right; exact Hin).
        apply IH in Hl. discriminate.
      * split; [|done]. intros _ Hin.
        apply elem_of_cons in Hin as [Heq|Hin]; [congruence|].
        revert Hin. apply IH. reflexivity.
Qed.

Lemma indexOf_Some h l i :
  indexOf h l = Some i → l !! i = Some h ∧ h ∉ take i l.
Proof.
  revert i. induction l as [|x l IH]; intros i; simpl; [discriminate|].
  destruct (Nat.eqb_spec x h) as [->|Hne].
  - intros [= <-]. split; [reflexivity | apply not_elem_of_nil].
  - destruct (indexOf h l) as [j|]; simpl; [|discriminate].
    intros [= <-]. destruct (IH j eq_refl) as [H1 H2]. split; [exact H1|].
    simpl. intros Hin. apply elem_of_cons in Hin as [Heq|Hin]; [congruence|done].
Qed.

Section Emit.

Variable body : HandlerId -> JSVal -> Behaviour.

Lemma registry_call_other event c s :
  event_of c ≠ event →
  listeners (this (snd (registry_call c s))) !! event = listeners (this s) !! event ∧
  bus_trace (snd (registry_call c s)) = bus_trace s.
Proof.
  intros Hne. destruct c as [ev h|ev h]; simpl in *.
  - unfold on. js_unfold. simpl.
    destruct (listeners (this s) !! ev); simpl.
    + rewrite lookup_insert_ne by done. done.
    + destruct (inherited ev); simpl; [done|]. rewrite lookup_insert_ne by done. done.
  - unfold off. js_unfold. simpl.
    destruct (listeners (this s) !! ev) as [l|]; simpl.
    + destruct (indexOf h l); simpl; [|done]. rewrite lookup_insert_ne by done. done.
    + destruct (inherited ev); done.
Qed.

Lemma registry_calls_other event cs s :
  Forall (λ c, event_of c ≠ event) cs →
  listeners (this (snd (registry_calls_run cs s))) !! event = listeners (this s) !! event ∧
  bus_trace (snd (registry_calls_run cs s)) = bus_trace s.
Proof.
  intros H. revert s. induction H as [|c cs Hc _ IH]; intros s; [done|].
  cbn [registry_calls_run]. unfold bind.
  destruct (registry_call_other event c s Hc) as [H1 H2].
  destruct (registry_call c s) as [[[]|e] s1]; simpl in *.
  - destruct (IH s1) as [H3 H4]. rewrite H3, H4. done.
  - done.
Qed.

(** One callback, run by [emit]: it is recorded, the list under the event
    is what it was if the callback leaves that event alone, and the
    console grows by one entry exactly when the call throws. *)
Lemma visit_stable event data h s :
  Forall (λ c, event_of c ≠ event) (registry_calls (body h data)) →
  let s' := snd (visit body event data h s) in
  listeners (this s') !! event = listeners (this s) !! event ∧
  invocations (page s') = invocations (page s) ++ [(h, data)] ∧
  ∃ errs, console (page s') = console (page s) ++ errs ∧
          Forall (λ e, ∃ err, e = ErrListener event err) errs ∧
          (throws (body h data) = true → errs ≠ []) ∧
          (registry_calls (body h data) = [] →
             errs = if throws (body h data) then [ErrListener event (Thrown h)] else []).
Proof.
  intros Hcs s'. subst s'. unfold visit, call, try_catch, log, bind, modify.
  cbv beta iota.
  match goal with |- context [registry_calls_run ?cs ?s0] =>
    destruct (registry_calls_other event cs s0 Hcs) as [H1 H2];
    destruct (registry_calls_run cs s0) as [[[]|e] s1] eqn:Erun end;
    unfold bus_trace in H2; simpl in H1, H2; injection H2 as H2 H3.
  - destruct (throws (body h data)) eqn:Et; unfold throw, ret; simpl;
      rewrite H1, H2, H3.
    + split; [done|]. split; [done|]. eexists. split; [reflexivity|].
      split; [repeat constructor; eauto|]. split; [done|]. done.
    + split; [done|]. split; [done|]. exists []. rewrite app_nil_r.
      split; [done|]. split; [constructor|]. split; [done|]. done.
  - simpl. rewrite H1, H2, H3.
    split; [done|]. split; [done|]. eexists. split; [reflexivity|].
    split; [repeat constructor; eauto|]. split; [done|].
    intros Hq. rewrite Hq in Erun. discriminate.
Qed.

Lemma forEach_stable event data l n k s :
  listeners (this s) !! event = Some l →
  Forall (λ h, Forall (λ c, event_of c ≠ event) (registry_calls (body h data))) l →
  let s' := snd (forEach event (visit body event data) n k s) in
  let visited := take n (drop k l) in
  listeners (this s') !! event = Some l ∧
  invocations (page s') = invocations (page s) ++ ((λ h, (h, data)) <$> visited) ∧
  ∃ errs, console (page s') = console (page s) ++ errs ∧
          Forall (λ e, ∃ err, e = ErrListener event err) errs ∧
          (length (filter (λ h, throws (body h data) = true) visited) <= length errs)%nat ∧
          (Forall (λ h, registry_calls (body h data) = []) l →
             errs = (λ h, ErrListener event (Thrown h))
                      <$> filter (λ h, throws (body h data) = true) visited).
Proof.
  intros Hl Hq. revert k s Hl. induction n as [|n IH]; intros k s Hl; cbv zeta.
  - simpl. rewrite !app_nil_r. split; [done|]. split; [done|].
    exists []. rewrite app_nil_r. done.
  - cbn [forEach]. unfold bind, get. unfold live_array. rewrite Hl.
    cbn [from_option]. unfold id.
    destruct (l !! k) as [h|] eqn:Ek.
    + rewrite (drop_S l h k Ek). cbn [take fmap list_fmap].
      assert (Forall (λ c, event_of c ≠ event) (registry_calls (body h data))) as Hh.
      { rewrite Forall_forall in Hq. apply Hq. eapply list_elem_of_lookup_2; eauto. }
      pose proof (visit_stable event data h s Hh) as Hv. cbv zeta in Hv.
      pose proof (visit_normal body event data h s) as Hn.
      destruct (visit body event data h s) as [r s1]. simpl in Hn, Hv. subst r.
      destruct Hv as (V1 & V2 & errs1 & V3 & V4 & V5 & V6).
      rewrite Hl in V1.
      destruct (IH (S k) s1 V1) as (I1 & I2 & errs2 & I3 & I4 & I5 & I6).
      split; [exact I1|]. split.
      { rewrite I2, V2, <- app_assoc. reflexivity. }
      exists (errs1 ++ errs2). split.
      { rewrite I3, V3, <- app_assoc. reflexivity. }
      split; [apply Forall_app; done|]. split.
      * rewrite filter_cons, length_app.
        destruct (decide (throws (body h data) = true)) as [Ht|Ht]; simpl; [|lia].
        specialize (V5 Ht). destruct errs1; [done|]. simpl. lia.
      * intros Hnone. rewrite (I6 Hnone), filter_cons.
        assert (registry_calls (body h data) = []) as Hh0.
        { rewrite Forall_forall in Hnone. apply Hnone. eapply list_elem_of_lookup_2; eauto. }
        rewrite (V6 Hh0).
        destruct (decide (throws (body h data) = true)) as [Ht|Ht].
        -- rewrite Ht. reflexivity.
        -- apply not_true_is_false in Ht. rewrite Ht. reflexivity.
    + apply lookup_ge_None in Ek.
      rewrite (drop_ge l k) by lia. rewrite take_nil.
      destruct (IH (S k) s Hl) as (I1 & I2 & errs2 & I3 & I4 & I5 & I6).
      rewrite (drop_ge l (S k)) in I2, I5, I6 by lia. rewrite take_nil in I2, I5, I6.
      split; [exact I1|]. split; [exact I2|]. exists errs2. done.
Qed.

Lemma emit_stable event data s l :
  listeners (this s) !! event = Some l →
  Forall (λ h, Forall (λ c, event_of c ≠ event) (registry_calls (body h data))) l →
  fst (emit body event data s) = Normal tt ∧
  invocations (page (snd (emit body event data s)))
    = invocations (page s) ++ ((λ h, (h, data)) <$> l) ∧
  ∃ errs,
    console (page (snd (emit body event data s))) = console (page s) ++ errs ∧
    Forall (λ e, ∃ err, e = ErrListener event err) errs ∧
    (length (filter (λ h, throws (body h data) = true) l) <= length errs)%nat ∧
    (Forall (λ h, registry_calls (body h data) = []) l →
       errs = (λ h, ErrListener event (Thrown h))
                <$> filter (λ h, throws (body h data) = true) l).
Proof.
  intros Hl Hq. unfold emit, bind, get. rewrite Hl.
  split; [apply (forEach_visit body event data (length l) 0 s)|].
  destruct (forEach_stable event data l (length l) 0 s Hl Hq) as (_ & H2 & H3).
  rewrite drop_0, firstn_all in H2, H3. split; [exact H2|exact H3].
Qed.

(** Whatever the callbacks do, each invocation [emit] makes carries the
    payload [emit] was given. *)
Lemma registry_calls_bus_trace cs s :
  bus_trace (snd (registry_calls_run cs s)) = bus_trace s.
Proof.
  revert s. induction cs as [|c cs IH]; intros s; [reflexivity|].
  cbn [registry_calls_run]. unfold bind.
  assert (bus_trace (snd (registry_call c s)) = bus_trace s) as Hc.
  { destruct c as [ev h|ev h]; simpl.
    - unfold on. js_unfold. simpl. destruct (listeners (this s) !! ev); simpl; [done|].
      destruct (inherited ev); done.
    - unfold off. js_unfold. simpl. destruct (listeners (this s) !! ev) as [l|]; simpl.
      + destruct (indexOf h l); done.
      + destruct (inherited ev); done. }
  destruct (registry_call c s) as [[[]|e] s1]; simpl in *; [|exact Hc].
  rewrite IH. exact Hc.
Qed.

Lemma visit_invocation event data h s :
  invocations (page (snd (visit body event data h s)))
    = invocations (page s) ++ [(h, data)].
Proof.
  unfold visit, call, try_catch, log, bind, modify. cbv beta iota.
  match goal with |- context [registry_calls_run ?cs ?s0] =>
    pose proof (registry_calls_bus_trace cs s0) as H;
    destruct (registry_calls_run cs s0) as [[[]|e] s1] end;
    unfold bus_trace in H; simpl in H; injection H as H _.
  - destruct (throws (body h data)); simpl; exact H.
  - simpl. exact H.
Qed.

Lemma forEach_payload event data n k s :
  ∃ new, invocations (page (snd (forEach event (visit body event data) n k s)))
           = invocations (page s) ++ new ∧
         Forall (λ c, snd c = data) new.
Proof.
  revert k s. induction n as [|n IH]; intros k s.
  - exists []. simpl. rewrite app_nil_r. done.
  - cbn [forEach]. unfold bind, get.
    destruct (live_array event s !! k) as [h|].
    + pose proof (visit_invocation event data h s) as Hv.
      pose proof (visit_normal body event data h s) as Hn.
      destruct (visit body event data h s) as [r s1]. simpl in Hn, Hv. subst r.
      destruct (IH (S k) s1) as (new & H1 & H2).
      exists ((h, data) :: new). split.
      * rewrite H1, Hv, <- app_assoc. reflexivity.
      * constructor; done.
    + apply IH.
Qed.

Lemma emit_payload event data s :
  ∃ new, invocations (page (snd (emit body event data s))) = invocations (page s) ++ new ∧
         Forall (λ c, snd c = data) new.
Proof.
  unfold emit, bind, get. destruct (listeners (this s) !! event) as [l|].
  - apply forEach_payload.
  - exists []. rewrite app_nil_r. destruct (inherited event); done.
Qed.

(** Callbacks that make no registry call leave the manager's fields alone. *)
Lemma emit_quiet_this event data s :
  (∀ h, registry_calls (body h data) = []) →
  this (snd (emit body event data s)) = this s.
Proof.
  intros Hq. unfold emit, bind, get. destruct (listeners (this s) !! event) as [l|].
  - generalize 0%nat (length l). intros k n. revert k s.
    induction n as [|n IH]; intros k s; [reflexivity|].
    cbn [forEach]. unfold bind, get.
    destruct (live_array event s !! k) as [h|]; [|apply IH].
    assert (this (snd (visit body event data h s)) = this s) as Hv.
    { unfold visit, call, try_catch, log, bind, modify. rewrite Hq. simpl.
      destruct (throws (body h data)); reflexivity. }
    pose proof (visit_normal body event data h s) as Hn.
    destruct (visit body event data h s) as [r s1]. simpl in Hn, Hv. subst r.
    rewrite IH. exact Hv.
  - destruct (inherited event); reflexivity.
Qed.

Lemma emit_quiet_invocations event data s :
  (∀ h, registry_calls (body h data) = []) →
  invocations (page (snd (emit body event data s)))
    = invocations (page s) ++ ((λ h, (h, data)) <$> live_array event s).
Proof.
  intros Hq. unfold live_array.
  destruct (listeners (this s) !! event) as [l|] eqn:Hl.
  - apply emit_stable; [exact Hl|].
    apply Forall_forall. intros h _. rewrite Hq. constructor.
  - unfold emit, bind, get. rewrite Hl. simpl. rewrite app_nil_r.
    destruct (inherited event); reflexivity.
Qed.

(** [emit] walks the array stored under the event while the callbacks run.
    A callback that registers further callbacks appends to that array, and
    one that unregisters a callback which is not among those [emit] started
    with removes an entry behind them: the callbacks [emit] started with
    stay where they are. *)
Lemma registry_call_keeps event l extra c s :
  listeners (this s) !! event = Some (l ++ extra) →
  ¬ takes_off event l c →
  ∃ extra', listeners (this (snd (registry_call c s))) !! event = Some (l ++ extra').
Proof.
  intros Hl Hno. destruct c as [ev h|ev h]; simpl in *.
  - unfold on. js_unfold. simpl. destruct (decide (ev = event)) as [->|Hne].
    + rewrite Hl. simpl. rewrite lookup_insert_eq. exists (extra ++ [h]).
      by rewrite app_assoc.
    + destruct (listeners (this s) !! ev); simpl.
      * rewrite lookup_insert_ne by done. eauto.
      * destruct (inherited ev); simpl; [eauto|]. rewrite lookup_insert_ne by done. eauto.
  - unfold off. js_unfold. simpl. destruct (decide (ev = event)) as [->|Hne].
    + rewrite Hl. simpl. destruct (indexOf h (l ++ extra)) as [i|] eqn:Hi; simpl; [|eauto].
      rewrite lookup_insert_eq. apply indexOf_Some in Hi as [Hi _].
      assert (length l <= i)%nat as Hge.
      { destruct (decide (i < length l)%nat) as [Hlt|]; [|lia]. exfalso. apply Hno.
        split; [done|]. rewrite lookup_app_l in Hi by lia.
        eapply list_elem_of_lookup_2. exact Hi. }
      exists (delete (i - length l)%nat extra). f_equal.
      rewrite !delete_take_drop, take_app_ge, drop_app_ge by lia.
      rewrite <- app_assoc. repeat f_equal. lia.
    + destruct (listeners (this s) !! ev) as [l'|]; simpl.
      * destruct (indexOf h l'); simpl; [|eauto]. rewrite lookup_insert_ne by done. eauto.
      * destruct (inherited ev); eauto.
Qed.

Lemma registry_calls_keeps event l extra cs s :
  listeners (this s) !! event = Some (l ++ extra) →
  Forall (λ c, ¬ takes_off event l c) cs →
  ∃ extra', listeners (this (snd (registry_calls_run cs s))) !! event = Some (l ++ extra').
Proof.
  intros Hl H. revert extra s Hl. induction H as [|c cs Hc _ IH]; intros extra s Hl; [eauto|].
  cbn [registry_calls_run]. unfold bind.
  destruct (registry_call_keeps event l extra c s Hl Hc) as [extra1 H1].
  destruct (registry_call c s) as [[[]|e] s1]; simpl in *; [|eauto].
  apply (IH extra1 s1 H1).
Qed.

Lemma visit_keeps event data l extra h s :
  listeners (this s) !! event = Some (l ++ extra) →
  Forall (λ c, ¬ takes_off event l c) (registry_calls (body h data)) →
  let s' := snd (visit body event data h s) in
  (∃ extra', listeners (this s') !! event = Some (l ++ extra')) ∧
  invocations (page s') = invocations (page s) ++ [(h, data)] ∧
  ∃ errs, console (page s') = console (page s) ++ errs ∧
          Forall (λ e, ∃ err, e = ErrListener event err) errs ∧
          (throws (body h data) = true → errs ≠ []) ∧
          (registry_calls (body h data) = [] →
             errs = if throws (body h data) then [ErrListener event (Thrown h)] else []).
Proof.
  intros Hl Hcs s'. subst s'. unfold visit, call, try_catch, log, bind, modify.
  cbv beta iota.
  match goal with |- context [registry_calls_run ?cs ?s0] =>
    destruct (registry_calls_keeps event l extra cs s0 Hl Hcs) as [extra1 H1];
    pose proof (registry_calls_bus_trace cs s0) as H2;
    destruct (registry_calls_run cs s0) as [[[]|e] s1] eqn:Erun end;
    unfold bus_trace in H2; simpl in H1, H2; injection H2 as H2 H3.
  - destruct (throws (body h data)) eqn:Et; unfold throw, ret; simpl;
      rewrite H2, H3.
    + split; [eauto|]. split; [done|]. eexists. split; [reflexivity|].
      split; [repeat constructor; eauto|]. split; [done|]. done.
    + split; [eauto|]. split; [done|]. exists []. rewrite app_nil_r.
      split; [done|]. split; [constructor|]. split; [done|]. done.
  - simpl. rewrite H2, H3.
    split; [eauto|]. split; [done|]. eexists. split; [reflexivity|].
    split; [repeat constructor; eauto|]. split; [done|].
    intros Hq. rewrite Hq in Erun. discriminate.
Qed.

Lemma forEach_keeps event data l extra n k s :
  listeners (this s) !! event = Some (l ++ extra) →
  Forall (λ h, Forall (λ c, ¬ takes_off event l c) (registry_calls (body h data))) l →
  (k + n <= length l)%nat →
  let s' := snd (forEach event (visit body event data) n k s) in
  let visited := take n (drop k l) in
  invocations (page s') = invocations (page s) ++ ((λ h, (h, data)) <$> visited) ∧
  ∃ errs, console (page s') = console (page s) ++ errs ∧
          Forall (λ e, ∃ err, e = ErrListener event err) errs ∧
          (length (filter (λ h, throws (body h data) = true) visited) <= length errs)%nat ∧
          (Forall (λ h, registry_calls (body h data) = []) l →
             errs = (λ h, ErrListener event (Thrown h))
                      <$> filter (λ h, throws (body h data) = true) visited).
Proof.
  intros Hl Hq. revert k extra s Hl.
  induction n as [|n IH]; intros k extra s Hl Hkn; cbv zeta.
  - simpl. rewrite !app_nil_r. split; [done|].
    exists []. rewrite app_nil_r. done.
  - cbn [forEach]. unfold bind, get. unfold live_array. rewrite Hl.
    cbn [from_option]. unfold id.
    destruct (lookup_lt_is_Some_2 l k ltac:(lia)) as [h Ek].
    rewrite (lookup_app_l_Some _ _ _ _ Ek).
    rewrite (drop_S l h k Ek). cbn [take fmap list_fmap].
    assert (Forall (λ c, ¬ takes_off event l c) (registry_calls (body h data))) as Hh.
    { rewrite Forall_forall in Hq. apply Hq. eapply list_elem_of_lookup_2; eauto. }
    pose proof (visit_keeps event data l extra h s Hl Hh) as Hv. cbv zeta in Hv.
    pose proof (visit_normal body event data h s) as Hn.
    destruct (visit body event data h s) as [r s1]. simpl in Hn, Hv. subst r.
    destruct Hv as ([extra1 V1] & V2 & errs1 & V3 & V4 & V5 & V6).
    destruct (IH (S k) extra1 s1 V1 ltac:(lia)) as (I2 & errs2 & I3 & I4 & I5 & I6).
    split.
    { rewrite I2, V2, <- app_assoc. reflexivity. }
    exists (errs1 ++ errs2). split.
    { rewrite I3, V3, <- app_assoc. reflexivity. }
    split; [apply Forall_app; done|]. split.
    * rewrite filter_cons, length_app.
      destruct (decide (throws (body h data) = true)) as [Ht|Ht]; simpl; [|lia].
      specialize (V5 Ht). destruct errs1; [done|]. simpl. lia.
    * intros Hnone. rewrite (I6 Hnone), filter_cons.
      assert (registry_calls (body h data) = []) as Hh0.
      { rewrite Forall_forall in Hnone. apply Hnone. eapply list_elem_of_lookup_2; eauto. }
      rewrite (V6 Hh0).
      destruct (decide (throws (body h data) = true)) as [Ht|Ht].
      -- rewrite Ht. reflexivity.
      -- apply not_true_is_false in Ht. rewrite Ht. reflexivity.
Qed.

(** C7, as the code has it.  [emit] walks the array stored under the
    event while the callbacks run, so the statement needs that no callback
    of that array calls [off] for this very event and one of the callbacks
    of the array.  The callbacks may call [on], for this event too, and
    [off] for other events or other callbacks.  Then, for every array of
    callbacks registered under the event: [emit] returns normally; each
    callback is invoked exactly once, in registration order, with the
    payload, and no other callback is invoked; every callback that throws
    leaves an entry on the console and the ones after it still run; and
    when the callbacks make no registry calls at all the console gains
    exactly one entry per throwing callback, in order. *)
Theorem emit_invokes_each_once event data s l :
  listeners (this s) !! event = Some l →
  Forall (λ h, Forall (λ c, ¬ takes_off event l c) (registry_calls (body h data))) l →
  fst (emit body event data s) = Normal tt ∧
  invocations (page (snd (emit body event data s)))
    = invocations (page s) ++ ((λ h, (h, data)) <$> l) ∧
  ∃ errs,
    console (page (snd (emit body event data s))) = console (page s) ++ errs ∧
    Forall (λ e, ∃ err, e = ErrListener event err) errs ∧
    (length (filter (λ h, throws (body h data) = true) l) <= length errs)%nat ∧
    (Forall (λ h, registry_calls (body h data) = []) l →
       errs = (λ h, ErrListener event (Thrown h))
                <$> filter (λ h, throws (body h data) = true) l).
Proof.
  intros Hl Hq. unfold emit, bind, get. rewrite Hl.
  split; [apply (forEach_visit body event data (length l) 0 s)|].
  rewrite <- (app_nil_r l) in Hl.
  destruct (forEach_keeps event data l [] (length l) 0 s Hl Hq ltac:(lia)) as (H2 & H3).
  rewrite drop_0, firstn_all in H2, H3. split; [exact H2|exact H3].
Qed.

(** C3, as the code has it.  For every inbound frame that parses to an
    envelope whose [type] is a string, [onmessage] returns normally and
    emits [message] and then the envelope's type; the payload of every
    callback invocation it makes is the whole parsed envelope (not its
    [data] member); and when the callbacks make no registry calls, the
    invocations are exactly the callbacks registered under [message], in
    order, followed by those registered under the type, each with the
    envelope. *)
Theorem onmessage_passes_envelope envelope type s :
  get_prop envelope "type" = Some (VStr type) →
  fst (onmessage body (JsonText envelope) s) = Normal tt ∧
  (∃ new,
     invocations (page (snd (onmessage body (JsonText envelope) s)))
       = invocations (page s) ++ new ∧
     Forall (λ c, snd c = envelope) new) ∧
  ((∀ h, registry_calls (body h envelope) = []) →
     invocations (page (snd (onmessage body (JsonText envelope) s)))
       = invocations (page s)
         ++ ((λ h, (h, envelope)) <$> (live_array "message" s ++ live_array type s))).
Proof.
  intros Ht. unfold onmessage, try_catch, bind, lift, log, modify, ret.
  cbn [JSON_parse]. rewrite Ht. cbn [to_key].
  set (s0 := on_page (λ b, set_console (console b ++ [LogReceived (VStr type)]) b) s).
  assert (invocations (page s0) = invocations (page s)) as Hinv0 by reflexivity.
  assert (this s0 = this s) as Hthis0 by reflexivity.
  destruct (emit_payload "message" envelope s0) as (new1 & P1 & F1).
  pose proof (emit_quiet_this "message" envelope s0) as Q1.
  pose proof (emit_quiet_invocations "message" envelope s0) as R1.
  pose proof (emit_normal body "message" envelope s0 eq_refl) as N1.
  destruct (emit body "message" envelope s0) as [r1 s1]. simpl in P1, Q1, R1, N1. subst r1.
  destruct (emit_payload type envelope s1) as (new2 & P2 & F2).
  pose proof (emit_quiet_invocations type envelope s1) as R2.
  destruct (emit body type envelope s1) as [[[]|e] s2]; simpl in P2, R2; simpl.
  all: split; [reflexivity|]; split.
  1,3: exists (new1 ++ new2); split;
       [rewrite P2, P1, ?Hinv0, <- app_assoc; reflexivity | apply Forall_app; done].
  all: intros Hq; rewrite (R2 Hq), (R1 Hq), ?Hinv0, fmap_app, <- app_assoc.
  all: unfold live_array; rewrite (Q1 Hq), ?Hthis0; reflexivity.
Qed.

End Emit.

Lemma emit_invokes_each_once_witness :
  let s := state_after [Call_on "analysis_result" 0%nat; Call_on "analysis_result" 1%nat]
             example_boot in
  listeners (this s) !! "analysis_result" = Some [0%nat; 1%nat] ∧
  Forall (λ h, Forall (λ c, ¬ takes_off "analysis_result" [0%nat; 1%nat] c)
                 (registry_calls (first_registers_more h example_envelope)))
    [0%nat; 1%nat] ∧
  fst (emit first_registers_more "analysis_result" example_envelope s) = Normal tt ∧
  invocations (page (snd (emit first_registers_more "analysis_result" example_envelope s)))
    = invocations (page s) ++ [(0%nat, example_envelope); (1%nat, example_envelope)] ∧
  live_array "analysis_result"
    (snd (emit first_registers_more "analysis_result" example_envelope s))
    = [0%nat; 1%nat; 3%nat] ∧
  console (page (snd (emit first_registers_more "analysis_result" example_envelope s)))
    = console (page s) ++ [ErrListener "analysis_result" (Thrown 0%nat)].
Proof.
  cbv zeta.
  set (s := state_after [Call_on "analysis_result" 0%nat; Call_on "analysis_result" 1%nat]
              example_boot).
  assert (listeners (this s) !! "analysis_result" = Some [0%nat; 1%nat]) as Hl
    by (vm_compute; reflexivity).
  assert (Forall (λ h, Forall (λ c, ¬ takes_off "analysis_result" [0%nat; 1%nat] c)
                         (registry_calls (first_registers_more h example_envelope)))
            [0%nat; 1%nat]) as Hq.
  { repeat constructor; simpl; try tauto.
    intros [_ Hin]. repeat (apply elem_of_cons in Hin as [Hin|Hin]; [discriminate|]).
    by apply elem_of_nil in Hin. }
  destruct (emit_invokes_each_once first_registers_more "analysis_result" example_envelope
              s _ Hl Hq) as (H1 & H2 & _).
  split; [exact Hl|]. split; [exact Hq|]. split; [exact H1|]. split; [exact H2|].
  split; vm_compute; reflexivity.
Defined.

(** C7, as the specification states it, fails: of two callbacks registered
    for an event, the first of which unregisters itself when it runs, [emit]
    invokes the first and skips the second. *)
Lemma emit_skips_after_unregistration :
  let s := state_after [Call_on "analysis_result" 0%nat; Call_on "analysis_result" 1%nat]
             example_boot in
  listeners (this s) !! "analysis_result" = Some [0%nat; 1%nat] ∧
  fst (emit first_unregisters_itself "analysis_result" example_envelope s) = Normal tt ∧
  invocations (page (snd (emit first_unregisters_itself "analysis_result"
                            example_envelope s)))
    = [(0%nat, example_envelope)].
Proof. vm_compute. repeat split; reflexivity. Qed.

Lemma onmessage_passes_envelope_witness :
  let s := state_after [Call_on "message" 0%nat; Call_on "analysis_result" 1%nat;
                        SocketOpen 0 VUndef] example_boot in
  get_prop example_envelope "type" = Some (VStr "analysis_result") ∧
  (∀ h, registry_calls (quiet h example_envelope) = []) ∧
  fst (onmessage quiet (JsonText example_envelope) s) = Normal tt ∧
  invocations (page (snd (onmessage quiet (JsonText example_envelope) s)))
    = invocations (page s)
      ++ ((λ h, (h, example_envelope))
            <$> (live_array "message" s ++ live_array "analysis_result" s)).
Proof.
  cbv zeta.
  assert (get_prop example_envelope "type" = Some (VStr "analysis_result")) as Ht
    by reflexivity.
  assert (∀ h, registry_calls (quiet h example_envelope) = []) as Hq by reflexivity.
  destruct (onmessage_passes_envelope quiet example_envelope "analysis_result"
              (state_after [Call_on "message" 0%nat; Call_on "analysis_result" 1%nat;
                            SocketOpen 0 VUndef] example_boot) Ht) as (H1 & _ & H3).
  split; [exact Ht|]. split; [exact Hq|]. split; [exact H1|exact (H3 Hq)].
Defined.

(** C3, as the specification states it, fails: the callbacks of [message]
    and of the envelope's type are handed the envelope itself, which is not
    its [data] member. *)
Lemma onmessage_payload_is_not_data :
  let s := state_after [Call_on "message" 0%nat; Call_on "analysis_result" 1%nat;
                        SocketOpen 0 VUndef] example_boot in
  invocations (page (snd (onmessage quiet (JsonText example_envelope) s)))
    = [(0%nat, example_envelope); (1%nat, example_envelope)] ∧
  get_prop example_envelope "data" = Some example_result ∧
  example_envelope ≠ example_result.
Proof. vm_compute. repeat split; try reflexivity. discriminate. Qed.

(** ** debounce *)

Section DebounceFacts.

Import Debounce.

Context {A : Type}.
Variable wait : Z.

Lemma clearTimeout_single (s : State A) :
  single s →
  pending (clearTimeout A s) = [] ∧ timeout (clearTimeout A s) = timeout s ∧
  next_id (clearTimeout A s) = next_id s ∧ invoked (clearTimeout A s) = invoked s.
Proof.
  intros [Hp|(tm & Hp & Ht)]; unfold clearTimeout.
  - destruct (timeout s) eqn:E; simpl; rewrite ?Hp, ?E; done.
  - rewrite Ht. simpl. rewrite Hp, filter_cons.
    destruct (decide (id tm ≠ id tm)); done.
Qed.

Lemma advance_idle t (s : State A) : pending s = [] → advance A t s = s.
Proof. unfold advance. intros ->. reflexivity. Qed.

Lemma advance_early t (s : State A) tm :
  pending s = [tm] → t < due tm → advance A t s = s.
Proof.
  unfold advance. intros -> Hlt. simpl.
  assert ((due tm <=? t) = false) as -> by (apply Z.leb_gt; lia). reflexivity.
Qed.

Lemma advance_fires t (s : State A) tm :
  pending s = [tm] → timeout s = Some (id tm) → due tm <= t →
  advance A t s =
  {| timeout := timeout s; pending := []; next_id := next_id s;
     invoked := invoked s ++ [(due tm, args tm)] |}.
Proof.
  unfold advance. intros Hp Ht Hle. rewrite Hp. simpl.
  assert ((due tm <=? t) = true) as -> by (apply Z.leb_le; lia).
  unfold is_pending. rewrite Hp. simpl. rewrite Nat.eqb_refl. simpl.
  unfold later, remove, clearTimeout. simpl. rewrite Ht, Hp. simpl.
  rewrite filter_cons. destruct (decide (id tm ≠ id tm)); [done|]. reflexivity.
Qed.


Lemma debounced_single t a (s : State A) :
  single s →
  pending (debounced A wait t a s)
    = [{| id := next_id s; due := t + wait; args := a |}] ∧
  timeout (debounced A wait t a s) = Some (next_id s) ∧
  invoked (debounced A wait t a s) = invoked s.
Proof.
  intros Hs. destruct (clearTimeout_single s Hs) as (H1 & H2 & H3 & H4).
  unfold debounced, setTimeout. simpl. rewrite H1, H3, H4. done.
Qed.








End DebounceFacts.


(** ** analyzeText *)

Section Coordinator.

Import SentimentApp.

Variable render : JSVal -> bool.

Lemma setAnalyzeButtonState_fields isLoading a :
  fst (setAnalyzeButtonState isLoading a) = Normal tt ∧
  isAnalyzing (snd (setAnalyzeButtonState isLoading a)) = isAnalyzing a ∧
  requests (snd (setAnalyzeButtonState isLoading a)) = requests a ∧
  wsManager (snd (setAnalyzeButtonState isLoading a)) = wsManager a.
Proof.
  unfold setAnalyzeButtonState. js_unfold.
  destruct (analyzeBtn a); [destruct isLoading|]; done.
Qed.

(** Leaving the [try] block of a manual call, normally or by an exception,
    goes through [finally], which clears the flag. *)
Lemma try_block_manual stretch a :
  over (fst (try_block false stretch a)) = true →
  isAnalyzing (snd (try_block false stretch a)) = false.
Proof.
  unfold try_block, try_finally, finally_block, catch_block, setAnalyzeButtonState,
    log, showToast. js_unfold.
  destruct (stretch a) as [[[k|]|e] a1]; simpl; [discriminate| |];
    intros _; destruct (analyzeBtn a1); reflexivity.
Qed.

(** A stretch that does not stop at an [await] brings the call to its end. *)
Lemma try_block_over isRealtime stretch a :
  (∀ k, fst (stretch a) ≠ Normal (Some k)) →
  over (fst (try_block isRealtime stretch a)) = true.
Proof.
  intros Hk.
  unfold try_block, try_finally, finally_block, catch_block, setAnalyzeButtonState,
    log, showToast. js_unfold.
  destruct (stretch a) as [[[k|]|e] a1]; simpl.
  - exfalso. apply (Hk k). reflexivity.
  - destruct isRealtime; simpl; [reflexivity|]. destruct (analyzeBtn a1); reflexivity.
  - destruct isRealtime; simpl; [reflexivity|]. destruct (analyzeBtn a1); reflexivity.
Qed.

(** Where a call can be suspended, and what it remembers there. *)
Lemma try_block_waiting isRealtime stretch a k :
  fst (try_block isRealtime stretch a) = Normal (Waiting k) →
  fst (stretch a) = Normal (Some k).
Proof.
  unfold try_block, try_finally, finally_block, catch_block, setAnalyzeButtonState,
    log, showToast. js_unfold.
  destruct (stretch a) as [[[k'|]|e] a1]; simpl.
  - intros [= ->]. reflexivity.
  - destruct isRealtime; simpl; [discriminate|]. destruct (analyzeBtn a1); discriminate.
  - destruct isRealtime; simpl; [discriminate|]. destruct (analyzeBtn a1); discriminate.
Qed.

Lemma after_json_over isRealtime parsed a :
  over (fst (after_json render isRealtime parsed a)) = true.
Proof.
  unfold after_json. apply try_block_over. intros k.
  unfold result_stretch, displayAnalysisResult, showToast. js_unfold.
  destruct parsed as [result|e]; simpl; [|discriminate].
  destruct (get_prop result "error") as [err|]; simpl; [|discriminate].
  destruct (truthy err); simpl.
  - destruct isRealtime; simpl; [discriminate|].
    destruct (resultsSection a); discriminate.
  - destruct (render result); simpl; [|discriminate].
    destruct (resultsSection a) eqn:E; simpl; destruct isRealtime; simpl;
      rewrite ?E; simpl; discriminate.
Qed.

Lemma after_fetch_waiting isRealtime fetched a k :
  fst (after_fetch isRealtime fetched a) = Normal (Waiting k) →
  k = {| point := AwaitJson; realtime := isRealtime |}.
Proof.
  intros H. apply try_block_waiting in H. revert H. unfold response_stretch. js_unfold.
  destruct fetched as [response|e]; simpl; [|discriminate].
  destruct (ok response); simpl; [|discriminate]. intros [= <-]. reflexivity.
Qed.

(** A call that gets past its two guards sets the flag and the button and
    enters the [try] block. *)
Lemma analyzeText_started text isRealtime a :
  is_empty text = false →
  isAnalyzing a && negb isRealtime = false →
  analyzeText text isRealtime a
    = try_block isRealtime (request_stretch text isRealtime)
        (snd (setAnalyzeButtonState true (set_isAnalyzing true a))).
Proof.
  intros He Hg. unfold analyzeText, bind, get, modify. rewrite He, Hg.
  destruct (setAnalyzeButtonState_fields true (set_isAnalyzing true a)) as (Hn & _).
  destruct (setAnalyzeButtonState true (set_isAnalyzing true a)) as [r a1].
  simpl in Hn. subst r. reflexivity.
Qed.

Lemma request_stretch_waiting text isRealtime a k :
  fst (request_stretch text isRealtime a) = Normal (Some k) →
  k = {| point := AwaitFetch; realtime := isRealtime |}.
Proof.
  unfold request_stretch, bind, get.
  match goal with |- context [if ?c then _ else ret false] => destruct c end.
  - destruct (analyzeTextWebSocket text a) as [[[]|e] a2]; simpl; try discriminate.
    intros [= <-]. reflexivity.
  - simpl. intros [= <-]. reflexivity.
Qed.

Lemma analyzeText_waiting text isRealtime a k :
  fst (analyzeText text isRealtime a) = Normal (Waiting k) →
  k = {| point := AwaitFetch; realtime := isRealtime |}.
Proof.
  destruct (is_empty text) eqn:He.
  { unfold analyzeText. rewrite He. unfold setAnalyzeButtonState. js_unfold.
    destruct (analyzeBtn a); discriminate. }
  destruct (isAnalyzing a && negb isRealtime) eqn:Hg.
  { unfold analyzeText, bind, get. rewrite He, Hg. discriminate. }
  rewrite (analyzeText_started text isRealtime a He Hg).
  intros H. apply try_block_waiting in H. apply request_stretch_waiting in H. exact H.
Qed.

Lemma analyzeText_manual_started text a :
  is_empty text = false → isAnalyzing a = false →
  over (fst (analyzeText text false a)) = true →
  isAnalyzing (snd (analyzeText text false a)) = false.
Proof.
  intros He Hb. rewrite (analyzeText_started text false a He) by (rewrite Hb; reflexivity).
  apply try_block_manual.
Qed.

Lemma resume_manual k fetched parsed a :
  realtime k = false →
  over (fst (resume render k fetched parsed a)) = true →
  isAnalyzing (snd (resume render k fetched parsed a)) = false.
Proof.
  intros Hk. unfold resume. rewrite Hk.
  destruct (point k); [unfold after_fetch|unfold after_json]; apply try_block_manual.
Qed.

(** C4, as the code has it.  A manual submission that starts an attempt
    (text not empty, no manual request outstanding) leaves the busy flag
    cleared when the call is over, whichever way it ends: sent over the
    push channel, answered by the fallback, refused by it, or broken off
    by an exception.  This holds for the call as it starts, for every
    resumption of it after an [await] in whatever state the page is by
    then, and for the attempt carried through, which always comes to an
    end. *)
Theorem manual_attempt_clears_busy text fetched parsed a :
  is_empty text = false →
  isAnalyzing a = false →
  (over (fst (analyzeText text false a)) = true →
     isAnalyzing (snd (analyzeText text false a)) = false) ∧
  (∀ k a0, realtime k = false →
     over (fst (resume render k fetched parsed a0)) = true →
     isAnalyzing (snd (resume render k fetched parsed a0)) = false) ∧
  over (fst (attempt render text false fetched parsed a)) = true ∧
  isAnalyzing (snd (attempt render text false fetched parsed a)) = false.
Proof.
  intros He Hb.
  split; [apply analyzeText_manual_started; done|].
  split; [intros k a0; apply resume_manual|].
  unfold attempt, bind.
  pose proof (analyzeText_manual_started text a He Hb) as H1.
  pose proof (analyzeText_waiting text false a) as W1.
  destruct (analyzeText text false a) as [[[|k]|e] a1]; simpl in H1, W1.
  - split; [reflexivity|]. apply H1. reflexivity.
  - rewrite (W1 k eq_refl). unfold resume at 1 3. cbn [point realtime].
    pose proof (try_block_manual (response_stretch false fetched) a1) as H2.
    pose proof (after_fetch_waiting false fetched a1) as W2.
    fold (after_fetch false fetched) in H2.
    destruct (after_fetch false fetched a1) as [[[|k']|e] a2]; simpl in H2, W2.
    + split; [reflexivity|]. apply H2. reflexivity.
    + rewrite (W2 k' eq_refl). unfold resume. cbn [point realtime].
      split; [apply after_json_over|].
      unfold after_json. apply try_block_manual.
      apply (after_json_over false parsed a2).
    + split; [reflexivity|]. apply H2. reflexivity.
  - split; [reflexivity|]. apply H1. reflexivity.
Qed.


End Coordinator.

Lemma manual_attempt_clears_busy_witness :
  let a := SentimentApp.fresh None false false in
  let text := "This is good product review text" in
  let refused := Normal {| SentimentApp.ok := false; SentimentApp.status := 500;
                           SentimentApp.statusText := "Internal Server Error" |} in
  SentimentApp.is_empty text = false ∧
  SentimentApp.isAnalyzing a = false ∧
  SentimentApp.over (fst (SentimentApp.attempt (λ _, true) text false refused
                            (Normal example_result) a)) = true ∧
  SentimentApp.isAnalyzing (snd (SentimentApp.attempt (λ _, true) text false refused
                                   (Normal example_result) a)) = false.
Proof.
  cbv zeta.
  assert (SentimentApp.is_empty "This is good product review text" = false) as He
    by (vm_compute; reflexivity).
  assert (SentimentApp.isAnalyzing (SentimentApp.fresh None false false) = false) as Hb
    by reflexivity.
  destruct (manual_attempt_clears_busy (λ _, true) _
              (Normal {| SentimentApp.ok := false; SentimentApp.status := 500;
                         SentimentApp.statusText := "Internal Server Error" |})
              (Normal example_result) _ He Hb) as (_ & _ & H3 & H4).
  split; [exact He|]. split; [exact Hb|]. split; [exact H3|exact H4].
Defined.

(** C4, as the specification states it, fails: a realtime submission sets
    the busy flag and leaves it set when the attempt is over, whether the
    fallback answers or fails; a manual submission made afterwards is
    turned away by the flag and issues no request. *)
Lemma realtime_attempt_leaves_busy :
  let a := SentimentApp.fresh None false false in
  let text := "This is good product review text" in
  let answered := Normal {| SentimentApp.ok := true; SentimentApp.status := 200;
                            SentimentApp.statusText := "OK" |} in
  let a' := snd (SentimentApp.attempt (λ _, true) text true answered
                   (Normal example_result) a) in
  SentimentApp.over (fst (SentimentApp.attempt (λ _, true) text true answered
                            (Normal example_result) a)) = true ∧
  SentimentApp.isAnalyzing a' = true ∧
  SentimentApp.isAnalyzing
    (snd (SentimentApp.attempt (λ _, true) text true (Throw NetworkError)
            (Normal example_result) a)) = true ∧
  SentimentApp.requests (snd (SentimentApp.analyzeText text false a'))
    = SentimentApp.requests a'.
Proof. vm_compute. repeat split; reflexivity. Qed.

(** * Further properties of the same code *)

(** ** Registering and unregistering callbacks *)

(** What [off] does to the lists of callbacks. *)
Lemma off_live_array event h s :
  inherited event = false →
  (∀ event', event' ≠ event →
     live_array event' (snd (off event h s)) = live_array event' s) ∧
  (h ∉ live_array event s → snd (off event h s) = s) ∧
  (h ∈ live_array event s →
     ∃ front back,
       live_array event s = front ++ (h :: back) ∧ (h ∉ front) ∧
       live_array event (snd (off event h s)) = front ++ back).
Proof.
  intros Hi. unfold live_array, off. js_unfold. simpl.
    destruct (listeners (this s) !! event) as [l|] eqn:Hl; simpl.
    + destruct (indexOf h l) as [i|] eqn:Hix; simpl.
      * apply indexOf_Some in Hix as [Hli Hnot]. split; [|split].
        -- intros event' Hne. rewrite lookup_insert_ne by done. reflexivity.
        -- intros Hnin. exfalso. apply Hnin. eapply list_elem_of_lookup_2. exact Hli.
        -- intros _. exists (take i l), (drop (S i) l).
           rewrite lookup_insert_eq. simpl.
           rewrite (take_drop_middle l i h Hli), delete_take_drop. done.
      * apply indexOf_None in Hix. done.
    + rewrite Hi. simpl. rewrite Hl. simpl. split; [done|]. split; [done|].
      intros Hin. apply not_elem_of_nil in Hin. done.
Qed.

(** X1.  [off] takes out one registration of the callback, the first one, and
    keeps everything else in place; where the callback (or the event) is not
    registered it changes nothing.  It throws for no event name but those
    Object.prototype defines. *)
Theorem off_removes_first_registration event h s :
  inherited event = false →
  fst (off event h s) = Normal tt ∧
  connection (snd (off event h s)) = connection s ∧
  (∀ event', event' ≠ event →
     live_array event' (snd (off event h s)) = live_array event' s) ∧
  (h ∉ live_array event s → snd (off event h s) = s) ∧
  (h ∈ live_array event s →
     ∃ front back,
       live_array event s = front ++ (h :: back) ∧ (h ∉ front) ∧
       live_array event (snd (off event h s)) = front ++ back).
Proof.
  intros Hi. split; [|split; [apply off_connection|apply off_live_array; exact Hi]].
  unfold off. js_unfold. simpl.
  destruct (listeners (this s) !! event) as [l|]; [destruct (indexOf h l); done|].
  rewrite Hi. done.
Qed.

Lemma off_removes_first_registration_witness :
  let s := state_after [Call_on "analysis_result" 7%nat; Call_on "analysis_result" 3%nat;
                        Call_on "analysis_result" 7%nat] example_boot in
  inherited "analysis_result" = false ∧
  live_array "analysis_result" s = [7%nat; 3%nat; 7%nat] ∧
  live_array "analysis_result" (snd (off "analysis_result" 7%nat s)) = [3%nat; 7%nat] ∧
  snd (off "analysis_result" 9%nat s) = s.
Proof.
  cbv zeta.
  set (s := state_after [Call_on "analysis_result" 7%nat; Call_on "analysis_result" 3%nat;
                         Call_on "analysis_result" 7%nat] example_boot).
  assert (inherited "analysis_result" = false) as Hi by reflexivity.
  assert (live_array "analysis_result" s = [7%nat; 3%nat; 7%nat]) as Hl
    by (vm_compute; reflexivity).
  destruct (off_removes_first_registration "analysis_result" 9%nat s Hi)
    as (_ & _ & _ & Hout & _).
  split; [exact Hi|]. split; [exact Hl|]. split; [vm_compute; reflexivity|].
  apply Hout. rewrite Hl. intros Hin. repeat (apply elem_of_cons in Hin as [Hin|Hin];
    [discriminate|]). inversion Hin.
Defined.

Lemma on_appends event h s :
  inherited event = false →
  fst (on event h s) = Normal tt ∧
  live_array event (snd (on event h s)) = live_array event s ++ [h] ∧
  (∀ event', event' ≠ event →
     live_array event' (snd (on event h s)) = live_array event' s) ∧
  bus_trace (snd (on event h s)) = bus_trace s.
Proof.
  intros Hi. unfold live_array, on. js_unfold. simpl.
  destruct (listeners (this s) !! event) as [l|] eqn:Hl; simpl.
  - rewrite lookup_insert_eq. simpl. repeat split.
    intros event' Hne. rewrite lookup_insert_ne by done. reflexivity.
  - rewrite Hi. simpl. rewrite lookup_insert_eq. simpl. repeat split.
    intros event' Hne. rewrite lookup_insert_ne by done. reflexivity.
Qed.

Section Registration.

Variable body : HandlerId -> JSVal -> Behaviour.

(** X2.  A callback registered with [on] is invoked by the next [emit] of that
    event, later than all the callbacks registered earlier (callbacks that make
    no registry calls of their own). *)
Theorem on_then_emit_invokes_last event h data s :
  inherited event = false →
  (∀ h', registry_calls (body h' data) = []) →
  fst (on event h s) = Normal tt ∧
  fst (emit body event data (snd (on event h s))) = Normal tt ∧
  invocations (page (snd (emit body event data (snd (on event h s)))))
    = invocations (page s) ++ ((λ h', (h', data)) <$> (live_array event s ++ [h])).
Proof.
  intros Hi Hq. destruct (on_appends event h s Hi) as (H1 & H2 & _ & H4).
  split; [exact H1|]. split; [apply emit_normal; exact Hi|].
  rewrite (emit_quiet_invocations body event data _ Hq), H2.
  unfold bus_trace in H4. injection H4 as -> _. reflexivity.
Qed.

(** X3.  Registering a callback that was not registered for the event and
    unregistering it again leaves, under every event, the callbacks that
    were there, in their order, so that an [emit] invokes what it would
    have invoked otherwise. *)
Theorem on_then_off_restores event h data s :
  inherited event = false →
  h ∉ live_array event s →
  (∀ event', live_array event' (snd (off event h (snd (on event h s))))
               = live_array event' s) ∧
  ((∀ h', registry_calls (body h' data) = []) →
   ∀ event',
     invocations (page (snd (emit body event' data (snd (off event h (snd (on event h s)))))))
       = invocations (page (snd (emit body event' data s)))).
Proof.
  intros Hi Hnot. destruct (on_appends event h s Hi) as (_ & H2 & H3 & H4).
  assert (∀ event', live_array event' (snd (off event h (snd (on event h s))))
                    = live_array event' s) as Hsame.
  { intros event'.
    destruct (off_live_array event h (snd (on event h s)) Hi) as (Hother & _ & Hin).
    destruct (decide (event' = event)) as [->|Hne].
    - destruct Hin as (front & back & Hd & Hb & Hr).
      { rewrite H2. apply elem_of_app. right. left. }
      rewrite Hr. rewrite H2 in Hd.
      assert (front = live_array event s ∧ back = []) as [-> ->].
      { clear -Hd Hb Hnot. revert front Hd Hb.
        induction (live_array event s) as [|x l IH]; intros front Hd Hb.
        - destruct front as [|y front]; simpl in Hd.
          + injection Hd as <-. done.
          + injection Hd as -> Hd. exfalso. apply Hb. left.
        - destruct front as [|y front]; simpl in Hd.
          + injection Hd as -> _. exfalso. apply Hnot. left.
          + injection Hd as <- Hd.
            apply not_elem_of_cons in Hnot as [_ Hnot].
            apply not_elem_of_cons in Hb as [_ Hb].
            destruct (IH Hnot front Hd Hb) as [-> ->]. done. }
      apply app_nil_r.
    - rewrite (Hother event' Hne). apply H3. exact Hne. }
  split; [exact Hsame|].
  intros Hq event'. rewrite !(emit_quiet_invocations body event' data _ Hq), Hsame.
  f_equal.
  pose proof (off_connection event h (snd (on event h s))) as Hc.
  assert (bus_trace (snd (off event h (snd (on event h s)))) = bus_trace (snd (on event h s)))
    as Hb.
  { unfold off, bus_trace. js_unfold. simpl.
    destruct (listeners (this (snd (on event h s))) !! event) as [l|]; simpl.
    - destruct (indexOf h l); reflexivity.
    - destruct (inherited event); reflexivity. }
  rewrite H4 in Hb. unfold bus_trace in Hb. injection Hb as -> _. reflexivity.
Qed.

End Registration.

Lemma on_then_emit_invokes_last_witness :
  let s := state_after [Call_on "analysis_result" 3%nat] example_boot in
  inherited "analysis_result" = false ∧
  (∀ h', registry_calls (first_throws h' example_envelope) = []) ∧
  invocations (page (snd (emit first_throws "analysis_result" example_envelope
                            (snd (on "analysis_result" 0%nat s)))))
    = invocations (page s) ++ [(3%nat, example_envelope); (0%nat, example_envelope)].
Proof.
  cbv zeta.
  set (s := state_after [Call_on "analysis_result" 3%nat] example_boot).
  assert (inherited "analysis_result" = false) as Hi by reflexivity.
  assert (∀ h', registry_calls (first_throws h' example_envelope) = []) as Hq
    by reflexivity.
  assert (live_array "analysis_result" s = [3%nat]) as Hl by (vm_compute; reflexivity).
  destruct (on_then_emit_invokes_last first_throws "analysis_result" 0%nat
              example_envelope s Hi Hq) as (_ & _ & H).
  split; [exact Hi|]. split; [exact Hq|]. rewrite H, Hl. reflexivity.
Defined.

Lemma on_then_off_restores_witness :
  let s := state_after [Call_on "analysis_result" 3%nat] example_boot in
  inherited "message" = false ∧
  (0%nat ∉ live_array "message" s) ∧
  ∀ event', live_array event' (snd (off "message" 0%nat (snd (on "message" 0%nat s))))
              = live_array event' s.
Proof.
  cbv zeta.
  set (s := state_after [Call_on "analysis_result" 3%nat] example_boot).
  assert (inherited "message" = false) as Hi by reflexivity.
  assert (0%nat ∉ live_array "message" s) as Hn.
  { assert (live_array "message" s = []) as -> by (vm_compute; reflexivity).
    apply not_elem_of_nil. }
  destruct (on_then_off_restores quiet "message" 0%nat VUndef s Hi Hn) as [H _].
  split; [exact Hi|]. split; [exact Hn|exact H].
Defined.

(** ** Inbound frames and socket errors *)


Section Frames.

Variable body : HandlerId -> JSVal -> Behaviour.


(** X5.  A socket error by itself notifies the callbacks of [error] and turns
    the indicator to error; it does not touch [isConnected], the attempt
    counter, the sockets or the timers, so it schedules no reconnect. *)
Theorem onerror_only_reports error s :
  is_Some (indicator (page s)) →
  (∀ h, registry_calls (body h error) = []) →
  fst (onerror body error s) = Normal tt ∧
  indicator (page (snd (onerror body error s))) = Some ShowsError ∧
  isConnected (this (snd (onerror body error s))) = isConnected (this s) ∧
  reconnectAttempts (this (snd (onerror body error s))) = reconnectAttempts (this s) ∧
  sockets (page (snd (onerror body error s))) = sockets (page s) ∧
  timers (page (snd (onerror body error s))) = timers (page s) ∧
  invocations (page (snd (onerror body error s)))
    = invocations (page s) ++ ((λ h, (h, error)) <$> live_array "error" s).
Proof.
  intros [ind Hind] Hq.
  pose proof (onerror_connection body error s) as Hc. rewrite Hind in Hc.
  apply connection_fields in Hc as (_ & H2 & H3 & _ & _ & H6 & H7 & H8).
  fields. unfold onerror, log, updateConnectionStatus in *. js_unfold. simpl in *.
  rewrite Hind in *.
  match goal with |- context [emit body ?ev ?d ?s0] =>
    pose proof (emit_normal body ev d s0 eq_refl) as Hn;
    pose proof (emit_quiet_invocations body ev d s0 Hq) as Hi;
    destruct (emit body ev d s0) as [r s1] end.
  simpl in *. subst r. done.
Qed.

(** X6.  The handlers take the status element for granted: on a page without
    it, [onclose] marks the manager disconnected and stops there: no
    callback is notified and no reconnect is scheduled, whatever the
    counter; [onopen] likewise sets [isConnected] and resets the counter
    but notifies nobody. *)
Theorem handlers_need_status_element code reason wasClean event s :
  indicator (page s) = None →
  (∃ e, fst (onclose body code reason wasClean s) = Throw e) ∧
  isConnected (this (snd (onclose body code reason wasClean s))) = false ∧
  timers (page (snd (onclose body code reason wasClean s))) = timers (page s) ∧
  invocations (page (snd (onclose body code reason wasClean s))) = invocations (page s) ∧
  (∃ e, fst (onopen body event s) = Throw e) ∧
  isConnected (this (snd (onopen body event s))) = true ∧
  reconnectAttempts (this (snd (onopen body event s))) = 0 ∧
  invocations (page (snd (onopen body event s))) = invocations (page s).
Proof.
  intros Hind. unfold onclose, onopen, log, updateConnectionStatus. js_unfold. simpl.
  rewrite Hind. simpl. repeat split; eauto.
Qed.

End Frames.

Lemma onerror_only_reports_witness :
  let s := state_after [Call_on "error" 4%nat; SocketOpen 0 VUndef] example_boot in
  is_Some (indicator (page s)) ∧
  (∀ h, registry_calls (quiet h VUndef) = []) ∧
  isConnected (this (snd (onerror quiet VUndef s))) = true ∧
  indicator (page (snd (onerror quiet VUndef s))) = Some ShowsError ∧
  timers (page (snd (onerror quiet VUndef s))) = [] ∧
  invocations (page (snd (onerror quiet VUndef s))) = [(4%nat, VUndef)].
Proof.
  cbv zeta.
  set (s := state_after [Call_on "error" 4%nat; SocketOpen 0 VUndef] example_boot).
  assert (is_Some (indicator (page s))) as Hind by (eexists; vm_compute; reflexivity).
  assert (∀ h, registry_calls (quiet h VUndef) = []) as Hq by reflexivity.
  destruct (onerror_only_reports quiet VUndef s Hind Hq)
    as (_ & H2 & H3 & _ & _ & H6 & H7).
  split; [exact Hind|]. split; [exact Hq|].
  split; [rewrite H3; vm_compute; reflexivity|]. split; [exact H2|].
  split; [rewrite H6; vm_compute; reflexivity|].
  rewrite H7. vm_compute. reflexivity.
Defined.

Lemma handlers_need_status_element_witness :
  let s := boot "http:" "localhost:8000" None true in
  indicator (page s) = None ∧
  isConnected (this (snd (onclose quiet 1006 EmptyString false s))) = false ∧
  timers (page (snd (onclose quiet 1006 EmptyString false s))) = timers (page s).
Proof.
  cbv zeta.
  assert (indicator (page (boot "http:" "localhost:8000" None true)) = None) as Hind
    by (vm_compute; reflexivity).
  destruct (handlers_need_status_element quiet 1006 EmptyString false VUndef _ Hind)
    as (_ & H2 & H3 & _).
  split; [exact Hind|]. split; [exact H2|exact H3].
Defined.

(** ** The manager's picture of the connection *)

Lemma lookup_readyState s' s i sk' :
  readyState <$> sockets (page s') = readyState <$> sockets (page s) →
  sockets (page s') !! i = Some sk' →
  ∃ sk, sockets (page s) !! i = Some sk ∧ readyState sk = readyState sk'.
Proof.
  intros H Hi. apply (f_equal (λ l, l !! i)) in H. rewrite !list_lookup_fmap, Hi in H.
  simpl in H. destruct (sockets (page s) !! i) as [sk|]; [|discriminate].
  injection H as H. eauto.
Qed.

Lemma coherent_fields s' s :
  socket (this s') = socket (this s) →
  isConnected (this s') = isConnected (this s) →
  readyState <$> sockets (page s') = readyState <$> sockets (page s) →
  coherent s → coherent s'.
Proof.
  intros Hs Hc Hr [Ho Hl]. split.
  - intros i sk' Hi Hlive. destruct (lookup_readyState _ _ _ _ Hr Hi) as (sk & Hsk & E).
    rewrite Hs. apply (Ho i sk Hsk). unfold live in *. rewrite E. exact Hlive.
  - rewrite Hc. intros Hcon. destruct (Hl Hcon) as (sk & Hsk & Hst).
    unfold this_socket in *. rewrite Hs. destruct (socket (this s)) as [j|]; [|discriminate].
    destruct (lookup_readyState s s' j sk (eq_sym Hr) Hsk) as (sk' & Hsk' & E).
    exists sk'. rewrite E. done.
Qed.

Lemma coherent_connection s' s : connection s' = connection s → coherent s → coherent s'.
Proof.
  intros Hc. apply connection_fields in Hc as (H1 & H2 & _ & _ & _ & H6 & _).
  apply coherent_fields; [done..|]. by rewrite H6.
Qed.

(** One socket changes state. *)
Lemma coherent_alter s' s i f sk :
  sockets (page s) !! i = Some sk →
  socket (this s') = socket (this s) →
  sockets (page s') = alter f i (sockets (page s)) →
  (live (f sk) = true → live sk = true) →
  (isConnected (this s') = true →
     live sk = true ∧ (readyState (f sk) = OPEN ∨ readyState (f sk) = CLOSING)) →
  coherent s → coherent s'.
Proof.
  intros Hsk Hs Hss Hlive Hcon [Ho _]. split.
  - intros i' sk' Hi Hl. rewrite Hss in Hi. rewrite Hs.
    destruct (decide (i' = i)) as [->|Hne].
    + rewrite list_lookup_alter_eq, Hsk in Hi. simpl in Hi. injection Hi as <-.
      apply (Ho i sk); auto.
    + rewrite list_lookup_alter_ne in Hi by done. apply (Ho i' sk'); auto.
  - intros Hc. destruct (Hcon Hc) as [Hl Hst].
    exists (f sk). split; [|exact Hst].
    unfold this_socket. rewrite Hs, (Ho i sk Hsk Hl), Hss, list_lookup_alter_eq, Hsk.
    reflexivity.
Qed.

Section Session.

Variable body : HandlerId -> JSVal -> Behaviour.

Lemma pending_timer_no_live_socket s k d :
  sequential s → timers (page s) !! k = Some d →
  live_sockets s = 0%nat ∧ delete k (timers (page s)) = [].
Proof.
  unfold sequential. intros Hseq Hk.
  pose proof (lookup_lt_Some _ _ _ Hk) as Hlt. split; [lia|].
  apply length_zero_iff_nil. rewrite length_delete by eauto. lia.
Qed.

Lemma coherent_disconnected s :
  coherent s → live_sockets s = 0%nat → isConnected (this s) = false.
Proof.
  intros [_ Hl] Hz. destruct (isConnected (this s)) eqn:E; [|reflexivity].
  destruct (Hl eq_refl) as (sk & Hsk & Hst). unfold this_socket in Hsk.
  destruct (socket (this s)) as [j|]; [|discriminate].
  pose proof (no_live_socket s j sk Hz Hsk) as Hc. rewrite Hc in Hst.
  destruct Hst; discriminate.
Qed.

Lemma step_coherent e s s' :
  external_connect e = false → sequential s → coherent s →
  step body e s = Some s' → coherent s'.
Proof.
  intros Hext Hseq Hco Hstep.
  destruct e as [i event|i event_data|i error|i code reason wasClean|k ctor
                |ctor|type data| |event h|event h|event data]; simpl in Hstep;
    try discriminate Hext.
  - (* open *)
    destruct (socket_state i s) as [[]|] eqn:Es; try discriminate.
    injection Hstep as <-.
    apply socket_state_Some in Es as (sk & Hsk & Hr).
    match goal with |- context [onopen body ?ev ?s1] =>
      pose proof (onopen_connection body ev s1) as Hc end.
    destruct (indicator (page (update_socket i (with_readyState OPEN) s)));
      apply connection_fields in Hc as (H1 & _ & _ & _ & _ & H6 & _); fields;
      apply (coherent_alter _ s i (with_readyState OPEN) sk); try done;
      intros _; unfold live; rewrite Hr; simpl; auto.
  - (* message *)
    destruct (socket_state i s) as [[]|] eqn:Es; try discriminate.
    injection Hstep as <-.
    apply (coherent_connection _ s); [apply onmessage_connection|done].
  - (* error *)
    destruct (socket_state i s) as [[]|] eqn:Es; try discriminate.
    all: injection Hstep as <-.
    all: pose proof (onerror_connection body error s) as Hc.
    all: destruct (indicator (page s));
      apply connection_fields in Hc as (H1 & H2 & _ & _ & _ & H6 & _); fields;
      apply (coherent_fields _ s); try done; by rewrite H6.
  - (* close *)
    destruct (socket_state i s) as [r|] eqn:Es; [|discriminate].
    apply socket_state_Some in Es as (sk & Hsk & Hr).
    assert (s' = snd (onclose body code reason wasClean
                        (update_socket i (with_readyState CLOSED) s))) as ->.
    { destruct r; try discriminate; injection Hstep as <-; reflexivity. }
    clear Hstep.
    assert (socket (this (snd (onclose body code reason wasClean
                                 (update_socket i (with_readyState CLOSED) s))))
              = socket (this s) ∧
            isConnected (this (snd (onclose body code reason wasClean
                                 (update_socket i (with_readyState CLOSED) s)))) = false ∧
            sockets (page (snd (onclose body code reason wasClean
                                 (update_socket i (with_readyState CLOSED) s))))
              = alter (with_readyState CLOSED) i (sockets (page s))) as (H1 & H2 & H6).
    { match goal with |- context [onclose body _ _ _ ?s1] =>
        pose proof (onclose_connection body code reason wasClean s1) as Hc end.
      destruct (indicator (page (update_socket i (with_readyState CLOSED) s))).
      - cbv zeta in Hc. destruct (negb wasClean && _).
        + rewrite scheduleReconnect_connection in Hc.
          apply connection_fields in Hc as (H1 & H2 & _ & _ & _ & H6 & _). fields. done.
        + destruct (_ <=? _);
            apply connection_fields in Hc as (H1 & H2 & _ & _ & _ & H6 & _); fields; done.
      - apply connection_fields in Hc as (H1 & H2 & _ & _ & _ & H6 & _). fields. done. }
    apply (coherent_alter _ s i (with_readyState CLOSED) sk); try done.
    rewrite H2. discriminate.
  - (* timer *)
    destruct (timers (page s) !! k) as [d|] eqn:Ek; [|discriminate]. injection Hstep as <-.
    destruct (pending_timer_no_live_socket s k d Hseq Ek) as [Hz _].
    pose proof (coherent_disconnected s Hco Hz) as Hdis.
    unfold reconnect_callback. js_unfold. fields. rewrite Hdis. cbn [negb].
    match goal with |- context [connect ctor ?s1] =>
      pose proof (connect_connection ctor s1) as Hc end.
    destruct ctor.
    + cbv zeta in Hc.
      apply connection_fields in Hc as (H1 & H2 & _ & _ & _ & H6 & _). fields. split.
      * intros i sk Hi Hl. rewrite H6 in Hi. rewrite H1.
        destruct (decide (i < length (sockets (page s)))%nat) as [Hlt|Hge].
        -- rewrite lookup_app_l in Hi by done.
           pose proof (no_live_socket s i sk Hz Hi) as Hcl.
           unfold live in Hl. rewrite Hcl in Hl. discriminate.
        -- apply lookup_lt_Some in Hi. rewrite length_app in Hi. simpl in Hi.
           f_equal. lia.
      * rewrite H2, Hdis. discriminate.
    + destruct (indicator (page (on_page (λ b, set_timers (delete k (timers b)) b) s)));
        apply connection_fields in Hc as (H1 & H2 & _ & _ & _ & H6 & _); fields;
        apply (coherent_fields _ s); try done; by rewrite H6.
  - (* send *)
    injection Hstep as <-. destruct (send_page type data s) as (_ & _ & Hs).
    apply (coherent_fields _ s); rewrite ?send_this; done.
  - (* close *)
    injection Hstep as <-. pose proof Hco as [Ho Hl].
    unfold close, socket_close. js_unfold.
    destruct (socket (this s)) as [i|] eqn:Ei; simpl; [|exact Hco].
    unfold this_socket. rewrite Ei.
    destruct (sockets (page s) !! i) as [sk|] eqn:Es; simpl; [|exact Hco].
    destruct (readyState sk) eqn:R; simpl; try exact Hco.
    all: apply (coherent_alter _ s i (with_readyState CLOSING) sk); try done.
    all: unfold live; rewrite R; simpl; auto.
  - injection Hstep as <-. apply (coherent_connection _ s); [apply on_connection|done].
  - injection Hstep as <-. apply (coherent_connection _ s); [apply off_connection|done].
  - injection Hstep as <-. apply (coherent_connection _ s); [apply emit_connection|done].
Qed.

Lemma run_coherent trace s s' :
  forallb (λ e, negb (external_connect e)) trace = true →
  sequential s → coherent s → run body trace s = Some s' → coherent s'.
Proof.
  revert s. induction trace as [|e trace IH]; intros s Hno Hseq Hco Hrun; simpl in *.
  - injection Hrun as <-. exact Hco.
  - apply andb_true_iff in Hno as [He Hno]. apply negb_true_iff in He.
    destruct (step body e s) as [s1|] eqn:E; [|discriminate].
    apply (IH s1 Hno); [| |exact Hrun].
    + exact (step_sequential body e s s1 He Hseq E).
    + exact (step_coherent e s s1 He Hseq Hco E).
Qed.

Lemma boot_coherent protocol host ind ctor : coherent (boot protocol host ind ctor).
Proof.
  unfold boot, constructor.
  match goal with |- context [connect ctor ?s0] =>
    pose proof (connect_connection ctor s0) as Hc;
    set (s' := snd (connect ctor s0)) in * end.
  destruct ctor; [|destruct ind]; simpl in Hc;
    apply connection_fields in Hc as (H1 & H2 & _ & _ & _ & H6 & _); fields.
  - split.
    + intros [|j] sk Hj Hl; rewrite H6 in Hj; [rewrite H1; reflexivity|discriminate].
    + rewrite H2. discriminate.
  - split; [intros j sk Hj; rewrite H6 in Hj; discriminate|rewrite H2; discriminate].
  - split; [intros j sk Hj; rewrite H6 in Hj; discriminate|rewrite H2; discriminate].
Qed.

End Session.

Lemma live_socket_counts s j sk :
  sockets (page s) !! j = Some sk → readyState sk ≠ CLOSED → (1 <= live_sockets s)%nat.
Proof.
  intros Hj Hr. destruct (live_sockets s) eqn:E; [|lia].
  destruct Hr. exact (no_live_socket s j sk E Hj).
Qed.

Lemma onclose_clean code reason s body :
  isConnected (this (snd (onclose body code reason true s))) = false ∧
  timers (page (snd (onclose body code reason true s))) = timers (page s) ∧
  sockets (page (snd (onclose body code reason true s))) = sockets (page s) ∧
  reconnectAttempts (this (snd (onclose body code reason true s)))
    = reconnectAttempts (this s).
Proof.
  pose proof (onclose_connection body code reason true s) as Hc.
  destruct (indicator (page s)).
  - cbv zeta in Hc. cbn [negb andb] in Hc.
    destruct (_ <=? _);
      apply connection_fields in Hc as (_ & H2 & H3 & _ & _ & H6 & H7 & _); fields; done.
  - apply connection_fields in Hc as (_ & H2 & H3 & _ & _ & H6 & H7 & _). fields. done.
Qed.

Section SessionFacts.

Variable body : HandlerId -> JSVal -> Behaviour.

(** X7.  As long as nobody but the manager itself calls [connect], the
    manager's fields tell the truth about the browser: a socket that is not
    closed is [this.socket]; while [isConnected] is set, [this.socket] is
    open or closing and no reconnect timer is pending.  So a reconnect
    timer only ever fires with [isConnected] clear: the check in its
    callback never holds a reconnect back, and when the constructor
    returns, a new socket becomes [this.socket]. *)
Theorem manager_tracks_its_socket protocol host ind ctor trace s :
  run body trace (boot protocol host ind ctor) = Some s →
  forallb (λ e, negb (external_connect e)) trace = true →
  (∀ i sk, sockets (page s) !! i = Some sk → live sk = true → socket (this s) = Some i) ∧
  (isConnected (this s) = true →
     timers (page s) = [] ∧
     ∃ sk, this_socket s = Some sk ∧ (readyState sk = OPEN ∨ readyState sk = CLOSING)) ∧
  (∀ k s', step body (TimerFires k true) s = Some s' →
     isConnected (this s) = false ∧
     socket (this s') = Some (length (sockets (page s))) ∧
     socket_state (length (sockets (page s))) s' = Some CONNECTING).
Proof.
  intros Hrun Hno.
  pose proof (run_sequential body trace _ s Hno (boot_sequential protocol host ind ctor) Hrun)
    as Hseq.
  pose proof (run_coherent body trace _ s Hno (boot_sequential protocol host ind ctor)
                (boot_coherent protocol host ind ctor) Hrun) as Hco.
  pose proof Hco as [Ho Hl].
  split; [exact Ho|]. split.
  - intros Hc. split; [|exact (Hl Hc)].
    destruct (Hl Hc) as (sk & Hsk & Hst). unfold this_socket in Hsk.
    destruct (socket (this s)) as [j|]; [|discriminate].
    assert (1 <= live_sockets s)%nat as Hone.
    { apply (live_socket_counts s j sk Hsk). destruct Hst as [-> | ->]; discriminate. }
    unfold sequential in Hseq. apply length_zero_iff_nil. lia.
  - intros k s' Hstep. simpl in Hstep.
    destruct (timers (page s) !! k) as [d|] eqn:Ek; [|discriminate]. injection Hstep as <-.
    destruct (pending_timer_no_live_socket s k d Hseq Ek) as [Hz _].
    pose proof (coherent_disconnected s Hco Hz) as Hdis.
    split; [exact Hdis|].
    unfold reconnect_callback. js_unfold. fields. rewrite Hdis. cbn [negb].
    match goal with |- context [connect true ?s1] =>
      destruct (connect_opens s1) as (sk & Hs & Hr & Hsock) end.
    fields. split; [exact Hsock|].
    unfold socket_state. rewrite Hs, lookup_app_r by lia.
    rewrite Nat.sub_diag. simpl. by rewrite Hr.
Qed.

(** X8.  A clean close is final.  When a socket closes with [wasClean] set
    (the server said goodbye, or the page called [close()]), the manager
    marks itself disconnected, leaves the attempt counter alone and
    schedules nothing; with nobody else calling [connect], nothing is then
    left for the browser to deliver: the manager stays disconnected until
    a call from outside. *)
Theorem clean_close_is_final protocol host ind ctor trace s i code reason s' :
  run body trace (boot protocol host ind ctor) = Some s →
  forallb (λ e, negb (external_connect e)) trace = true →
  step body (SocketClose i code reason true) s = Some s' →
  isConnected (this s') = false ∧
  reconnectAttempts (this s') = reconnectAttempts (this s) ∧
  timers (page s') = [] ∧
  ∀ e, delivered e = true → step body e s' = None.
Proof.
  intros Hrun Hno Hstep.
  pose proof (run_sequential body trace _ s Hno (boot_sequential protocol host ind ctor) Hrun)
    as Hseq.
  simpl in Hstep.
  destruct (socket_state i s) as [r|] eqn:Es; [|discriminate].
  apply socket_state_Some in Es as (sk & Hsk & Hr).
  assert (ReadyState_eqb r CLOSED = false ∧
          s' = snd (onclose body code reason true
                      (update_socket i (with_readyState CLOSED) s))) as [Hlive ->].
  { destruct r; try discriminate; injection Hstep as <-; done. }
  clear Hstep.
  match goal with |- context [onclose body _ _ _ ?s1] =>
    destruct (onclose_clean code reason s1 body) as (H2 & H7 & H6 & H3) end.
  fields.
  pose proof (live_sockets_update i (with_readyState CLOSED) s sk Hsk) as Hl.
  unfold live in Hl at 1 2. simpl in Hl. rewrite Hr, Hlive in Hl. simpl in Hl.
  unfold sequential in Hseq.
  assert (timers (page s) = []) as Hnil by (apply length_zero_iff_nil; lia).
  split; [exact H2|]. split; [exact H3|]. split; [by rewrite H7|].
  intros e He. apply quiescent; [| |exact He].
  - unfold live_sockets in *. rewrite H6. fields. lia.
  - by rewrite H7.
Qed.

(** X9.  When the WebSocket constructor throws inside a reconnect timer, the
    manager logs the error and turns the indicator to error, and that is
    all: no socket, no further timer, the attempt counter where it was
    (possibly below the ceiling).  With nobody else calling [connect],
    nothing is left for the browser to deliver: reconnection has stopped
    although attempts remain. *)
Theorem failed_constructor_ends_reconnection protocol host ind ctor trace s k s' :
  run body trace (boot protocol host ind ctor) = Some s →
  forallb (λ e, negb (external_connect e)) trace = true →
  step body (TimerFires k false) s = Some s' →
  sockets (page s') = sockets (page s) ∧
  socket (this s') = socket (this s) ∧
  reconnectAttempts (this s') = reconnectAttempts (this s) ∧
  isConnected (this s') = false ∧
  console (page s') =
    console (page s) ++ [LogConnecting
                           ((if String.eqb (location_protocol (page s)) "https:"
                             then "wss:" else "ws:")
                              +:+ "//" +:+ location_host (page s) +:+ "/ws");
                         ErrCreate ConstructionError] ∧
  (is_Some (indicator (page s)) → indicator (page s') = Some ShowsError) ∧
  ∀ e, delivered e = true → step body e s' = None.
Proof.
  intros Hrun Hno Hstep.
  pose proof (run_sequential body trace _ s Hno (boot_sequential protocol host ind ctor) Hrun)
    as Hseq.
  pose proof (run_coherent body trace _ s Hno (boot_sequential protocol host ind ctor)
                (boot_coherent protocol host ind ctor) Hrun) as Hco.
  simpl in Hstep.
  destruct (timers (page s) !! k) as [d|] eqn:Ek; [|discriminate]. injection Hstep as <-.
  destruct (pending_timer_no_live_socket s k d Hseq Ek) as [Hz Hdel].
  pose proof (coherent_disconnected s Hco Hz) as Hdis.
  unfold reconnect_callback. js_unfold. fields. rewrite Hdis. cbn [negb].
  assert (∀ e, delivered e = true →
            live_sockets (snd (connect false
                (on_page (λ b, set_timers (delete k (timers b)) b) s))) = 0%nat →
            timers (page (snd (connect false
                (on_page (λ b, set_timers (delete k (timers b)) b) s)))) = [] →
            step body e (snd (connect false
                (on_page (λ b, set_timers (delete k (timers b)) b) s))) = None) as Hq.
  { intros e He Hl Ht. apply quiescent; assumption. }
  revert Hq.
  unfold connect, new_WebSocket, log, updateConnectionStatus, live_sockets. js_unfold.
  simpl. intros Hq.
  destruct (indicator (page s)) as [x|] eqn:Ei; simpl in *.
  - repeat split; try done.
    + by rewrite <- app_assoc.
    + intros e He. apply Hq; [exact He|exact Hz|exact Hdel].
  - repeat split; try done.
    + by rewrite <- app_assoc.
    + intros e He. apply Hq; [exact He|exact Hz|exact Hdel].
Qed.

(** X10.  Opening resets the backoff.  Whatever the attempt counter was, once a
    socket has opened the counter is 0 and the indicator shows connected,
    and an abnormal close of that socket starts over: attempt 1 after
    2000 ms. *)
Theorem open_resets_backoff protocol host ind ctor trace s i event code reason s1 :
  run body trace (boot protocol host ind ctor) = Some s →
  is_Some (indicator (page s)) →
  step body (SocketOpen i event) s = Some s1 →
  isConnected (this s1) = true ∧
  reconnectAttempts (this s1) = 0 ∧
  indicator (page s1) = Some ShowsConnected ∧
  timers (page s1) = timers (page s) ∧
  ∃ s2, step body (SocketClose i code reason false) s1 = Some s2 ∧
        reconnectAttempts (this s2) = 1 ∧
        isConnected (this s2) = false ∧
        timers (page s2) = timers (page s) ++ [2000].
Proof.
  intros Hrun [x Hind] Hstep.
  pose proof (run_well_formed body trace _ s (boot_well_formed protocol host ind ctor) Hrun)
    as Hwf.
  pose proof (step_well_formed body _ _ _ Hwf Hstep) as (Hmax1 & Hint1 & _).
  simpl in Hstep.
  destruct (socket_state i s) as [[]|] eqn:Es; try discriminate.
  injection Hstep as <-.
  apply socket_state_Some in Es as (sk & Hsk & Hr).
  match goal with |- context [onopen body ?ev ?s0] =>
    pose proof (onopen_connection body ev s0) as Hc; set (s1 := snd (onopen body ev s0)) in * end.
  fields. rewrite Hind in Hc.
  apply connection_fields in Hc as (_ & H2 & H3 & _ & _ & H6 & H7 & H8). fields.
  split; [exact H2|]. split; [exact H3|]. split; [exact H8|]. split; [exact H7|].
  assert (socket_state i s1 = Some OPEN) as Es1.
  { unfold socket_state. rewrite H6, list_lookup_alter_eq, Hsk. reflexivity. }
  eexists. split; [simpl; rewrite Es1; reflexivity|].
  match goal with |- context [onclose body _ _ _ ?s0] =>
    destruct (onclose_schedules body code reason s0) as (T & A & _);
      [fields; rewrite H8; eauto | fields; lia |];
    pose proof (onclose_connection body code reason false s0) as Hc end.
  fields. rewrite H8 in Hc. cbv zeta in Hc.
  rewrite H3, Hmax1 in Hc. change (negb false && (0 <? 5)) with true in Hc. cbv iota in Hc.
  rewrite scheduleReconnect_connection in Hc.
  apply connection_fields in Hc as (_ & C2 & _). fields.
  rewrite H3 in A. rewrite H3, Hint1, H7 in T. split; [exact A|]. split; [exact C2|exact T].
Qed.

End SessionFacts.

Lemma manager_tracks_its_socket_witness :
  let trace := failure 0 true ++ [SocketOpen 1 VUndef; Call_send (VStr "ping") VNull] in
  let s := state_after trace example_boot in
  run quiet trace example_boot = Some s ∧
  forallb (λ e, negb (external_connect e)) trace = true ∧
  isConnected (this s) = true ∧
  timers (page s) = [] ∧
  ∃ sk, this_socket s = Some sk ∧ (readyState sk = OPEN ∨ readyState sk = CLOSING).
Proof.
  cbv zeta.
  set (trace := failure 0 true ++ [SocketOpen 1 VUndef; Call_send (VStr "ping") VNull]).
  assert (run quiet trace example_boot = Some (state_after trace example_boot)) as Hrun
    by (vm_compute; reflexivity).
  assert (forallb (λ e, negb (external_connect e)) trace = true) as Hno
    by (vm_compute; reflexivity).
  assert (isConnected (this (state_after trace example_boot)) = true) as Hc
    by (vm_compute; reflexivity).
  destruct (manager_tracks_its_socket quiet _ _ _ _ _ _ Hrun Hno) as (_ & H & _).
  destruct (H Hc) as [H1 H2].
  split; [exact Hrun|]. split; [exact Hno|]. split; [exact Hc|]. split; [exact H1|exact H2].
Defined.

Lemma clean_close_is_final_witness :
  let trace := [SocketOpen 0 VUndef; Call_close] in
  let s := state_after trace example_boot in
  let s' := state_after [SocketClose 0 1000 EmptyString true] s in
  run quiet trace example_boot = Some s ∧
  forallb (λ e, negb (external_connect e)) trace = true ∧
  step quiet (SocketClose 0 1000 EmptyString true) s = Some s' ∧
  isConnected (this s') = false ∧
  timers (page s') = [] ∧
  ∀ e, delivered e = true → step quiet e s' = None.
Proof.
  cbv zeta.
  set (trace := [SocketOpen 0 VUndef; Call_close]).
  assert (run quiet trace example_boot = Some (state_after trace example_boot)) as Hrun
    by (vm_compute; reflexivity).
  assert (forallb (λ e, negb (external_connect e)) trace = true) as Hno
    by (vm_compute; reflexivity).
  assert (step quiet (SocketClose 0 1000 EmptyString true) (state_after trace example_boot)
          = Some (state_after [SocketClose 0 1000 EmptyString true]
                    (state_after trace example_boot))) as Hstep
    by (vm_compute; reflexivity).
  destruct (clean_close_is_final quiet _ _ _ _ _ _ _ _ _ _ Hrun Hno Hstep)
    as (H1 & _ & H3 & H4).
  split; [exact Hrun|]. split; [exact Hno|]. split; [exact Hstep|].
  split; [exact H1|]. split; [exact H3|exact H4].
Defined.

Lemma failed_constructor_ends_reconnection_witness :
  let trace := failure 0 false in
  let s := state_after trace example_boot in
  let s' := state_after [TimerFires 0 false] s in
  run quiet trace example_boot = Some s ∧
  forallb (λ e, negb (external_connect e)) trace = true ∧
  step quiet (TimerFires 0 false) s = Some s' ∧
  reconnectAttempts (this s') = 1 ∧
  indicator (page s') = Some ShowsError ∧
  ∀ e, delivered e = true → step quiet e s' = None.
Proof.
  cbv zeta.
  set (trace := failure 0 false).
  assert (run quiet trace example_boot = Some (state_after trace example_boot)) as Hrun
    by (vm_compute; reflexivity).
  assert (forallb (λ e, negb (external_connect e)) trace = true) as Hno
    by (vm_compute; reflexivity).
  assert (step quiet (TimerFires 0 false) (state_after trace example_boot)
          = Some (state_after [TimerFires 0 false] (state_after trace example_boot)))
    as Hstep by (vm_compute; reflexivity).
  assert (is_Some (indicator (page (state_after trace example_boot)))) as Hind
    by (eexists; vm_compute; reflexivity).
  assert (reconnectAttempts (this (state_after trace example_boot)) = 1) as Hone
    by (vm_compute; reflexivity).
  destruct (failed_constructor_ends_reconnection quiet _ _ _ _ _ _ _ _ Hrun Hno Hstep)
    as (_ & _ & H3 & _ & _ & H6 & H7).
  split; [exact Hrun|]. split; [exact Hno|]. split; [exact Hstep|].
  split; [rewrite H3; exact Hone|]. split; [exact (H6 Hind)|exact H7].
Defined.

Lemma open_resets_backoff_witness :
  let trace := failure 0 true ++ failure 1 true in
  let s := state_after trace example_boot in
  let s1 := state_after [SocketOpen 2 VUndef] s in
  run quiet trace example_boot = Some s ∧
  is_Some (indicator (page s)) ∧
  step quiet (SocketOpen 2 VUndef) s = Some s1 ∧
  reconnectAttempts (this s) = 2 ∧
  reconnectAttempts (this s1) = 0 ∧
  ∃ s2, step quiet (SocketClose 2 1006 EmptyString false) s1 = Some s2 ∧
        reconnectAttempts (this s2) = 1 ∧
        isConnected (this s2) = false ∧
        timers (page s2) = timers (page s) ++ [2000].
Proof.
  cbv zeta.
  set (trace := failure 0 true ++ failure 1 true).
  assert (run quiet trace example_boot = Some (state_after trace example_boot)) as Hrun
    by (vm_compute; reflexivity).
  assert (is_Some (indicator (page (state_after trace example_boot)))) as Hind
    by (eexists; vm_compute; reflexivity).
  assert (step quiet (SocketOpen 2 VUndef) (state_after trace example_boot)
          = Some (state_after [SocketOpen 2 VUndef] (state_after trace example_boot)))
    as Hstep by (vm_compute; reflexivity).
  assert (reconnectAttempts (this (state_after trace example_boot)) = 2) as Htwo
    by (vm_compute; reflexivity).
  destruct (open_resets_backoff quiet _ _ _ _ _ _ _ _ 1006 EmptyString _ Hrun Hind Hstep)
    as (_ & H2 & _ & _ & H5).
  split; [exact Hrun|]. split; [exact Hind|]. split; [exact Hstep|].
  split; [exact Htwo|]. split; [exact H2|exact H5].
Defined.

(** ** Where the sockets go *)

Lemma connection_address s' s : connection s' = connection s → address s' = address s.
Proof. unfold connection, address. intros [= _ _ _ _ _ -> _ _ _ -> ->]. done. Qed.

Lemma send_address type data s : address (snd (send type data s)) = address s.
Proof.
  unfold address, send, socket_readyState, socket_send, log. js_unfold.
  destruct (isConnected (this s)); simpl; [|done].
  destruct (this_socket s) as [sk|] eqn:E; simpl; [|done].
  destruct (readyState sk) eqn:R; simpl; try done.
  destruct (JSON_stringify _); simpl; [|done].
  destruct (socket (this s)) as [i|]; simpl; [|done].
  rewrite E, R. simpl. f_equal.
  apply (fmap_alter_unchanged url). reflexivity.
Qed.

Lemma close_address s : address (snd (close s)) = address s.
Proof.
  unfold address, close, socket_close. js_unfold.
  destruct (socket (this s)) as [i|] eqn:Ei; simpl; [|done].
  unfold this_socket. rewrite Ei.
  destruct (sockets (page s) !! i) as [sk|] eqn:Es; simpl; [|done].
  destruct (readyState sk) eqn:R; simpl; try done.
  all: f_equal; apply (fmap_alter_unchanged url); reflexivity.
Qed.

Section Address.

Variable body : HandlerId -> JSVal -> Behaviour.

Lemma connect_address ctor s :
  address (snd (connect ctor s)) =
  if ctor then
    (location_protocol (page s), location_host (page s),
     (url <$> sockets (page s))
       ++ [ws_address (location_protocol (page s)) (location_host (page s))])
  else address s.
Proof.
  pose proof (connect_connection ctor s) as Hc.
  destruct ctor; [|destruct (indicator (page s))];
    apply connection_address in Hc; rewrite Hc; unfold address; fields; try done.
  by rewrite fmap_app.
Qed.

Lemma step_address e s s' :
  step body e s = Some s' →
  address s' = address s ∨
  address s' =
    (location_protocol (page s), location_host (page s),
     (url <$> sockets (page s))
       ++ [ws_address (location_protocol (page s)) (location_host (page s))]).
Proof.
  intros Hstep.
  destruct e as [i event|i event_data|i error|i code reason wasClean|k ctor
                |ctor|type data| |event h|event h|event data]; simpl in Hstep.
  - destruct (socket_state i s) as [[]|] eqn:Es; try discriminate.
    injection Hstep as <-. left.
    match goal with |- context [onopen body ?ev ?s1] =>
      pose proof (onopen_connection body ev s1) as Hc end.
    destruct (indicator (page (update_socket i (with_readyState OPEN) s)));
      apply connection_address in Hc; rewrite Hc; unfold address; fields; f_equal;
      apply (fmap_alter_unchanged url); reflexivity.
  - destruct (socket_state i s) as [[]|] eqn:Es; try discriminate.
    injection Hstep as <-. left. apply connection_address, onmessage_connection.
  - destruct (socket_state i s) as [[]|] eqn:Es; try discriminate.
    all: injection Hstep as <-; left.
    all: pose proof (onerror_connection body error s) as Hc.
    all: destruct (indicator (page s)); apply connection_address in Hc; rewrite Hc; done.
  - destruct (socket_state i s) as [r|] eqn:Es; [|discriminate].
    assert (s' = snd (onclose body code reason wasClean
                        (update_socket i (with_readyState CLOSED) s))) as ->.
    { destruct r; try discriminate; injection Hstep as <-; reflexivity. }
    left.
    match goal with |- context [onclose body _ _ _ ?s1] =>
      pose proof (onclose_connection body code reason wasClean s1) as Hc end.
    destruct (indicator (page (update_socket i (with_readyState CLOSED) s))).
    + cbv zeta in Hc. destruct (negb wasClean && _).
      * rewrite scheduleReconnect_connection in Hc.
        apply connection_address in Hc; rewrite Hc; unfold address; fields; f_equal.
        apply (fmap_alter_unchanged url); reflexivity.
      * destruct (_ <=? _);
          apply connection_address in Hc; rewrite Hc; unfold address; fields; f_equal;
          apply (fmap_alter_unchanged url); reflexivity.
    + apply connection_address in Hc; rewrite Hc; unfold address; fields; f_equal.
      apply (fmap_alter_unchanged url); reflexivity.
  - destruct (timers (page s) !! k); [|discriminate]. injection Hstep as <-.
    unfold reconnect_callback. js_unfold. fields.
    destruct (isConnected (this s)); cbn [negb]; [left; reflexivity|].
    rewrite connect_address. destruct ctor; [right|left]; reflexivity.
  - injection Hstep as <-. rewrite connect_address.
    destruct ctor; [right|left]; reflexivity.
  - injection Hstep as <-. left. apply send_address.
  - injection Hstep as <-. left. apply close_address.
  - injection Hstep as <-. left. apply connection_address, on_connection.
  - injection Hstep as <-. left. apply connection_address, off_connection.
  - injection Hstep as <-. left. apply connection_address, emit_connection.
Qed.

(** X11.  Every socket the manager ever constructs, in its constructor, in a
    reconnect timer or on a call of [connect] from outside, goes to [/ws]
    on the host the page was loaded from, over [wss:] when the page came
    over [https:] and over [ws:] otherwise; sending and closing never
    change where a socket points. *)
Theorem sockets_go_to_page_host protocol host ind ctor trace s :
  run body trace (boot protocol host ind ctor) = Some s →
  location_protocol (page s) = protocol ∧
  location_host (page s) = host ∧
  ∀ i sk, sockets (page s) !! i = Some sk →
          url sk = (if String.eqb protocol "https:" then "wss:" else "ws:")
                     +:+ "//" +:+ host +:+ "/ws".
Proof.
  intros Hrun.
  assert (∃ n, address s = (protocol, host, replicate n (ws_address protocol host)))
    as [n Hn].
  { assert (∃ n, address (boot protocol host ind ctor)
                 = (protocol, host, replicate n (ws_address protocol host))) as H0.
    { unfold boot, constructor. rewrite connect_address.
      destruct ctor; [exists 1%nat|exists 0%nat]; reflexivity. }
    revert H0 Hrun. generalize (boot protocol host ind ctor). clear.
    induction trace as [|e trace IH]; intros s0 [n Hn] Hrun; simpl in Hrun.
    - injection Hrun as <-. eauto.
    - destruct (step body e s0) as [s1|] eqn:E; [|discriminate].
      apply (IH s1); [|exact Hrun].
      destruct (step_address e s0 s1 E) as [H|H]; rewrite H.
      + eauto.
      + unfold address in Hn. injection Hn as -> -> ->.
        exists (S n). f_equal. symmetry. apply replicate_cons_app. }
  unfold address in Hn. injection Hn as Hp Hh Hu.
  split; [exact Hp|]. split; [exact Hh|].
  intros i sk Hi.
  assert ((url <$> sockets (page s)) !! i = Some (url sk)) as Hl
    by (rewrite list_lookup_fmap, Hi; reflexivity).
  rewrite Hu in Hl. apply lookup_replicate in Hl as [Hl _]. exact Hl.
Qed.

End Address.

Lemma sockets_go_to_page_host_witness :
  let trace := failure 0 true ++ [SocketOpen 1 VUndef; Call_connect true] in
  let s := state_after trace example_boot in
  run quiet trace example_boot = Some s ∧
  length (sockets (page s)) = 3%nat ∧
  ∀ i sk, sockets (page s) !! i = Some sk → url sk = "wss://example.org/ws".
Proof.
  cbv zeta.
  set (trace := failure 0 true ++ [SocketOpen 1 VUndef; Call_connect true]).
  assert (run quiet trace example_boot = Some (state_after trace example_boot)) as Hrun
    by (vm_compute; reflexivity).
  assert (length (sockets (page (state_after trace example_boot))) = 3%nat) as Hlen
    by (vm_compute; reflexivity).
  destruct (sockets_go_to_page_host quiet _ _ _ _ _ _ Hrun) as (_ & _ & H).
  split; [exact Hrun|]. split; [exact Hlen|]. exact H.
Defined.

(** ** Closing from the page *)

Lemma close_normal s : well_formed s → fst (close s) = Normal tt.
Proof.
  intros (_ & _ & _ & Hsock). unfold close, socket_close. js_unfold.
  destruct (socket (this s)) as [j|] eqn:Ej; simpl; [|reflexivity].
  unfold this_socket. rewrite Ej.
  destruct (lookup_lt_is_Some_2 (sockets (page s)) j Hsock) as [sk Hsk]. rewrite Hsk.
  destruct (readyState sk); reflexivity.
Qed.

Lemma close_not_open s : well_formed s → is_open (snd (close s)) = false.
Proof.
  intros (_ & _ & _ & Hsock). unfold is_open, close, socket_close. js_unfold.
  destruct (socket (this s)) as [j|] eqn:Ej; simpl.
  - unfold this_socket. rewrite Ej.
    destruct (lookup_lt_is_Some_2 (sockets (page s)) j Hsock) as [sk Hsk]. rewrite Hsk.
    destruct (readyState sk) eqn:R; simpl; rewrite ?Ej; simpl;
      rewrite ?list_lookup_alter_eq, ?Hsk; simpl; rewrite ?R;
      apply andb_false_r.
  - unfold this_socket. rewrite Ej. apply andb_false_r.
Qed.

Lemma send_not_open type data s :
  well_formed s → is_open s = false →
  fst (send type data s) = Normal false ∧
  sockets (page (snd (send type data s))) = sockets (page s) ∧
  console (page (snd (send type data s))) = console (page s) ++ [WarnNotSent type data].
Proof.
  intros (_ & _ & _ & Hsock).
  unfold is_open, send, socket_readyState, log, this_socket. js_unfold.
  destruct (socket (this s)) as [j|] eqn:Ej.
  - destruct (lookup_lt_is_Some_2 (sockets (page s)) j Hsock) as [sk Hsk].
    destruct (isConnected (this s)); simpl; [|done].
    unfold this_socket. rewrite Ej, Hsk. destruct (readyState sk); simpl; done.
  - destruct Hsock as [_ ->]. done.
Qed.

Lemma close_twice s : snd (close (snd (close s))) = snd (close s).
Proof.
  unfold close, socket_close. js_unfold.
  destruct (socket (this s)) as [j|] eqn:Ej; simpl; rewrite ?Ej; [|reflexivity].
  unfold this_socket. rewrite Ej.
  destruct (sockets (page s) !! j) as [sk|] eqn:Hsk; simpl; rewrite ?Ej; simpl;
    rewrite ?Hsk; [|reflexivity].
  destruct (readyState sk) eqn:R; simpl;
    repeat (rewrite ?Ej, ?list_lookup_alter_eq, ?Hsk, ?R; simpl); reflexivity.
Qed.

Section Closing.

Variable body : HandlerId -> JSVal -> Behaviour.

(** X12.  [close()] only asks the browser to close [this.socket].  In every
    state the manager can reach it returns normally and leaves every field
    of the manager as it was, [isConnected] included, and the pending
    reconnect timers in place; a second call changes nothing more.  A
    [send] after it returns false, queues nothing and leaves a warning on
    the console. *)
Theorem close_only_closes_the_socket protocol host ind ctor trace s type data :
  run body trace (boot protocol host ind ctor) = Some s →
  fst (close s) = Normal tt ∧
  this (snd (close s)) = this s ∧
  timers (page (snd (close s))) = timers (page s) ∧
  is_open (snd (close s)) = false ∧
  snd (close (snd (close s))) = snd (close s) ∧
  fst (send type data (snd (close s))) = Normal false ∧
  sockets (page (snd (send type data (snd (close s))))) = sockets (page (snd (close s))) ∧
  console (page (snd (send type data (snd (close s)))))
    = console (page s) ++ [WarnNotSent type data].
Proof.
  intros Hrun.
  pose proof (run_well_formed body trace _ s (boot_well_formed protocol host ind ctor) Hrun)
    as Hwf.
  assert (well_formed (snd (close s))) as Hwf'
    by (apply (step_well_formed body Call_close s); [exact Hwf|reflexivity]).
  destruct (close_fields s) as (Ht & Htm & _ & _).
  destruct (send_not_open type data (snd (close s)) Hwf' (close_not_open s Hwf))
    as (S1 & S2 & S3).
  split; [exact (close_normal s Hwf)|]. split; [exact Ht|]. split; [exact Htm|].
  split; [exact (close_not_open s Hwf)|]. split; [apply close_twice|].
  split; [exact S1|]. split; [exact S2|]. rewrite S3. f_equal.
  unfold close, socket_close. js_unfold.
  destruct (socket (this s)) as [j|] eqn:Ej; simpl; [|reflexivity].
  unfold this_socket. rewrite Ej.
  destruct (sockets (page s) !! j) as [sk|]; simpl; [|reflexivity].
  destruct (readyState sk); reflexivity.
Qed.

End Closing.

Lemma close_only_closes_the_socket_witness :
  let trace := [SocketOpen 0 VUndef] in
  let s := state_after trace example_boot in
  run quiet trace example_boot = Some s ∧
  is_open s = true ∧
  isConnected (this (snd (close s))) = true ∧
  is_open (snd (close s)) = false ∧
  fst (send (VStr "analyze_text") (VStr "good") (snd (close s))) = Normal false.
Proof.
  cbv zeta.
  set (trace := [SocketOpen 0 VUndef]).
  assert (run quiet trace example_boot = Some (state_after trace example_boot)) as Hrun
    by (vm_compute; reflexivity).
  assert (is_open (state_after trace example_boot) = true) as Hopen
    by (vm_compute; reflexivity).
  assert (isConnected (this (state_after trace example_boot)) = true) as Hc
    by (vm_compute; reflexivity).
  destruct (close_only_closes_the_socket quiet _ _ _ _ _ _
              (VStr "analyze_text") (VStr "good") Hrun) as (_ & H2 & _ & H4 & _ & H6 & _).
  split; [exact Hrun|]. split; [exact Hopen|]. split; [rewrite H2; exact Hc|].
  split; [exact H4|exact H6].
Defined.

Section Pending.

Variable body : HandlerId -> JSVal -> Behaviour.

Lemma timer_reconnects k s s' :
  sequential s → coherent s →
  step body (TimerFires k true) s = Some s' →
  socket (this s') = Some (length (sockets (page s))) ∧
  socket_state (length (sockets (page s))) s' = Some CONNECTING.
Proof.
  intros Hseq Hco Hstep. simpl in Hstep.
  destruct (timers (page s) !! k) as [d|] eqn:Ek; [|discriminate]. injection Hstep as <-.
  destruct (pending_timer_no_live_socket s k d Hseq Ek) as [Hz _].
  pose proof (coherent_disconnected s Hco Hz) as Hdis.
  unfold reconnect_callback. js_unfold. fields. rewrite Hdis. cbn [negb].
  match goal with |- context [connect true ?s1] =>
    destruct (connect_opens s1) as (sk & Hs & Hr & Hsock) end.
  fields. split; [exact Hsock|].
  unfold socket_state. rewrite Hs, lookup_app_r by lia.
  rewrite Nat.sub_diag. simpl. by rewrite Hr.
Qed.

(** X13.  [close()] does not call off a reconnect that is already scheduled.
    With a reconnect timer pending, a call of [close()] leaves the timer
    where it is, and when the timer fires the manager connects again: a
    new socket, in state CONNECTING, becomes [this.socket]. *)
Theorem close_does_not_cancel_reconnect protocol host ind ctor trace s k :
  run body trace (boot protocol host ind ctor) = Some s →
  forallb (λ e, negb (external_connect e)) trace = true →
  is_Some (timers (page s) !! k) →
  ∃ s', run body [Call_close; TimerFires k true] s = Some s' ∧
        socket (this s') = Some (length (sockets (page s))) ∧
        socket_state (length (sockets (page s))) s' = Some CONNECTING ∧
        live_sockets s' = 1%nat.
Proof.
  intros Hrun Hno [d Hk].
  pose proof (run_sequential body trace _ s Hno (boot_sequential protocol host ind ctor) Hrun)
    as Hseq.
  pose proof (run_coherent body trace _ s Hno (boot_sequential protocol host ind ctor)
                (boot_coherent protocol host ind ctor) Hrun) as Hco.
  assert (step body Call_close s = Some (snd (close s))) as Hclose by reflexivity.
  pose proof (step_sequential body Call_close _ _ eq_refl Hseq Hclose) as Hseq1.
  pose proof (step_coherent body Call_close _ _ eq_refl Hseq Hco Hclose) as Hco1.
  destruct (close_fields s) as (_ & Htm & _ & Hlive).
  assert (length (sockets (page (snd (close s)))) = length (sockets (page s))) as Hlen.
  { apply (f_equal length) in Hlive. by rewrite !length_fmap in Hlive. }
  assert (timers (page (snd (close s))) !! k = Some d) as Hk1 by (by rewrite Htm).
  destruct (step body (TimerFires k true) (snd (close s))) as [s'|] eqn:Et;
    [|simpl in Et; rewrite Hk1 in Et; discriminate].
  exists s'. split; [cbn [run]; rewrite Hclose, Et; reflexivity|].
  destruct (timer_reconnects k _ s' Hseq1 Hco1 Et) as [H1 H2]. rewrite Hlen in H1, H2.
  split; [exact H1|]. split; [exact H2|].
  pose proof (step_sequential body (TimerFires k true) _ _ eq_refl Hseq1 Et) as Hseq2.
  unfold sequential in Hseq2.
  apply socket_state_Some in H2 as (sk & Hsk & Hr).
  assert (1 <= live_sockets s')%nat
    by (apply (live_socket_counts s' _ sk Hsk); rewrite Hr; discriminate).
  lia.
Qed.

End Pending.

Lemma close_does_not_cancel_reconnect_witness :
  let trace := failure 0 false in
  let s := state_after trace example_boot in
  run quiet trace example_boot = Some s ∧
  forallb (λ e, negb (external_connect e)) trace = true ∧
  timers (page s) = [2000] ∧
  ∃ s', run quiet [Call_close; TimerFires 0 true] s = Some s' ∧
        socket (this s') = Some 1%nat ∧
        socket_state 1 s' = Some CONNECTING ∧
        live_sockets s' = 1%nat.
Proof.
  cbv zeta.
  set (trace := failure 0 false).
  assert (run quiet trace example_boot = Some (state_after trace example_boot)) as Hrun
    by (vm_compute; reflexivity).
  assert (forallb (λ e, negb (external_connect e)) trace = true) as Hno
    by (vm_compute; reflexivity).
  assert (timers (page (state_after trace example_boot)) = [2000]) as Ht
    by (vm_compute; reflexivity).
  assert (is_Some (timers (page (state_after trace example_boot)) !! 0%nat)) as Hk
    by (rewrite Ht; eexists; reflexivity).
  assert (length (sockets (page (state_after trace example_boot))) = 1%nat) as Hlen
    by (vm_compute; reflexivity).
  destruct (close_does_not_cancel_reconnect quiet _ _ _ _ _ _ _ Hrun Hno Hk)
    as (s' & H1 & H2 & H3 & H4).
  rewrite Hlen in H2, H3.
  split; [exact Hrun|]. split; [exact Hno|]. split; [exact Ht|].
  exists s'. split; [exact H1|]. split; [exact H2|]. split; [exact H3|exact H4].
Defined.

(** ** What counts as empty text *)

Section Blank.

Import SentimentApp.

Lemma trim_start_nil l : trim_start l = [] ↔ forallb is_space l = true.
Proof.
  induction l as [|c l IH]; simpl; [done|].
  destruct (is_space c); simpl; [exact IH|]. split; discriminate.
Qed.

Lemma trim_start_head l c rest : trim_start l = c :: rest → is_space c = false.
Proof.
  induction l as [|x l IH]; simpl; [discriminate|].
  destruct (is_space x) eqn:E; [exact IH|]. intros [= -> _]. exact E.
Qed.

Lemma trim_start_idempotent l : trim_start (trim_start l) = trim_start l.
Proof.
  destruct (trim_start l) as [|c rest] eqn:E; [reflexivity|].
  simpl. by rewrite (trim_start_head l c rest E).
Qed.

Lemma length_string_of_list l :
  String.length (String.string_of_list_ascii l) = length l.
Proof. induction l as [|c l IH]; simpl; [reflexivity|]. by rewrite IH. Qed.

Lemma forallb_rev {A} (f : A → bool) l : forallb f (rev l) = forallb f l.
Proof.
  induction l as [|x l IH]; simpl; [reflexivity|].
  rewrite forallb_app, IH. simpl. rewrite andb_true_r. apply andb_comm.
Qed.

(** The code units below 256 that [trim] strips, and some of the others:
    the next line character, the Mongolian vowel separator and the
    zero-width space are not among them. *)
Lemma is_space_chars c :
  is_space c = true ↔ Ascii.nat_of_ascii c ∈ [9; 10; 11; 12; 13; 32; 160]%nat.
Proof.
  assert (is_space c
          = existsb (Nat.eqb (Ascii.nat_of_ascii c)) [9; 10; 11; 12; 13; 32; 160]%nat) as ->.
  { destruct c as [[] [] [] [] [] [] [] []]; vm_compute; reflexivity. }
  rewrite existsb_exists. split.
  - intros (n & Hin & Heq). apply Nat.eqb_eq in Heq. subst n. by apply list_elem_of_In.
  - intros Hin. exists (Ascii.nat_of_ascii c). split; [by apply list_elem_of_In|].
    apply Nat.eqb_refl.
Qed.

Lemma is_whitespace_examples :
  forallb is_whitespace
    [0x9; 0xA; 0xB; 0xC; 0xD; 0x20; 0xA0; 0x1680; 0x2000; 0x2005; 0x200A; 0x2028; 0x2029;
     0x202F; 0x205F; 0x3000; 0xFEFF]%N = true ∧
  forallb (λ u, negb (is_whitespace u))
    [0x8; 0xE; 0x1F; 0x21; 0x85; 0x9F; 0xA1; 0x180E; 0x1FFF; 0x200B; 0x2060; 0x3001;
     0xFEFE; 0xFFFE]%N = true.
Proof. split; vm_compute; reflexivity. Qed.

Lemma is_empty_whitespace text :
  is_empty text = forallb is_space (String.list_ascii_of_string text).
Proof.
  unfold is_empty, trim. rewrite length_string_of_list.
  set (l := String.list_ascii_of_string text).
  assert (String.eqb text EmptyString = true → forallb is_space l = true) as H0.
  { intros H. apply String.eqb_eq in H. subst text l. reflexivity. }
  destruct (forallb is_space l) eqn:E.
  - apply trim_start_nil in E. rewrite E. simpl. apply orb_true_r.
  - destruct (String.eqb text EmptyString); [by specialize (H0 eq_refl)|]. simpl.
    apply Nat.eqb_neq. intros Hlen. apply length_zero_iff_nil in Hlen.
    assert (rev (rev (trim_start (rev (trim_start l)))) = []) as H by (by rewrite Hlen).
    rewrite rev_involutive in H. apply trim_start_nil in H. rewrite forallb_rev in H.
    apply trim_start_nil in H. rewrite trim_start_idempotent in H.
    apply trim_start_nil in H. congruence.
Qed.

(** X14.  A text counts as empty exactly when every code unit of it is one
    that [trim] strips ([is_whitespace]: the white space and line
    terminators of ECMAScript; of the code units below 256 these are 9 to
    13, 32 and the no-break space 160).  On such a
    text [analyzeText], manual or realtime, neither sends a frame nor
    issues a request nor shows a toast; it leaves the busy flag as it finds
    it, set or not, and puts the Analyze button back to its idle state. *)
Theorem blank_text_is_not_analysed text isRealtime a :
  is_empty text = forallb is_space (String.list_ascii_of_string text) ∧
  (∀ c, is_space c = true ↔ Ascii.nat_of_ascii c ∈ [9; 10; 11; 12; 13; 32; 160]%nat) ∧
  (is_empty text = true →
     fst (analyzeText text isRealtime a) = Normal Finished ∧
     requests (snd (analyzeText text isRealtime a)) = requests a ∧
     wsManager (snd (analyzeText text isRealtime a)) = wsManager a ∧
     toasts (snd (analyzeText text isRealtime a)) = toasts a ∧
     isAnalyzing (snd (analyzeText text isRealtime a)) = isAnalyzing a ∧
     analyzeBtn (snd (analyzeText text isRealtime a))
       = (λ _, {| disabled := false; caption := AnalyzeSentiment |}) <$> analyzeBtn a).
Proof.
  split; [apply is_empty_whitespace|]. split; [apply is_space_chars|]. intros Hb.
  unfold analyzeText. rewrite Hb. unfold setAnalyzeButtonState. js_unfold.
  destruct (analyzeBtn a) eqn:E; simpl; rewrite ?E; done.
Qed.

End Blank.

Lemma blank_text_is_not_analysed_witness :
  let text := String SentimentApp.NBSP
                (String (Ascii.ascii_of_nat 32) (String (Ascii.ascii_of_nat 10) EmptyString)) in
  let a := SentimentApp.set_isAnalyzing true (SentimentApp.fresh None false true) in
  SentimentApp.is_empty text = true ∧
  SentimentApp.is_empty "  ok " = false ∧
  fst (SentimentApp.analyzeText text true a) = Normal SentimentApp.Finished ∧
  SentimentApp.requests (snd (SentimentApp.analyzeText text true a)) = [] ∧
  SentimentApp.isAnalyzing (snd (SentimentApp.analyzeText text true a)) = true.
Proof.
  cbv zeta.
  destruct (blank_text_is_not_analysed
              (String SentimentApp.NBSP
                 (String (Ascii.ascii_of_nat 32) (String (Ascii.ascii_of_nat 10) EmptyString)))
              true (SentimentApp.set_isAnalyzing true (SentimentApp.fresh None false true)))
    as (Hc & _ & H).
  assert (SentimentApp.is_empty
            (String SentimentApp.NBSP
               (String (Ascii.ascii_of_nat 32) (String (Ascii.ascii_of_nat 10) EmptyString)))
          = true) as Hb by (rewrite Hc; vm_compute; reflexivity).
  destruct (H Hb) as (H2 & H3 & _ & _ & H6 & _).
  split; [exact Hb|]. split; [vm_compute; reflexivity|].
  split; [exact H2|]. split; [exact H3|exact H6].
Defined.

(** ** One submission, one channel *)

Lemma send_open type data s :
  is_open s = true →
  serializable (VObj [("type", type); ("data", data)]) = true →
  fst (send type data s) = Normal true ∧
  ∃ i, socket (this s) = Some i ∧
       sockets (page (snd (send type data s)))
         = alter (with_frame (json_image (VObj [("type", type); ("data", data)]))) i
             (sockets (page s)).
Proof.
  unfold is_open, send, socket_readyState, socket_send, log, JSON_stringify. js_unfold.
  intros Ho ->. apply andb_true_iff in Ho as [Hc Ho]. rewrite Hc. cbn [negb].
  destruct (this_socket s) as [sk|] eqn:Hsk; [|discriminate]. unfold this_socket in Hsk.
  destruct (socket (this s)) as [i|] eqn:Ei; [|discriminate].
  destruct (readyState sk) eqn:Er; try discriminate. cbn [ReadyState_eqb negb fst snd].
  unfold this_socket. rewrite Ei, Hsk, Er. cbn [fst snd].
  split; [reflexivity|]. exists i. split; reflexivity.
Qed.

Section Channels.

Import SentimentApp.

(** The frame that carries a text to the server. *)
Lemma analyze_frame_serializable text :
  serializable (VObj [("type", VStr "analyze_text"); ("data", VObj [("text", VStr text)])])
  = true.
Proof. reflexivity. Qed.

Lemma analyzeTextWebSocket_outcome text a :
  (∀ ws, wsManager a = Some ws → well_formed ws) →
  let sent := snd (analyzeTextWebSocket text a) in
  fst (analyzeTextWebSocket text a)
    = Normal (match wsManager a with Some ws => is_open ws | None => false end) ∧
  requests sent = requests a ∧ toasts sent = toasts a ∧
  isAnalyzing sent = isAnalyzing a ∧ analyzeBtn sent = analyzeBtn a ∧
  currentAnalysis sent = currentAnalysis a ∧ resultsSection sent = resultsSection a ∧
  match wsManager a with
  | Some ws =>
      if is_open ws then
        ∃ i ws', socket (this ws) = Some i ∧ wsManager sent = Some ws' ∧
                 sockets (page ws')
                   = alter (with_frame
                              (json_image
                                 (VObj [("type", VStr "analyze_text");
                                        ("data", VObj [("text", VStr text)])]))) i
                       (sockets (page ws))
      else ∃ ws', wsManager sent = Some ws' ∧ sockets (page ws') = sockets (page ws)
  | None => wsManager sent = None
  end.
Proof.
  intros Hwf. cbv zeta. unfold analyzeTextWebSocket, SentimentApp.log. js_unfold.
  destruct (wsManager a) as [ws|] eqn:Ews; [|simpl; rewrite Ews; done].
  specialize (Hwf ws eq_refl).
  destruct (isConnected (this ws)) eqn:Ec.
  - cbn [fst snd]. destruct (is_open ws) eqn:Eo.
    + destruct (send_open (VStr "analyze_text") (VObj [("text", VStr text)]) ws Eo
                  (analyze_frame_serializable text)) as (H1 & i & Hi & Hs).
      rewrite H1. repeat split; try done. exists i. eexists. done.
    + destruct (send_not_open (VStr "analyze_text") (VObj [("text", VStr text)]) ws Hwf Eo)
        as (H1 & Hs & _).
      rewrite H1. repeat split; try done. eexists. done.
  - assert (is_open ws = false) as -> by (unfold is_open; by rewrite Ec).
    simpl. rewrite Ews. repeat split; try done. eexists. done.
Qed.

(** How a stretch of the [try] block ends decides what the block does. *)
Lemma try_block_suspends isRealtime stretch a k :
  fst (stretch a) = Normal (Some k) →
  try_block isRealtime stretch a = (Normal (Waiting k), snd (stretch a)).
Proof. unfold try_block. destruct (stretch a) as [r a1]. simpl. by intros ->. Qed.

Lemma finally_block_fields isRealtime a :
  fst (finally_block isRealtime a) = Normal tt ∧
  requests (snd (finally_block isRealtime a)) = requests a ∧
  wsManager (snd (finally_block isRealtime a)) = wsManager a ∧
  toasts (snd (finally_block isRealtime a)) = toasts a ∧
  console (snd (finally_block isRealtime a)) = console a ∧
  currentAnalysis (snd (finally_block isRealtime a)) = currentAnalysis a ∧
  resultsSection (snd (finally_block isRealtime a)) = resultsSection a ∧
  isAnalyzing (snd (finally_block isRealtime a))
    = (if isRealtime then isAnalyzing a else false).
Proof.
  unfold finally_block, setAnalyzeButtonState. js_unfold.
  destruct isRealtime; simpl; [done|]. destruct (analyzeBtn a); done.
Qed.

Lemma try_block_ends isRealtime stretch a :
  fst (stretch a) = Normal None →
  let a' := snd (try_block isRealtime stretch a) in
  fst (try_block isRealtime stretch a) = Normal Finished ∧
  requests a' = requests (snd (stretch a)) ∧
  wsManager a' = wsManager (snd (stretch a)) ∧
  toasts a' = toasts (snd (stretch a)) ∧
  console a' = console (snd (stretch a)) ∧
  currentAnalysis a' = currentAnalysis (snd (stretch a)) ∧
  resultsSection a' = resultsSection (snd (stretch a)) ∧
  isAnalyzing a' = (if isRealtime then isAnalyzing (snd (stretch a)) else false).
Proof.
  unfold try_block, try_finally. js_unfold. destruct (stretch a) as [r a1]. simpl.
  intros ->.
  pose proof (finally_block_fields isRealtime a1) as H.
  destruct (finally_block isRealtime a1) as [c a2]. simpl in *.
  destruct H as (-> & H). exact (conj eq_refl H).
Qed.

Lemma try_block_throws isRealtime stretch a e :
  fst (stretch a) = Throw e →
  let a' := snd (try_block isRealtime stretch a) in
  fst (try_block isRealtime stretch a) = Normal Finished ∧
  requests a' = requests (snd (stretch a)) ∧
  wsManager a' = wsManager (snd (stretch a)) ∧
  toasts a' = toasts (snd (stretch a)) ++ [("Analysis Error", MessageOf e, "error")] ∧
  console a' = console (snd (stretch a)) ++ [ErrAnalysis e] ∧
  currentAnalysis a' = currentAnalysis (snd (stretch a)) ∧
  resultsSection a' = resultsSection (snd (stretch a)) ∧
  isAnalyzing a' = (if isRealtime then isAnalyzing (snd (stretch a)) else false).
Proof.
  unfold try_block, try_finally, catch_block, SentimentApp.log, SentimentApp.showToast.
  js_unfold. destruct (stretch a) as [r a1]. simpl. intros ->.
  match goal with |- context [finally_block isRealtime ?a2] =>
    pose proof (finally_block_fields isRealtime a2) as H;
    destruct (finally_block isRealtime a2) as [c a3] end.
  simpl in *. destruct H as (-> & H). exact (conj eq_refl H).
Qed.

Lemma request_stretch_outcome text isRealtime a :
  (∀ ws, wsManager a = Some ws → well_formed ws) →
  let r := request_stretch text isRealtime a in
  if default false (realtimeToggle a) && window_wsManager a &&
     match wsManager a with Some ws => is_open ws | None => false end
  then
    fst r = Normal None ∧
    requests (snd r) = requests a ∧
    ∃ ws i ws', wsManager a = Some ws ∧ socket (this ws) = Some i ∧
                wsManager (snd r) = Some ws' ∧
                sockets (page ws')
                  = alter (with_frame
                             (json_image
                                (VObj [("type", VStr "analyze_text");
                                       ("data", VObj [("text", VStr text)])]))) i
                      (sockets (page ws))
  else
    fst r = Normal (Some {| point := AwaitFetch; realtime := isRealtime |}) ∧
    requests (snd r)
      = requests a ++ [VObj [("text", VStr text); ("save_to_db", VBool (negb isRealtime))]] ∧
    (λ ws, sockets (page ws)) <$> wsManager (snd r)
      = (λ ws, sockets (page ws)) <$> wsManager a.
Proof.
  intros Hwf. cbv zeta.
  unfold request_stretch, window_wsManager_isConnected, fetch, SentimentApp.log.
  js_unfold. cbv beta.
  destruct (default false (realtimeToggle a)) eqn:Et; cbn [andb]; [|simpl; done].
  destruct (window_wsManager a) eqn:Ew; cbn [andb]; [|simpl; done].
  destruct (analyzeTextWebSocket_outcome text a Hwf) as (H1 & H2 & _ & _ & _ & _ & _ & H8).
  destruct (wsManager a) as [ws|] eqn:Ews.
  2:{ simpl. rewrite Ews. done. }
  destruct (isConnected (this ws)) eqn:Ec.
  2:{ assert (is_open ws = false) as -> by (unfold is_open; by rewrite Ec).
      simpl. rewrite Ews. done. }
  destruct (is_open ws) eqn:Eo.
  - destruct H8 as (i & ws' & Hi & Hws' & Hs).
    destruct (analyzeTextWebSocket text a) as [r a2]. simpl in *. subst r. simpl.
    split; [reflexivity|]. split; [exact H2|]. exists ws, i, ws'. done.
  - destruct H8 as (ws' & Hws' & Hs).
    destruct (analyzeTextWebSocket text a) as [r a2]. simpl in *. subst r. simpl.
    rewrite H2, Hws'. simpl. rewrite Hs. done.
Qed.

(** X15.  A submission that gets past the two guards of [analyzeText] goes out
    exactly once.  When real-time is switched on, [window.wsManager] is
    bound to a connected manager and that manager's socket is open, the
    text leaves as one [analyze_text] frame on that socket, no request is
    issued and the call is over.  In every other case no frame is queued,
    one POST is issued whose body carries the text and
    [save_to_db = !isRealtime], and the call waits for the answer. *)
Theorem submission_goes_out_once text isRealtime a :
  is_empty text = false →
  isAnalyzing a && negb isRealtime = false →
  (∀ ws, wsManager a = Some ws → well_formed ws) →
  let r := analyzeText text isRealtime a in
  if default false (realtimeToggle a) && window_wsManager a &&
     match wsManager a with Some ws => is_open ws | None => false end
  then
    fst r = Normal Finished ∧
    requests (snd r) = requests a ∧
    ∃ ws i ws', wsManager a = Some ws ∧ socket (this ws) = Some i ∧
                wsManager (snd r) = Some ws' ∧
                sockets (page ws')
                  = alter (with_frame
                             (json_image
                                (VObj [("type", VStr "analyze_text");
                                       ("data", VObj [("text", VStr text)])]))) i
                      (sockets (page ws))
  else
    fst r = Normal (Waiting {| point := AwaitFetch; realtime := isRealtime |}) ∧
    requests (snd r)
      = requests a ++ [VObj [("text", VStr text); ("save_to_db", VBool (negb isRealtime))]] ∧
    (λ ws, sockets (page ws)) <$> wsManager (snd r)
      = (λ ws, sockets (page ws)) <$> wsManager a.
Proof.
  intros He Hg Hwf. cbv zeta.
  rewrite (analyzeText_started text isRealtime a He Hg).
  set (a1 := snd (setAnalyzeButtonState true (set_isAnalyzing true a))).
  assert (realtimeToggle a1 = realtimeToggle a ∧ window_wsManager a1 = window_wsManager a ∧
          wsManager a1 = wsManager a ∧ requests a1 = requests a) as (T1 & T2 & T3 & T4).
  { subst a1. unfold setAnalyzeButtonState. js_unfold. simpl.
    destruct (analyzeBtn a); done. }
  assert (∀ ws, wsManager a1 = Some ws → well_formed ws) as Hwf1
    by (intros ws; rewrite T3; apply Hwf).
  rewrite <- T1, <- T2, <- T3, <- T4. clearbody a1. clear Hwf T1 T2 T3 T4 Hg a.
  pose proof (request_stretch_outcome text isRealtime a1 Hwf1) as H. cbv zeta in H.
  destruct (default false (realtimeToggle a1) && window_wsManager a1 &&
            match wsManager a1 with Some ws => is_open ws | None => false end).
  - destruct H as (H1 & H2 & H3).
    destruct (try_block_ends isRealtime _ a1 H1) as (E1 & E2 & E3 & _).
    split; [exact E1|]. split; [by rewrite E2|]. by rewrite E3.
  - destruct H as (H1 & H2 & H3).
    rewrite (try_block_suspends isRealtime _ a1 _ H1). done.
Qed.

End Channels.

Lemma submission_goes_out_once_witness :
  let ws := state_after [SocketOpen 0 VUndef] example_boot in
  let text := "a fine product indeed" in
  let pushed := SentimentApp.analyzeText text true (SentimentApp.fresh (Some ws) true true) in
  let posted := SentimentApp.analyzeText text true (SentimentApp.fresh (Some ws) false true) in
  fst pushed = Normal SentimentApp.Finished ∧
  SentimentApp.requests (snd pushed) = [] ∧
  fst posted
    = Normal (SentimentApp.Waiting
                {| SentimentApp.point := SentimentApp.AwaitFetch;
                   SentimentApp.realtime := true |}) ∧
  SentimentApp.requests (snd posted)
    = [VObj [("text", VStr text); ("save_to_db", VBool false)]].
Proof.
  cbv zeta.
  set (ws := state_after [SocketOpen 0 VUndef] example_boot).
  assert (well_formed ws) as Hwf.
  { apply (run_well_formed quiet [SocketOpen 0 VUndef] example_boot);
      [apply boot_well_formed|vm_compute; reflexivity]. }
  assert (is_open ws = true) as Ho by (vm_compute; reflexivity).
  assert (SentimentApp.is_empty "a fine product indeed" = false) as He
    by (vm_compute; reflexivity).
  pose proof (submission_goes_out_once "a fine product indeed" true
                (SentimentApp.fresh (Some ws) true true) He eq_refl) as H1.
  pose proof (submission_goes_out_once "a fine product indeed" true
                (SentimentApp.fresh (Some ws) false true) He eq_refl) as H2.
  cbv zeta in H1, H2. cbn [SentimentApp.fresh SentimentApp.realtimeToggle
    SentimentApp.window_wsManager SentimentApp.wsManager SentimentApp.requests
    default from_option andb] in H1, H2. unfold id in H1, H2.
  rewrite Ho in H1. cbn [andb app] in H1, H2.
  destruct H1 as (P1 & P2 & _); [by intros ? [= <-]|].
  destruct H2 as (Q1 & Q2 & _); [by intros ? [= <-]|].
  split; [exact P1|]. split; [exact P2|]. split; [exact Q1|exact Q2].
Defined.

(** ** How an attempt ends *)

Section Outcomes.

Import SentimentApp.

Variable render : JSVal -> bool.

(** X16.  However the fallback fails (the request is rejected, the response is
    not ok, its body is not JSON), the call ends there and reports the
    failure exactly once: one entry on the console and one toast
    [Analysis Error] carrying that error.  It issues no further request,
    and leaves the current analysis and the results section as they were. *)
Theorem fallback_failure_is_reported_once k fetched parsed e a :
  (point k = AwaitFetch ∧
   (fetched = Throw e ∨
    ∃ r, fetched = Normal r ∧ ok r = false ∧ e = HttpError (status r) (statusText r)))
  ∨ (point k = AwaitJson ∧ parsed = Throw e) →
  let a' := snd (resume render k fetched parsed a) in
  fst (resume render k fetched parsed a) = Normal Finished ∧
  toasts a' = toasts a ++ [("Analysis Error", MessageOf e, "error")] ∧
  console a' = console a ++ [ErrAnalysis e] ∧
  requests a' = requests a ∧
  currentAnalysis a' = currentAnalysis a ∧
  resultsSection a' = resultsSection a ∧
  isAnalyzing a' = (if realtime k then isAnalyzing a else false).
Proof.
  intros H. cbv zeta. unfold resume.
  assert (∀ stretch, stretch a = (Throw e, a) →
            fst (try_block (realtime k) stretch a) = Normal Finished ∧
            toasts (snd (try_block (realtime k) stretch a))
              = toasts a ++ [("Analysis Error", MessageOf e, "error")] ∧
            console (snd (try_block (realtime k) stretch a)) = console a ++ [ErrAnalysis e] ∧
            requests (snd (try_block (realtime k) stretch a)) = requests a ∧
            currentAnalysis (snd (try_block (realtime k) stretch a)) = currentAnalysis a ∧
            resultsSection (snd (try_block (realtime k) stretch a)) = resultsSection a ∧
            isAnalyzing (snd (try_block (realtime k) stretch a))
              = (if realtime k then isAnalyzing a else false)) as Hthrow.
  { intros stretch Hs.
    destruct (try_block_throws (realtime k) stretch a e) as (T1 & T2 & _ & T4 & T5 & T6 & T7 & T8);
      [by rewrite Hs|].
    rewrite Hs in *. done. }
  destruct H as [[-> [-> | (r & -> & Hok & ->)]] | [-> ->]].
  - apply Hthrow. reflexivity.
  - apply Hthrow. unfold response_stretch. js_unfold. simpl. by rewrite Hok.
  - apply Hthrow. reflexivity.
Qed.

(** X17.  An answer that carries an [error] member is shown as a toast with
    that member and is not taken over as the current analysis.  A manual
    call nevertheless goes on to reveal the results section, with
    whatever it showed before; a realtime call leaves it alone. *)
Theorem server_error_is_shown_as_toast isRealtime result err a :
  get_prop result "error" = Some err →
  truthy err = true →
  is_Some (resultsSection a) →
  let a' := snd (after_json render isRealtime (Normal result) a) in
  fst (after_json render isRealtime (Normal result) a) = Normal Finished ∧
  toasts a' = toasts a ++ [("Analysis Error", ValueOf err, "error")] ∧
  console a' = console a ∧
  currentAnalysis a' = currentAnalysis a ∧
  resultsSection a' = (if isRealtime then resultsSection a else Some "block").
Proof.
  intros Hp Ht [d Hd]. cbv zeta. unfold after_json.
  assert (result_stretch render isRealtime (Normal result) a
          = (Normal None,
             (if isRealtime then id else set_resultsSection (Some "block"))
               (set_toasts (toasts a ++ [("Analysis Error", ValueOf err, "error")]) a)))
    as Hs.
  { unfold result_stretch, displayAnalysisResult, SentimentApp.showToast. js_unfold.
    simpl. rewrite Hp. simpl. rewrite Ht. simpl.
    destruct isRealtime; simpl; [reflexivity|]. rewrite Hd. reflexivity. }
  destruct (try_block_ends isRealtime _ a ltac:(by rewrite Hs))
    as (E1 & _ & _ & E4 & E5 & E6 & E7 & _).
  rewrite Hs in *. cbn [snd] in *.
  split; [exact E1|]. destruct isRealtime; simpl in *; done.
Qed.

(** X18.  An answer without an error becomes the current analysis before the
    view is touched.  When the view updates go through, the results
    section is revealed and nothing is reported; when one of them throws,
    the new result stays in [currentAnalysis] while the results section is
    left as it was, and the failure is reported as any other. *)
Theorem result_is_kept_when_rendering_fails isRealtime result err a :
  get_prop result "error" = Some err →
  truthy err = false →
  is_Some (resultsSection a) →
  let a' := snd (after_json render isRealtime (Normal result) a) in
  fst (after_json render isRealtime (Normal result) a) = Normal Finished ∧
  currentAnalysis a' = Some result ∧
  requests a' = requests a ∧
  if render result then
    resultsSection a' = Some "block" ∧ toasts a' = toasts a ∧ console a' = console a
  else
    resultsSection a' = resultsSection a ∧
    toasts a' = toasts a ++ [("Analysis Error", MessageOf RenderingError, "error")] ∧
    console a' = console a ++ [ErrAnalysis RenderingError].
Proof.
  intros Hp Ht [d Hd]. cbv zeta. unfold after_json.
  destruct (render result) eqn:Er.
  - assert (result_stretch render isRealtime (Normal result) a
            = (Normal None,
               set_resultsSection (Some "block") (set_currentAnalysis (Some result) a)))
      as Hs.
    { unfold result_stretch, displayAnalysisResult, SentimentApp.showToast. js_unfold.
      simpl. rewrite Hp. simpl. rewrite Ht, Er. simpl. rewrite Hd. simpl.
      destruct isRealtime; reflexivity. }
    destruct (try_block_ends isRealtime _ a ltac:(by rewrite Hs))
      as (E1 & E2 & _ & E4 & E5 & E6 & E7 & _).
    rewrite Hs in *. cbn [snd] in *. done.
  - assert (result_stretch render isRealtime (Normal result) a
            = (Throw RenderingError, set_currentAnalysis (Some result) a)) as Hs.
    { unfold result_stretch, displayAnalysisResult, SentimentApp.showToast. js_unfold.
      simpl. rewrite Hp. simpl. rewrite Ht, Er. reflexivity. }
    destruct (try_block_throws isRealtime _ a RenderingError ltac:(by rewrite Hs))
      as (E1 & E2 & _ & E4 & E5 & E6 & E7 & _).
    rewrite Hs in *. cbn [snd] in *. done.
Qed.

End Outcomes.

Lemma fallback_failure_is_reported_once_witness :
  let k := {| SentimentApp.point := SentimentApp.AwaitFetch; SentimentApp.realtime := false |} in
  let refused := {| SentimentApp.ok := false; SentimentApp.status := 503;
                    SentimentApp.statusText := "Service Unavailable" |} in
  let a := SentimentApp.set_isAnalyzing true (SentimentApp.fresh None false false) in
  let a' := snd (SentimentApp.resume (λ _, true) k (Normal refused) (Normal VNull) a) in
  SentimentApp.toasts a'
    = [("Analysis Error", SentimentApp.MessageOf (HttpError 503 "Service Unavailable"),
        "error")] ∧
  SentimentApp.requests a' = [] ∧
  SentimentApp.isAnalyzing a' = false.
Proof.
  cbv zeta.
  destruct (fallback_failure_is_reported_once (λ _, true)
              {| SentimentApp.point := SentimentApp.AwaitFetch;
                 SentimentApp.realtime := false |}
              (Normal {| SentimentApp.ok := false; SentimentApp.status := 503;
                         SentimentApp.statusText := "Service Unavailable" |})
              (Normal VNull) (HttpError 503 "Service Unavailable")
              (SentimentApp.set_isAnalyzing true (SentimentApp.fresh None false false)))
    as (_ & H2 & _ & H4 & _ & _ & H7).
  { left. split; [reflexivity|]. right. eexists. split; [reflexivity|]. split; reflexivity. }
  split; [exact H2|]. split; [exact H4|exact H7].
Defined.

Lemma server_error_is_shown_as_toast_witness :
  let result := VObj [("error", VStr "Text too long")] in
  let a := SentimentApp.fresh None false false in
  let a' := snd (SentimentApp.after_json (λ _, true) false (Normal result) a) in
  SentimentApp.toasts a'
    = [("Analysis Error", SentimentApp.ValueOf (VStr "Text too long"), "error")] ∧
  SentimentApp.currentAnalysis a' = None ∧
  SentimentApp.resultsSection a' = Some "block".
Proof.
  cbv zeta.
  destruct (server_error_is_shown_as_toast (λ _, true) false
              (VObj [("error", VStr "Text too long")]) (VStr "Text too long")
              (SentimentApp.fresh None false false))
    as (_ & H2 & _ & H4 & H5);
    [reflexivity|reflexivity|eexists; reflexivity|].
  split; [exact H2|]. split; [exact H4|exact H5].
Defined.

Lemma result_is_kept_when_rendering_fails_witness :
  let a := SentimentApp.fresh None false false in
  let a' := snd (SentimentApp.after_json (λ _, false) true (Normal example_result) a) in
  SentimentApp.currentAnalysis a' = Some example_result ∧
  SentimentApp.resultsSection a' = Some "none" ∧
  SentimentApp.console a' = [SentimentApp.ErrAnalysis RenderingError].
Proof.
  cbv zeta.
  destruct (result_is_kept_when_rendering_fails (λ _, false) true example_result VUndef
              (SentimentApp.fresh None false false))
    as (_ & H2 & _ & H4 & _ & H6);
    [reflexivity|reflexivity|eexists; reflexivity|].
  split; [exact H2|]. split; [exact H4|exact H6].
Defined.

(** ** The list of recent reviews *)

Section RecentReviews.

Import Reviews.

Lemma take_take_cons {A} (x : A) (l : list A) n :
  take (S n) (x :: take (S n) l) = take (S n) (x :: l).
Proof. simpl. f_equal. rewrite take_take. f_equal. lia. Qed.

Lemma addToRecentReviews_recentReviews now d s :
  recentReviews (addToRecentReviews now d s) = take 50 (entry d :: recentReviews s).
Proof.
  unfold addToRecentReviews, displayRecentReviews, entry. cbn [recentReviewsList recentReviews].
  set (l := _ :: recentReviews s).
  assert ((if (50 <? length l)%nat then take 50 l else l) = take 50 l) as ->.
  { destruct (50 <? length l)%nat eqn:E; [reflexivity|].
    apply Nat.ltb_ge in E. symmetry. apply take_ge. exact E. }
  destruct (recentReviewsList s); reflexivity.
Qed.

Lemma addToRecentReviews_list now d s :
  recentReviewsList (addToRecentReviews now d s)
  = (λ _, map (createReviewElement now) (recentReviews (addToRecentReviews now d s)))
      <$> recentReviewsList s.
Proof.
  unfold addToRecentReviews, displayRecentReviews. cbn [recentReviewsList recentReviews].
  destruct (recentReviewsList s); reflexivity.
Qed.

Lemma broadcasts_snoc arrivals x s :
  broadcasts (arrivals ++ [x]) s = addToRecentReviews (fst x) (snd x) (broadcasts arrivals s).
Proof. unfold broadcasts. by rewrite foldl_app. Qed.

(** X19.  However many broadcasts arrive, and however long the list had grown
    before, [recentReviews] afterwards holds the latest 50 entries, newest
    first: the entries of the broadcasts in reverse order of arrival,
    followed by what was there, cut after 50.  When the page has the list
    element it shows exactly these entries, in that order, drawn at the
    instant of the last broadcast. *)
Theorem recent_reviews_keep_latest_50 arrivals now d s :
  let s' := broadcasts (arrivals ++ [(now, d)]) s in
  recentReviews s'
    = take 50 (rev (entry ∘ snd <$> arrivals ++ [(now, d)]) ++ recentReviews s) ∧
  (length (recentReviews s') <= 50)%nat ∧
  head (recentReviews s') = Some (entry d) ∧
  recentReviewsList s'
    = (λ _, map (createReviewElement now) (recentReviews s')) <$> recentReviewsList s.
Proof.
  cbv zeta.
  assert (∀ l, recentReviews (broadcasts l s)
               = if decide (l = []) then recentReviews s
                 else take 50 (rev (entry ∘ snd <$> l) ++ recentReviews s)) as Hrec.
  { induction l as [|x l IH] using rev_ind; [reflexivity|].
    rewrite broadcasts_snoc, addToRecentReviews_recentReviews, IH.
    destruct (decide (l ++ [x] = [])) as [E|_]; [by destruct l|].
    rewrite fmap_app, rev_app_distr. simpl.
    destruct (decide (l = [])) as [->|_]; [reflexivity|].
    apply (take_take_cons (entry (snd x)) _ 49). }
  assert (∀ l, recentReviewsList (broadcasts l s)
               = (λ _, default [] (recentReviewsList (broadcasts l s)))
                   <$> recentReviewsList s) as Hlist.
  { induction l as [|x l IH] using rev_ind.
    - simpl. destruct (recentReviewsList s); reflexivity.
    - rewrite broadcasts_snoc, addToRecentReviews_list, IH.
      destruct (recentReviewsList s); reflexivity. }
  split; [|split; [|split]].
  - rewrite Hrec. destruct (decide (arrivals ++ [(now, d)] = [])) as [E|_]; [|reflexivity].
    by destruct arrivals.
  - rewrite Hrec. destruct (decide (arrivals ++ [(now, d)] = [])) as [E|_];
      [by destruct arrivals|]. rewrite length_take. lia.
  - rewrite broadcasts_snoc, addToRecentReviews_recentReviews. reflexivity.
  - rewrite broadcasts_snoc, addToRecentReviews_list, Hlist.
    destruct (recentReviewsList s); reflexivity.
Qed.

Lemma length_substring n text :
  String.length (String.substring 0 n text) = Nat.min n (String.length text).
Proof.
  revert text. induction n as [|n IH]; intros [|c text]; simpl; try reflexivity.
  by rewrite IH.
Qed.

Lemma length_append (s1 s2 : string) :
  String.length (s1 +:+ s2) = (String.length s1 + String.length s2)%nat.
Proof. induction s1 as [|c s1 IH]; simpl; [reflexivity|]. by rewrite IH. Qed.

Lemma substring_prefix n text :
  String.list_ascii_of_string (String.substring 0 n text)
  = take n (String.list_ascii_of_string text).
Proof.
  revert text. induction n as [|n IH]; intros [|c text]; simpl; try reflexivity.
  by rewrite IH.
Qed.

Lemma list_ascii_of_append (s1 s2 : string) :
  String.list_ascii_of_string (s1 +:+ s2)
  = String.list_ascii_of_string s1 ++ String.list_ascii_of_string s2.
Proof. induction s1 as [|c s1 IH]; simpl; [reflexivity|]. by rewrite IH. Qed.

(** X20.  The text shown for a review is never longer than 153 characters: a
    text of at most 150 characters is shown as it is, a longer one as its
    first 150 characters followed by three dots. *)
Theorem review_preview_is_bounded now review :
  let shown := review_text (createReviewElement now review) in
  (String.length shown <= 153)%nat ∧
  ((String.length (text review) <= 150)%nat → shown = text review) ∧
  ((150 < String.length (text review))%nat →
     String.length shown = 153%nat ∧
     String.list_ascii_of_string shown
       = take 150 (String.list_ascii_of_string (text review))
           ++ String.list_ascii_of_string "...").
Proof.
  cbv zeta. unfold createReviewElement, preview. cbn [review_text].
  destruct (150 <? String.length (text review))%nat eqn:E.
  - apply Nat.ltb_lt in E. rewrite length_append, length_substring.
    change (String.length "...") with 3%nat.
    split; [lia|]. split; [lia|]. intros _. split; [lia|].
    by rewrite list_ascii_of_append, substring_prefix.
  - apply Nat.ltb_ge in E. split; [lia|]. split; [done|lia].
Qed.

(** X21.  The age shown for a review: anything less than a minute old, or dated
    in the future, is [just now]; otherwise the age is given in whole
    minutes (1 to 59), whole hours (1 to 23) or whole days (1 or more),
    rounded down. *)
Theorem timeAgo_ranges now date :
  let diff := (now - date) / 1000 in
  match age now date with
  | JustNow => now - date < 60000
  | Minutes n => 1 <= n <= 59 ∧ 60 * n <= diff < 60 * (n + 1)
  | Hours n => 1 <= n <= 23 ∧ 3600 * n <= diff < 3600 * (n + 1)
  | Days n => 1 <= n ∧ 86400 * n <= diff < 86400 * (n + 1)
  end ∧
  (now <= date → timeAgo now date = "just now").
Proof.
  cbv zeta. unfold timeAgo, age.
  pose proof (Z.div_mod (now - date) 1000 ltac:(lia)) as Hd.
  pose proof (Z.mod_pos_bound (now - date) 1000 ltac:(lia)) as Hm.
  set (diff := (now - date) / 1000) in *.
  split.
  - destruct (diff <? 60) eqn:E1; [apply Z.ltb_lt in E1; lia|]. apply Z.ltb_ge in E1.
    destruct (diff <? 3600) eqn:E2.
    { apply Z.ltb_lt in E2.
      pose proof (Z.div_mod diff 60 ltac:(lia)). pose proof (Z.mod_pos_bound diff 60 ltac:(lia)).
      lia. }
    apply Z.ltb_ge in E2.
    destruct (diff <? 86400) eqn:E3.
    { apply Z.ltb_lt in E3.
      pose proof (Z.div_mod diff 3600 ltac:(lia)).
      pose proof (Z.mod_pos_bound diff 3600 ltac:(lia)). lia. }
    apply Z.ltb_ge in E3.
    pose proof (Z.div_mod diff 86400 ltac:(lia)).
    pose proof (Z.mod_pos_bound diff 86400 ltac:(lia)). lia.
  - intros Hle. assert ((diff <? 60) = true) as -> by (apply Z.ltb_lt; lia). reflexivity.
Qed.

End RecentReviews.

(** ** Trimming *)

Section Trim.

Import SentimentApp.

Lemma trim_start_split l :
  ∃ sp, l = sp ++ trim_start l ∧ forallb is_space sp = true.
Proof.
  induction l as [|c l (sp & IH & Hsp)]; [by exists []|]. simpl.
  destruct (is_space c) eqn:E.
  - exists (c :: sp). simpl. rewrite E, Hsp. split; [congruence|done].
  - by exists [].
Qed.

Lemma trim_start_fixed l :
  (∀ c rest, l = c :: rest → is_space c = false) → trim_start l = l.
Proof. destruct l as [|c rest]; [done|]. intros H. simpl. by rewrite (H c rest). Qed.

(** The characters [trim] keeps: nothing, or a stretch that neither
    begins nor ends with whitespace. *)
Lemma trim_chars text :
  let kept := rev (trim_start (rev (trim_start (String.list_ascii_of_string text)))) in
  String.list_ascii_of_string (trim text) = kept ∧
  trim_start kept = kept ∧
  trim_start (rev kept) = rev kept ∧
  (kept = [] ↔ forallb is_space (String.list_ascii_of_string text) = true).
Proof.
  cbv zeta. unfold trim. rewrite String.list_ascii_of_string_of_list_ascii.
  set (l := String.list_ascii_of_string text).
  set (l1 := trim_start l).
  destruct (trim_start_split (rev l1)) as (sp & Hsplit & Hsp).
  set (l2 := trim_start (rev l1)) in *.
  assert (l1 = rev l2 ++ rev sp) as Hl1.
  { rewrite <- (rev_involutive l1), Hsplit, rev_app_distr. reflexivity. }
  split; [reflexivity|]. split; [|split].
  - apply trim_start_fixed. intros c rest Hr.
    apply (trim_start_head l c (rest ++ rev sp)). fold l1. rewrite Hl1, Hr. reflexivity.
  - rewrite rev_involutive. apply trim_start_idempotent.
  - split.
    + intros Hnil. apply trim_start_nil. fold l1.
      assert (l2 = []) as Hl2 by (rewrite <- (rev_involutive l2), Hnil; reflexivity).
      apply trim_start_nil in Hl2. rewrite forallb_rev in Hl2.
      apply trim_start_nil in Hl2. unfold l1 in *.
      rewrite trim_start_idempotent in Hl2. exact Hl2.
    + intros Hall. apply trim_start_nil in Hall. fold l1 in Hall.
      unfold l2. rewrite Hall. reflexivity.
Qed.

(** What [trim] removes: a stretch of whitespace at either end. *)
Lemma trim_removes text :
  ∃ before after,
    String.list_ascii_of_string text
      = before ++ String.list_ascii_of_string (trim text) ++ after ∧
    forallb is_space before = true ∧ forallb is_space after = true.
Proof.
  unfold trim. rewrite String.list_ascii_of_string_of_list_ascii.
  set (l := String.list_ascii_of_string text).
  destruct (trim_start_split l) as (sp1 & H1 & Hsp1).
  destruct (trim_start_split (rev (trim_start l))) as (sp2 & H2 & Hsp2).
  exists sp1, (rev sp2). split; [|split; [exact Hsp1|by rewrite forallb_rev]].
  rewrite <- rev_app_distr, <- H2, rev_involutive. exact H1.
Qed.

Lemma trim_ends text c rest :
  String.list_ascii_of_string (trim text) = c :: rest
  ∨ rev (String.list_ascii_of_string (trim text)) = c :: rest →
  is_space c = false.
Proof.
  destruct (trim_chars text) as (Hc & H1 & H2 & _). cbv zeta in *.
  rewrite Hc. intros [H|H].
  - eapply (trim_start_head _ c rest). rewrite H1. exact H.
  - eapply (trim_start_head _ c rest). rewrite H2. exact H.
Qed.

Lemma string_of_list_nil l : String.string_of_list_ascii l = EmptyString ↔ l = [].
Proof. destruct l; simpl; split; intros; congruence. Qed.

Lemma trim_blank text : String.eqb (trim text) EmptyString = is_empty text.
Proof.
  rewrite is_empty_whitespace. destruct (trim_chars text) as (_ & _ & _ & Hnil).
  cbv zeta in Hnil. unfold trim.
  destruct (forallb is_space (String.list_ascii_of_string text)) eqn:E.
  - apply String.eqb_eq, string_of_list_nil, Hnil. reflexivity.
  - apply String.eqb_neq. intros H. apply string_of_list_nil, Hnil in H. discriminate.
Qed.

Lemma trim_idempotent text : trim (trim text) = trim text.
Proof.
  destruct (trim_chars text) as (Hc & H1 & H2 & _). cbv zeta in *.
  unfold trim at 1. rewrite Hc, H1, H2, rev_involutive. reflexivity.
Qed.

Lemma is_empty_trim text : is_empty (trim text) = is_empty text.
Proof. by rewrite <- !trim_blank, trim_idempotent. Qed.

End Trim.

(** ** The form *)

Section FormFacts.

Import SentimentApp Form.

Lemma on_app_eq {A} (m : M App A) p :
  on_app m p = (fst (m (app p)), set_app (snd (m (app p))) p).
Proof. unfold on_app. destruct (m (app p)). reflexivity. Qed.

(** With the push channel out of play, a call that passes the guards
    issues the request and waits. *)
Lemma analyzeText_http text isRealtime a :
  is_empty text = false →
  isAnalyzing a && negb isRealtime = false →
  default false (realtimeToggle a) && window_wsManager a = false →
  analyzeText text isRealtime a
  = (Normal (Waiting {| point := AwaitFetch; realtime := isRealtime |}),
     set_requests
       (requests a ++ [VObj [("text", VStr text); ("save_to_db", VBool (negb isRealtime))]])
       (snd (setAnalyzeButtonState true (set_isAnalyzing true a)))).
Proof.
  intros He Hg Hp. rewrite (analyzeText_started text isRealtime a He Hg).
  set (a1 := snd (setAnalyzeButtonState true (set_isAnalyzing true a))).
  assert (realtimeToggle a1 = realtimeToggle a ∧ window_wsManager a1 = window_wsManager a ∧
          requests a1 = requests a) as (T1 & T2 & T3).
  { subst a1. unfold setAnalyzeButtonState. js_unfold. simpl.
    destruct (analyzeBtn a); done. }
  rewrite <- T1, <- T2, <- T3 in *. clearbody a1.
  assert (request_stretch text isRealtime a1
          = (Normal (Some {| point := AwaitFetch; realtime := isRealtime |}),
             set_requests
               (requests a1 ++
                  [VObj [("text", VStr text); ("save_to_db", VBool (negb isRealtime))]]) a1))
    as Hs.
  { unfold request_stretch, window_wsManager_isConnected, fetch. js_unfold. cbv beta.
    rewrite andb_assoc, Hp. reflexivity. }
  rewrite (try_block_suspends isRealtime _ a1 _ ltac:(by rewrite Hs)), Hs. reflexivity.
Qed.

Lemma handleSubmit_eq p :
  handleSubmit p =
  match textArea p with
  | Some value =>
      if is_empty value then
        (Normal Finished,
         set_app (set_toasts
                    (toasts (app p)
                       ++ [("Empty Text", Literal "Please enter some text to analyze",
                            "warning")]) (app p)) p)
      else on_app (analyzeText (trim value) false) p
  | None =>
      (Normal Finished,
       set_app (set_toasts
                  (toasts (app p)
                     ++ [("Empty Text", Literal "Please enter some text to analyze",
                          "warning")]) (app p)) p)
  end.
Proof.
  unfold handleSubmit, SentimentApp.showToast, on_app. js_unfold.
  destruct (textArea p) as [value|]; simpl; [|reflexivity].
  rewrite trim_blank. destruct (is_empty value); reflexivity.
Qed.

(** X22.  [handleSubmit] hands [analyzeText] the trimmed text, and only a text
    that is not blank.  A blank text (one of nothing but the code units
    [trim] strips, the no-break space among them), or a page without the
    text area, gets the toast [Empty Text] and nothing else.  Otherwise the
    text handed on is the value of the text area without the stretch of
    whitespace at either end: it neither begins nor ends with whitespace
    and passes the guards of [analyzeText].  With no manual request
    outstanding and the push channel out of play, exactly one request goes
    out; its body carries that text and [save_to_db = true]. *)
Theorem handleSubmit_sends_trimmed_text p :
  let value := default EmptyString (textArea p) in
  let text := default EmptyString (trim <$> textArea p) in
  let r := handleSubmit p in
  if is_empty value then
    fst r = Normal Finished ∧
    requests (app (snd r)) = requests (app p) ∧
    isAnalyzing (app (snd r)) = isAnalyzing (app p) ∧
    toasts (app (snd r))
      = toasts (app p)
          ++ [("Empty Text", Literal "Please enter some text to analyze", "warning")]
  else
    (∃ before after,
       String.list_ascii_of_string value
         = before ++ String.list_ascii_of_string text ++ after ∧
       forallb is_space before = true ∧ forallb is_space after = true) ∧
    (∀ c rest, String.list_ascii_of_string text = c :: rest
               ∨ rev (String.list_ascii_of_string text) = c :: rest →
               is_space c = false) ∧
    trim text = text ∧ is_empty text = false ∧
    (isAnalyzing (app p) = true → r = (Normal Finished, p)) ∧
    (isAnalyzing (app p) = false →
     default false (realtimeToggle (app p)) && window_wsManager (app p) = false →
       fst r = Normal (Waiting {| point := AwaitFetch; realtime := false |}) ∧
       requests (app (snd r))
         = requests (app p) ++ [VObj [("text", VStr text); ("save_to_db", VBool true)]] ∧
       toasts (app (snd r)) = toasts (app p) ∧
       isAnalyzing (app (snd r)) = true).
Proof.
  cbv zeta. rewrite handleSubmit_eq.
  destruct (textArea p) as [value|] eqn:Ev; simpl; [|done].
  destruct (is_empty value) eqn:He; [done|].
  split; [apply trim_removes|]. split; [apply trim_ends|].
  split; [apply trim_idempotent|]. split; [by rewrite is_empty_trim|].
  rewrite on_app_eq. split.
  - intros Hb. unfold analyzeText. rewrite is_empty_trim, He. js_unfold.
    rewrite Hb. simpl. by destruct p.
  - intros Hb Hp.
    rewrite (analyzeText_http (trim value) false (app p));
      [|by rewrite is_empty_trim|by rewrite Hb|exact Hp].
    unfold setAnalyzeButtonState. js_unfold. simpl.
    destruct (analyzeBtn (app p)); done.
Qed.

(** X23.  Real-time analysis needs more than ten characters.  The function
    that [debounceAnalyze] wraps analyses a text only when what is left of
    it after trimming is longer than 10 characters; a shorter text, such as
    one of no-break spaces only, issues no request and sends no frame, and
    only puts the button back.  A text
    that is long enough is handed to [analyzeText] untrimmed, as a realtime
    call: with the push channel out of play, one request goes out, for the
    text as typed and with [save_to_db = false]. *)
Theorem realtime_needs_more_than_ten_characters text p :
  let r := debounceAnalyze_callback text p in
  if (10 <? String.length (trim text))%nat then
    is_empty text = false ∧
    r = on_app (analyzeText text true) p ∧
    (default false (realtimeToggle (app p)) && window_wsManager (app p) = false →
       fst r = Normal (Waiting {| point := AwaitFetch; realtime := true |}) ∧
       requests (app (snd r))
         = requests (app p) ++ [VObj [("text", VStr text); ("save_to_db", VBool false)]])
  else
    fst r = Normal Finished ∧
    requests (app (snd r)) = requests (app p) ∧
    wsManager (app (snd r)) = wsManager (app p) ∧
    toasts (app (snd r)) = toasts (app p) ∧
    isAnalyzing (app (snd r)) = isAnalyzing (app p).
Proof.
  cbv zeta. unfold debounceAnalyze_callback.
  destruct (10 <? String.length (trim text))%nat eqn:E.
  - apply Nat.ltb_lt in E.
    assert (is_empty text = false) as He.
    { rewrite <- trim_blank. apply String.eqb_neq. intros H. rewrite H in E. simpl in E. lia. }
    rewrite He. split; [reflexivity|]. split; [reflexivity|]. intros Hp.
    rewrite on_app_eq.
    rewrite (analyzeText_http text true (app p) He (andb_false_r _) Hp). simpl.
    unfold setAnalyzeButtonState. js_unfold. simpl. destruct (analyzeBtn (app p)); done.
  - assert ((if is_empty text
             then on_app (setAnalyzeButtonState false) ;; ret Finished
             else on_app (setAnalyzeButtonState false) ;; ret Finished)%js
            = (on_app (setAnalyzeButtonState false) ;; ret Finished)%js) as ->
      by (destruct (is_empty text); reflexivity).
    unfold bind, ret. rewrite on_app_eq. unfold setAnalyzeButtonState. js_unfold.
    destruct (analyzeBtn (app p)); done.
Qed.

Lemma elapse_idle t p :
  Debounce.pending (debounceAnalyze p) = [] → elapse t p = p.
Proof.
  intros Hp. unfold elapse. rewrite (advance_idle t _ Hp), drop_all. simpl. by destruct p.
Qed.

(** X24.  [clearForm] empties the text area and the counter, clears the busy
    flag whether or not a request is outstanding, hides the results,
    issues no request, and calls off the pending real-time analysis: no
    matter how much time passes afterwards, nothing is analysed until the
    user types again. *)
Theorem clearForm_resets_the_form p :
  Debounce.single (debounceAnalyze p) →
  let p' := snd (clearForm p) in
  fst (clearForm p) = Normal tt ∧
  textArea p' = (λ _, EmptyString) <$> textArea p ∧
  (is_Some (textArea p) → charCount p' = (λ _, 0%nat) <$> charCount p) ∧
  isAnalyzing (app p') = false ∧
  resultsSection (app p') = (λ _, "none") <$> resultsSection (app p) ∧
  requests (app p') = requests (app p) ∧
  toasts (app p')
    = toasts (app p) ++ [("Cleared", Literal "Form cleared successfully", "info")] ∧
  Debounce.pending (debounceAnalyze p') = [] ∧
  ∀ t, elapse t p' = p'.
Proof.
  intros Hs. cbv zeta.
  destruct (clearTimeout_single (debounceAnalyze p) Hs) as (Hp & _).
  assert (fst (clearForm p) = Normal tt ∧
          textArea (snd (clearForm p)) = (λ _, EmptyString) <$> textArea p ∧
          (is_Some (textArea p) →
             charCount (snd (clearForm p)) = (λ _, 0%nat) <$> charCount p) ∧
          isAnalyzing (app (snd (clearForm p))) = false ∧
          resultsSection (app (snd (clearForm p)))
            = (λ _, "none") <$> resultsSection (app p) ∧
          requests (app (snd (clearForm p))) = requests (app p) ∧
          toasts (app (snd (clearForm p)))
            = toasts (app p) ++ [("Cleared", Literal "Form cleared successfully", "info")] ∧
          debounceAnalyze (snd (clearForm p))
            = Debounce.cancel string (debounceAnalyze p)) as H.
  { clear Hs Hp. destruct p as [a ta cc d].
    destruct a as [busy current btn toggle section bound ws reqs ts cs].
    unfold clearForm, updateCharCount, on_app, setAnalyzeButtonState,
      SentimentApp.showToast. js_unfold.
    destruct ta as [value|], cc as [n|], btn as [b|], section as [display|]; simpl;
      repeat split; try done; intros [? ?]; done. }
  destruct H as (H1 & H2 & H3 & H4 & H5 & H6 & H7 & H8).
  assert (Debounce.pending (debounceAnalyze (snd (clearForm p))) = []) as Hnil
    by (rewrite H8; exact Hp).
  repeat (split; [assumption|]).
  intros t. exact (elapse_idle t _ Hnil).
Qed.

End FormFacts.

(** ** Typing with real-time analysis switched on *)

Section Typing.

Import SentimentApp Form.

Lemma set_debounceAnalyze_same p : set_debounceAnalyze (debounceAnalyze p) p = p.
Proof. by destruct p. Qed.

Lemma elapse_early T t value p : armed t value p → T < t + wait → elapse T p = p.
Proof.
  intros (tm & Hp & _ & Hd & _) Hlt. unfold elapse.
  rewrite (advance_early T _ tm Hp) by lia. rewrite drop_all. simpl.
  apply set_debounceAnalyze_same.
Qed.

Lemma elapse_due T t value p :
  armed t value p → t + wait <= T →
  elapse T p
  = snd (debounceAnalyze_callback value
           (set_debounceAnalyze (Debounce.advance string T (debounceAnalyze p)) p)).
Proof.
  intros (tm & Hp & Ht & Hd & Ha) Hle. unfold elapse.
  rewrite (advance_fires T _ tm Hp Ht) by lia. cbn [Debounce.invoked].
  rewrite drop_app_length. simpl. by rewrite Ha.
Qed.

Lemma callback_app value p d :
  app (snd (debounceAnalyze_callback value (set_debounceAnalyze d p)))
  = app (snd (debounceAnalyze_callback value p)).
Proof.
  unfold debounceAnalyze_callback.
  destruct (is_empty value); [|destruct (10 <? _)%nat];
    unfold bind, ret; rewrite ?on_app_eq; simpl;
    try (destruct (setAnalyzeButtonState false (app p)) as [[]] eqn:E; simpl; rewrite ?E);
    reflexivity.
Qed.

Lemma callback_requests value p :
  default false (realtimeToggle (app p)) && window_wsManager (app p) = false →
  requests (app (snd (debounceAnalyze_callback value p)))
  = if (10 <? String.length (trim value))%nat
    then requests (app p) ++ [VObj [("text", VStr value); ("save_to_db", VBool false)]]
    else requests (app p).
Proof.
  intros Hp. unfold debounceAnalyze_callback.
  assert (∀ q : Page,
            requests (app (snd ((on_app (setAnalyzeButtonState false) ;; ret Finished)%js q)))
            = requests (app q)) as Hbtn.
  { intros q. unfold bind, ret. rewrite on_app_eq. unfold setAnalyzeButtonState. js_unfold.
    destruct (analyzeBtn (app q)); reflexivity. }
  destruct (10 <? String.length (trim value))%nat eqn:E.
  - apply Nat.ltb_lt in E.
    assert (is_empty value = false) as He.
    { rewrite <- trim_blank. apply String.eqb_neq. intros H. rewrite H in E. simpl in E. lia. }
    rewrite He, on_app_eq.
    rewrite (analyzeText_http value true (app p) He (andb_false_r _) Hp). simpl.
    unfold setAnalyzeButtonState. js_unfold. simpl. destruct (analyzeBtn (app p)); done.
  - destruct (is_empty value); apply Hbtn.
Qed.

(** One [input] event while nothing is due: the text and the counter
    follow, a timer is set for the text, and nothing is analysed. *)
Lemma oninput_arms t value p :
  realtimeToggle (app p) = Some true →
  elapse t p = p →
  Debounce.single (debounceAnalyze p) →
  let p' := oninput t value p in
  realtimeToggle (app p') = Some true ∧
  window_wsManager (app p') = window_wsManager (app p) ∧
  requests (app p') = requests (app p) ∧
  armed t value p'.
Proof.
  intros Ht He Hs. cbv zeta. unfold oninput. rewrite He.
  assert (realtimeToggle (app (snd (updateCharCount (set_textArea (Some value) p))))
            = Some true ∧
          window_wsManager (app (snd (updateCharCount (set_textArea (Some value) p))))
            = window_wsManager (app p) ∧
          requests (app (snd (updateCharCount (set_textArea (Some value) p))))
            = requests (app p) ∧
          debounceAnalyze (snd (updateCharCount (set_textArea (Some value) p)))
            = debounceAnalyze p) as (U1 & U2 & U3 & U4).
  { clear He Hs. destruct p as [a ta cc d].
    destruct a as [busy current btn toggle section bound ws reqs ts cs].
    simpl in Ht. subst toggle.
    unfold updateCharCount, on_app, setAnalyzeButtonState. js_unfold.
    destruct cc as [n|]; simpl; [|done].
    destruct (String.length value =? 0)%nat; simpl; [|done].
    destruct btn; done. }
  rewrite U1. simpl.
  split; [exact U1|]. split; [exact U2|]. split; [exact U3|].
  destruct (debounced_single wait t value (debounceAnalyze p) Hs) as (D1 & D2 & _).
  unfold armed. simpl. rewrite U4. eexists. split; [exact D1|]. split; [exact D2|]. done.
Qed.

Lemma typing_armed inputs t0 v0 p :
  realtimeToggle (app p) = Some true →
  armed t0 v0 p →
  Debounce.rapid string wait ((t0, v0) :: inputs) →
  let last_input := default (t0, v0) (last inputs) in
  realtimeToggle (app (typing inputs p)) = Some true ∧
  window_wsManager (app (typing inputs p)) = window_wsManager (app p) ∧
  requests (app (typing inputs p)) = requests (app p) ∧
  armed (fst last_input) (snd last_input) (typing inputs p).
Proof.
  revert t0 v0 p. induction inputs as [|[t1 v1] inputs IH]; intros t0 v0 p Ht Ha Hr.
  - simpl. done.
  - cbn [Debounce.rapid fst] in Hr. destruct Hr as [[Hle Hlt] Hr].
    assert (Debounce.single (debounceAnalyze p)) as Hs.
    { destruct Ha as (tm & Hp & Hto & _). right. eauto. }
    destruct (oninput_arms t1 v1 p Ht (elapse_early t1 t0 v0 p Ha Hlt) Hs)
      as (O1 & O2 & O3 & O4).
    destruct (IH t1 v1 (oninput t1 v1 p) O1 O4 Hr) as (I1 & I2 & I3 & I4).
    cbv zeta. change (typing ((t1, v1) :: inputs) p) with (typing inputs (oninput t1 v1 p)).
    split; [exact I1|]. split; [congruence|]. split; [congruence|].
    rewrite last_cons. destruct (last inputs); exact I4.
Qed.

(** X25.  Typing with real-time analysis switched on, each keystroke less
    than 1500 ms after the one before.  While the user types nothing is
    analysed.  Until 1500 ms after the last keystroke still nothing
    happens; from then on the callback has run exactly once, on the text
    as it was after the last keystroke.  With [window.wsManager] unbound
    this means: no request when that text, trimmed, has at most 10
    characters (a text of no-break spaces only, however long, has none),
    and otherwise exactly one, for that text and with
    [save_to_db = false]. *)
Theorem typing_analyses_the_last_text inputs t value p T :
  realtimeToggle (app p) = Some true →
  Debounce.pending (debounceAnalyze p) = [] →
  Debounce.rapid string wait (inputs ++ [(t, value)]) →
  let typed := typing (inputs ++ [(t, value)]) p in
  requests (app typed) = requests (app p) ∧
  (T < t + wait → elapse T typed = typed) ∧
  (t + wait <= T →
     app (elapse T typed) = app (snd (debounceAnalyze_callback value typed))) ∧
  (window_wsManager (app p) = false →
     requests (app (elapse T typed)) =
       if (t + wait <=? T) && (10 <? String.length (trim value))%nat
       then requests (app p) ++ [VObj [("text", VStr value); ("save_to_db", VBool false)]]
       else requests (app p)).
Proof.
  intros Ht Hp Hr. cbv zeta.
  assert (realtimeToggle (app (typing (inputs ++ [(t, value)]) p)) = Some true ∧
          window_wsManager (app (typing (inputs ++ [(t, value)]) p))
            = window_wsManager (app p) ∧
          requests (app (typing (inputs ++ [(t, value)]) p)) = requests (app p) ∧
          armed t value (typing (inputs ++ [(t, value)]) p)) as (J1 & J2 & J3 & J4).
  { destruct inputs as [|[t0 v0] inputs].
    - simpl. apply oninput_arms; [exact Ht|by apply elapse_idle|by left].
    - change (typing (((t0, v0) :: inputs) ++ [(t, value)]) p)
        with (typing (inputs ++ [(t, value)]) (oninput t0 v0 p)).
      destruct (oninput_arms t0 v0 p Ht (elapse_idle t0 p Hp) ltac:(by left))
        as (O1 & O2 & O3 & O4).
      pose proof (typing_armed (inputs ++ [(t, value)]) t0 v0 _ O1 O4 Hr) as H.
      cbv zeta in H. rewrite last_snoc in H. simpl in H.
      destruct H as (I1 & I2 & I3 & I4).
      split; [exact I1|]. split; [congruence|]. split; [congruence|exact I4]. }
  set (typed := typing (inputs ++ [(t, value)]) p) in *.
  split; [exact J3|]. split; [by apply (elapse_early T t value)|]. split.
  - intros Hle. rewrite (elapse_due T t value typed J4 Hle). apply callback_app.
  - intros Hw. destruct (Z.leb_spec (t + wait) T) as [Hle|Hlt]; cbn [andb].
    + rewrite (elapse_due T t value typed J4 Hle), callback_app, callback_requests.
      * by rewrite J3.
      * by rewrite J2, Hw, andb_false_r.
    + rewrite (elapse_early T t value typed J4 Hlt). exact J3.
Qed.

End Typing.

Lemma handleSubmit_sends_trimmed_text_witness :
  let value := String SentimentApp.NBSP " great product " +:+ String SentimentApp.NBSP EmptyString in
  let p := Form.set_textArea (Some value)
             (Form.fresh (SentimentApp.fresh None false false)) in
  SentimentApp.requests (Form.app (snd (Form.handleSubmit p)))
  = [VObj [("text", VStr "great product"); ("save_to_db", VBool true)]].
Proof.
  cbv zeta.
  pose proof (handleSubmit_sends_trimmed_text
                (Form.set_textArea
                   (Some (String SentimentApp.NBSP " great product "
                          +:+ String SentimentApp.NBSP EmptyString))
                   (Form.fresh (SentimentApp.fresh None false false)))) as H.
  cbv zeta in H.
  assert (SentimentApp.is_empty
            (String SentimentApp.NBSP " great product "
             +:+ String SentimentApp.NBSP EmptyString) = false) as He
    by (vm_compute; reflexivity).
  cbn [Form.textArea Form.set_textArea Form.fresh default from_option fmap option_fmap
       option_map] in H.
  unfold id in H. rewrite He in H.
  destruct H as (_ & _ & _ & _ & _ & H). destruct (H eq_refl eq_refl) as (_ & H2 & _).
  rewrite H2. vm_compute. reflexivity.
Defined.

Lemma realtime_needs_more_than_ten_characters_witness :
  let blank := String.string_of_list_ascii (replicate 11 SentimentApp.NBSP) in
  let padded := String SentimentApp.NBSP "  ten chars " in
  let p := Form.fresh (SentimentApp.fresh None false true) in
  String.length blank = 11%nat ∧
  SentimentApp.requests (Form.app (snd (Form.debounceAnalyze_callback blank p))) = [] ∧
  String.length padded = 13%nat ∧
  SentimentApp.requests (Form.app (snd (Form.debounceAnalyze_callback padded p))) = [] ∧
  SentimentApp.requests
    (Form.app (snd (Form.debounceAnalyze_callback " eleven char" p)))
  = [VObj [("text", VStr " eleven char"); ("save_to_db", VBool false)]].
Proof.
  cbv zeta.
  pose proof (realtime_needs_more_than_ten_characters
                (String.string_of_list_ascii (replicate 11 SentimentApp.NBSP))
                (Form.fresh (SentimentApp.fresh None false true))) as H1.
  pose proof (realtime_needs_more_than_ten_characters
                (String SentimentApp.NBSP "  ten chars ")
                (Form.fresh (SentimentApp.fresh None false true))) as H2.
  pose proof (realtime_needs_more_than_ten_characters " eleven char"
                (Form.fresh (SentimentApp.fresh None false true))) as H3.
  cbv zeta in H1, H2, H3.
  change (10 <? String.length
                  (SentimentApp.trim
                     (String.string_of_list_ascii (replicate 11 SentimentApp.NBSP))))%nat
    with false in H1.
  change (10 <? String.length
                  (SentimentApp.trim (String SentimentApp.NBSP "  ten chars ")))%nat
    with false in H2.
  change (10 <? String.length (SentimentApp.trim " eleven char"))%nat with true in H3.
  cbv iota in H1, H2, H3.
  destruct H1 as (_ & H1 & _). destruct H2 as (_ & H2 & _).
  destruct H3 as (_ & _ & H3). destruct (H3 eq_refl) as (_ & H4).
  split; [reflexivity|]. split; [exact H1|]. split; [reflexivity|].
  split; [exact H2|exact H4].
Defined.

Lemma clearForm_resets_the_form_witness :
  let p := Form.oninput 0 "a wonderful thing"
             (Form.fresh (SentimentApp.set_isAnalyzing true
                            (SentimentApp.fresh None false true))) in
  Debounce.single (Form.debounceAnalyze p) ∧
  length (Debounce.pending (Form.debounceAnalyze p)) = 1%nat ∧
  SentimentApp.isAnalyzing (Form.app p) = true ∧
  SentimentApp.isAnalyzing (Form.app (snd (Form.clearForm p))) = false ∧
  Form.textArea (snd (Form.clearForm p)) = Some EmptyString ∧
  ∀ t, Form.elapse t (snd (Form.clearForm p)) = snd (Form.clearForm p).
Proof.
  cbv zeta.
  set (p := Form.oninput 0 "a wonderful thing"
              (Form.fresh (SentimentApp.set_isAnalyzing true
                             (SentimentApp.fresh None false true)))).
  assert (Debounce.single (Form.debounceAnalyze p)) as Hs.
  { right. eexists. split; vm_compute; reflexivity. }
  destruct (clearForm_resets_the_form p Hs) as (_ & H2 & _ & H4 & _ & _ & _ & _ & H9).
  split; [exact Hs|]. split; [vm_compute; reflexivity|]. split; [vm_compute; reflexivity|].
  split; [exact H4|]. split; [exact H2|exact H9].
Defined.

Lemma typing_analyses_the_last_text_witness :
  let p := Form.fresh (SentimentApp.fresh None false true) in
  let typed := Form.typing [(0, "a"); (400, "a wonderful"); (900, "a wonderful thing")] p in
  let blank := String.string_of_list_ascii (replicate 11 SentimentApp.NBSP) in
  SentimentApp.requests (Form.app typed) = [] ∧
  SentimentApp.requests (Form.app (Form.elapse 2399 typed)) = [] ∧
  SentimentApp.requests (Form.app (Form.elapse 2400 typed))
  = [VObj [("text", VStr "a wonderful thing"); ("save_to_db", VBool false)]] ∧
  SentimentApp.requests (Form.app (Form.elapse 5000 (Form.typing [(0, blank)] p))) = [].
Proof.
  cbv zeta.
  assert (Debounce.rapid string Form.wait
            ([] ++ [(0, String.string_of_list_ascii (replicate 11 SentimentApp.NBSP))]))
    as Hb by (unfold Form.wait; simpl; lia).
  pose proof (typing_analyses_the_last_text [] 0
                (String.string_of_list_ascii (replicate 11 SentimentApp.NBSP))
                (Form.fresh (SentimentApp.fresh None false true)) 5000
                eq_refl eq_refl Hb) as (_ & _ & _ & H5).
  specialize (H5 eq_refl).
  assert (Debounce.rapid string Form.wait
            ([(0, "a"); (400, "a wonderful")] ++ [(900, "a wonderful thing")])) as Hr
    by (unfold Form.wait; simpl; lia).
  pose proof (typing_analyses_the_last_text [(0, "a"); (400, "a wonderful")] 900
                "a wonderful thing" (Form.fresh (SentimentApp.fresh None false true)))
    as H.
  destruct (H 2399 eq_refl eq_refl Hr) as (H1 & _ & _ & H4).
  destruct (H 2400 eq_refl eq_refl Hr) as (_ & _ & _ & H4').
  split; [exact H1|]. split; [exact (H4 eq_refl)|]. split; [exact (H4' eq_refl)|exact H5].
Defined.

(** ** The HTTP-only build *)

Section HttpBuild.

Import SentimentApp.

Variable render : JSVal -> bool.

Lemma http_try_block stretch a :
  HttpApp.try_block stretch a = try_block false stretch a.
Proof. reflexivity. Qed.

Lemma http_resume k fetched parsed a :
  realtime k = false →
  HttpApp.resume render k fetched parsed a = resume render k fetched parsed a.
Proof.
  intros Hk. unfold HttpApp.resume, resume. rewrite Hk.
  destruct (point k); reflexivity.
Qed.

Lemma http_analyzeText text a :
  is_empty text = false →
  default false (realtimeToggle a) && window_wsManager a = false →
  HttpApp.analyzeText text a = analyzeText text false a.
Proof.
  intros He Hp. unfold HttpApp.analyzeText. unfold bind at 1, get at 1.
  destruct (isAnalyzing a) eqn:Hb.
  - unfold analyzeText. rewrite He. unfold bind, get. rewrite Hb. reflexivity.
  - rewrite (analyzeText_http text false a He) by (by rewrite ?Hb).
    unfold modify, bind.
    destruct (setAnalyzeButtonState_fields true (set_isAnalyzing true a))
      as (Hn & _ & Hreq & _).
    destruct (setAnalyzeButtonState true (set_isAnalyzing true a)) as [r a1]. simpl in *.
    subst r. unfold HttpApp.try_block, HttpApp.request_stretch, fetch. js_unfold. simpl.
    rewrite Hreq. reflexivity.
Qed.

(** X27.  The HTTP-only build is the manual path of the full application with
    the push channel out of play: on a text that is not blank its
    [analyzeText] does what the full application's does for a manual call
    when real-time is switched off or [window.wsManager] is unbound, and a
    call resumed after an [await] goes on in the same way in both.  They
    part on a blank text, which only the full application turns away
    before it sets the busy flag. *)
Theorem http_build_is_the_manual_path text k fetched parsed a :
  default false (realtimeToggle a) && window_wsManager a = false →
  (is_empty text = false → HttpApp.analyzeText text a = analyzeText text false a) ∧
  (realtime k = false →
     HttpApp.resume render k fetched parsed a = resume render k fetched parsed a) ∧
  (is_empty text = true → isAnalyzing a = false →
     requests (snd (analyzeText text false a)) = requests a ∧
     requests (snd (HttpApp.analyzeText text a))
       = requests a ++ [VObj [("text", VStr text); ("save_to_db", VBool true)]]).
Proof.
  intros Hp. split; [intros He; by apply http_analyzeText|].
  split; [apply http_resume|].
  intros He Hb. split.
  - unfold analyzeText. rewrite He. unfold bind, ret.
    destruct (setAnalyzeButtonState_fields false a) as (_ & _ & H3 & _).
    destruct (setAnalyzeButtonState false a) as [[] a1]; exact H3.
  - unfold HttpApp.analyzeText, HttpApp.try_block, HttpApp.request_stretch, fetch,
      setAnalyzeButtonState. js_unfold. rewrite Hb. simpl.
    destruct (analyzeBtn a); reflexivity.
Qed.

End HttpBuild.

Section HttpLoop.

Import SentimentApp.

Variable render : JSVal -> bool.

Lemma displayAnalysisResult_requests result a :
  requests (snd (displayAnalysisResult render result a)) = requests a.
Proof.
  unfold displayAnalysisResult, SentimentApp.showToast. js_unfold.
  destruct (get_prop result "error") as [err|]; simpl; [|reflexivity].
  destruct (truthy err); simpl; [reflexivity|].
  destruct (render result); simpl; [|reflexivity].
  destruct (resultsSection a); reflexivity.
Qed.

Lemma try_block_requests isRealtime stretch a :
  requests (snd (try_block isRealtime stretch a)) = requests (snd (stretch a)).
Proof.
  destruct (fst (stretch a)) as [[k|]|e] eqn:E.
  - by rewrite (try_block_suspends isRealtime stretch a k E).
  - by destruct (try_block_ends isRealtime stretch a E) as (_ & H & _).
  - by destruct (try_block_throws isRealtime stretch a e E) as (_ & H & _).
Qed.

Lemma resume_requests k fetched parsed a :
  requests (snd (resume render k fetched parsed a)) = requests a.
Proof.
  unfold resume. destruct (point k).
  - unfold after_fetch. rewrite try_block_requests. unfold response_stretch. js_unfold.
    destruct fetched as [r|e]; simpl; [|reflexivity]. destruct (ok r); reflexivity.
  - unfold after_json. rewrite try_block_requests. unfold result_stretch. js_unfold.
    destruct parsed as [result|e]; simpl; [|reflexivity].
    pose proof (displayAnalysisResult_requests result a) as H.
    destruct (displayAnalysisResult render result a) as [[[]|e] a1]; simpl in *;
      [|exact H].
    destruct (realtime k); simpl; [exact H|].
    destruct (resultsSection a1); simpl; exact H.
Qed.

(** A manual call resumed after an [await] either stops at the next one,
    the flag as it was, or is over, the flag cleared. *)
Lemma resume_manual_outcome k fetched parsed a :
  realtime k = false →
  (∃ k', fst (resume render k fetched parsed a) = Normal (Waiting k') ∧
         realtime k' = false ∧
         isAnalyzing (snd (resume render k fetched parsed a)) = isAnalyzing a) ∨
  (over (fst (resume render k fetched parsed a)) = true ∧
   isAnalyzing (snd (resume render k fetched parsed a)) = false).
Proof.
  intros Hk.
  destruct (over (fst (resume render k fetched parsed a))) eqn:Eo.
  - right. split; [reflexivity|]. by apply resume_manual.
  - left. destruct (fst (resume render k fetched parsed a)) as [[|k']|e] eqn:E;
      try discriminate Eo.
    exists k'. split; [reflexivity|].
    revert E. unfold resume. rewrite Hk. destruct (point k).
    + intros E. pose proof (after_fetch_waiting false fetched a k' E) as ->.
      split; [reflexivity|].
      unfold after_fetch in *. apply try_block_waiting in E.
      rewrite (try_block_suspends false _ a _ E).
      revert E. unfold response_stretch. js_unfold.
      destruct fetched as [r|e]; simpl; [|discriminate]. destruct (ok r); done.
    + intros E. pose proof (after_json_over render false parsed a) as Ho.
      rewrite E in Ho. discriminate.
Qed.

Lemma http_analyzeText_busy text a :
  isAnalyzing a = true → HttpApp.analyzeText text a = (Normal Finished, a).
Proof. intros Hb. unfold HttpApp.analyzeText. js_unfold. by rewrite Hb. Qed.

Lemma http_analyzeText_idle text a :
  isAnalyzing a = false →
  fst (HttpApp.analyzeText text a)
    = Normal (Waiting {| point := AwaitFetch; realtime := false |}) ∧
  isAnalyzing (snd (HttpApp.analyzeText text a)) = true ∧
  requests (snd (HttpApp.analyzeText text a))
    = requests a ++ [VObj [("text", VStr text); ("save_to_db", VBool true)]].
Proof.
  intros Hb.
  unfold HttpApp.analyzeText, HttpApp.try_block, HttpApp.request_stretch, fetch,
    setAnalyzeButtonState. js_unfold. rewrite Hb. simpl.
  destruct (analyzeBtn a); done.
Qed.

Lemma http_on_app_eq {A} (m : M App A) p :
  HttpApp.on_app m p = (fst (m (HttpApp.app p)), HttpApp.set_app (snd (m (HttpApp.app p))) p).
Proof. unfold HttpApp.on_app. destruct (m (HttpApp.app p)). reflexivity. Qed.

Lemma http_handleSubmit_eq p :
  HttpApp.handleSubmit p =
  match HttpApp.textArea p with
  | Some value =>
      if is_empty value then
        (Normal Finished,
         HttpApp.set_app
           (set_toasts
              (toasts (HttpApp.app p)
                 ++ [("Empty Text", Literal "Please enter some text to analyze", "warning")])
              (HttpApp.app p)) p)
      else HttpApp.on_app (HttpApp.analyzeText (trim value)) p
  | None =>
      (Normal Finished,
       HttpApp.set_app
         (set_toasts
            (toasts (HttpApp.app p)
               ++ [("Empty Text", Literal "Please enter some text to analyze", "warning")])
            (HttpApp.app p)) p)
  end.
Proof.
  unfold HttpApp.handleSubmit, SentimentApp.showToast, HttpApp.on_app. js_unfold.
  destruct (HttpApp.textArea p) as [value|]; simpl; [|reflexivity].
  rewrite trim_blank. destruct (is_empty value); reflexivity.
Qed.

Lemma http_step_exclusive e p p' :
  HttpApp.exclusive p →
  HttpApp.step render e p = Some p' →
  HttpApp.exclusive p' ∧
  ∃ issued, requests (HttpApp.app p') = requests (HttpApp.app p) ++ issued ∧
            Forall HttpApp.well_formed_request issued ∧
            (length issued <= (if HttpApp.is_submit e then 1 else 0))%nat.
Proof.
  intros (Hlen & Hflag & Hman) Hstep.
  assert (HttpApp.exclusive p) as Hex by done.
  destruct e as [|value| |i fetched parsed]; simpl in Hstep.
  - (* submit *)
    injection Hstep as <-. rewrite http_handleSubmit_eq.
    destruct (HttpApp.textArea p) as [value|] eqn:Ev.
    2:{ unfold HttpApp.started. simpl. split; [exact Hex|].
        exists []. rewrite app_nil_r. simpl. auto. }
    destruct (is_empty value) eqn:He.
    { unfold HttpApp.started. simpl. split; [exact Hex|].
      exists []. rewrite app_nil_r. simpl. auto. }
    rewrite http_on_app_eq.
    destruct (isAnalyzing (HttpApp.app p)) eqn:Hb.
    + rewrite (http_analyzeText_busy _ _ Hb). unfold HttpApp.started. simpl.
      split; [by destruct p|]. exists []. rewrite app_nil_r. simpl. auto.
    + destruct (http_analyzeText_idle (trim value) _ Hb) as (H1 & H2 & H3).
      assert (HttpApp.calls p = []) as Hnil.
      { destruct (HttpApp.calls p) eqn:Ec; [reflexivity|].
        assert (false = true) by (apply Hflag; discriminate). discriminate. }
      unfold HttpApp.started. cbn [fst snd]. rewrite H1. cbn [HttpApp.calls HttpApp.set_app
        HttpApp.set_calls HttpApp.app]. rewrite Hnil. split.
      * split; [simpl; lia|]. split; [simpl; rewrite H2; done|].
        intros k Hk. apply list_elem_of_singleton in Hk. by subst k.
      * eexists. split; [exact H3|]. split; [|simpl; lia].
        apply Forall_singleton. exists (trim value).
        split; [reflexivity|]. split; [apply trim_idempotent|by rewrite is_empty_trim].
  - (* input *)
    destruct (HttpApp.textArea p); [|discriminate]. injection Hstep as <-.
    unfold HttpApp.updateCharCount. simpl.
    split; [|exists []; rewrite app_nil_r; simpl; destruct (HttpApp.charCount p); auto].
    destruct (HttpApp.charCount p); exact Hex.
  - (* clear *)
    injection Hstep as <-. clear Hlen Hflag Hman. destruct p as [a ta cc cs].
    unfold HttpApp.clearForm, HttpApp.updateCharCount.
    destruct ta, cc; simpl; destruct (resultsSection a) eqn:Er; simpl; rewrite ?Er;
      (split; [exact Hex|exists []; rewrite app_nil_r; simpl; auto]).
  - (* a promise is settled *)
    destruct (HttpApp.calls p !! i) as [k|] eqn:Ek; [|discriminate]. injection Hstep as <-.
    assert (HttpApp.calls p = [k] ∧ i = 0%nat) as [Hc ->].
    { destruct (HttpApp.calls p) as [|k0 [|k1 rest]]; simpl in *; [done| |lia].
      destruct i; simpl in Ek; [by injection Ek as ->|discriminate]. }
    assert (realtime k = false) as Hk by (apply Hman; rewrite Hc; apply list_elem_of_here).
    assert (isAnalyzing (HttpApp.app p) = true) as Hb by (apply Hflag; by rewrite Hc).
    rewrite http_on_app_eq. cbn [HttpApp.app HttpApp.set_calls].
    rewrite (http_resume render k fetched parsed _ Hk).
    pose proof (resume_requests k fetched parsed (HttpApp.app p)) as Hreq.
    rewrite Hc. cbn [delete list_delete].
    destruct (resume_manual_outcome k fetched parsed (HttpApp.app p) Hk)
      as [(k' & E1 & E2 & E3) | (E1 & E2)].
    + unfold HttpApp.started. cbn [fst snd]. rewrite E1.
      cbn [HttpApp.calls HttpApp.set_app HttpApp.set_calls HttpApp.app]. split.
      * split; [simpl; lia|]. split; [simpl; rewrite E3, Hb; done|].
        intros k0 Hk0. apply list_elem_of_singleton in Hk0. by subst k0.
      * exists []. rewrite app_nil_r. simpl. auto.
    + unfold HttpApp.started. cbn [fst snd].
      destruct (fst (resume render k fetched parsed (HttpApp.app p))) as [[|k']|e] eqn:E;
        try discriminate E1;
        cbn [HttpApp.calls HttpApp.set_app HttpApp.set_calls HttpApp.app];
        (split; [split; [simpl; lia|]; split; [simpl; rewrite E2; split; done|];
                 intros k0 Hk0; inversion Hk0
                |exists []; rewrite app_nil_r; simpl; auto]).
Qed.

(** X28.  In the HTTP-only build the busy flag tells the truth.  Whatever the
    user does (submit, type, clear) and however the requests are
    answered, at most one call of [analyzeText] is outstanding at any
    moment, the flag is set exactly while one is, and clearing the form
    does not change that.  Every request issued carries a text that is
    not blank, without whitespace around it, and [save_to_db = true], and
    there are no more requests than submissions. *)
Theorem http_build_one_request_at_a_time trace p0 p :
  HttpApp.exclusive p0 →
  HttpApp.run render trace p0 = Some p →
  HttpApp.exclusive p ∧
  ∃ issued, requests (HttpApp.app p) = requests (HttpApp.app p0) ++ issued ∧
            Forall HttpApp.well_formed_request issued ∧
            (length issued <= HttpApp.submissions trace)%nat.
Proof.
  revert p0. induction trace as [|e trace IH]; intros p0 Hex Hrun; simpl in Hrun.
  - injection Hrun as <-. split; [exact Hex|]. exists []. rewrite app_nil_r. simpl. auto.
  - destruct (HttpApp.step render e p0) as [p1|] eqn:E; [|discriminate].
    destruct (http_step_exclusive e p0 p1 Hex E) as (Hex1 & new & Hnew & Hwf & Hn).
    destruct (IH p1 Hex1 Hrun) as (Hexp & issued & Hiss & Hwf' & Hn').
    split; [exact Hexp|]. exists (new ++ issued).
    split; [by rewrite Hiss, Hnew, app_assoc|]. split; [by apply Forall_app|].
    unfold HttpApp.submissions in *. rewrite length_app, filter_cons.
    destruct (HttpApp.is_submit e); simpl in *.
    + destruct (decide (true = true)); [simpl; lia|done].
    + destruct (decide (false = true)); [done|lia].
Qed.

End HttpLoop.

Section Counter.

Import SentimentApp Form.

(** X26.  The character counter follows the text, and an emptied text area
    resets the busy flag.  On an [input] event with nothing due, the
    counter shows the length of the new text and no request is issued;
    when the new text is empty the busy flag is cleared and the button put
    back, whether or not a request is outstanding, so that the next manual
    submission is accepted; any other text leaves the flag as it was. *)
Theorem emptying_the_text_resets_the_busy_flag t value p :
  Debounce.pending (debounceAnalyze p) = [] →
  is_Some (charCount p) →
  let p' := oninput t value p in
  textArea p' = Some value ∧
  charCount p' = Some (String.length value) ∧
  requests (app p') = requests (app p) ∧
  isAnalyzing (app p')
    = (if (String.length value =? 0)%nat then false else isAnalyzing (app p)) ∧
  (value = EmptyString →
     analyzeBtn (app p')
       = (λ _, {| disabled := false; caption := AnalyzeSentiment |}) <$> analyzeBtn (app p)).
Proof.
  intros Hp [n Hn]. cbv zeta. unfold oninput. rewrite (elapse_idle t p Hp).
  clear Hp. destruct p as [a ta cc d].
  destruct a as [busy current btn toggle section bound ws reqs ts cs].
  simpl in Hn. subst cc.
  unfold updateCharCount, on_app, setAnalyzeButtonState. js_unfold. simpl.
  destruct (String.length value =? 0)%nat eqn:E; simpl.
  - destruct btn as [b|]; simpl; destruct (default false toggle); simpl;
      repeat split; done.
  - destruct (default false toggle); simpl; repeat split; try done;
      intros ->; discriminate.
Qed.

End Counter.

Lemma emptying_the_text_resets_the_busy_flag_witness :
  let p := Form.set_textArea (Some "good")
             (Form.fresh (SentimentApp.set_isAnalyzing true
                            (SentimentApp.fresh None false false))) in
  SentimentApp.isAnalyzing (Form.app p) = true ∧
  SentimentApp.isAnalyzing (Form.app (Form.oninput 5 EmptyString p)) = false ∧
  Form.charCount (Form.oninput 5 EmptyString p) = Some 0%nat.
Proof.
  cbv zeta.
  destruct (emptying_the_text_resets_the_busy_flag 5 EmptyString
              (Form.set_textArea (Some "good")
                 (Form.fresh (SentimentApp.set_isAnalyzing true
                                (SentimentApp.fresh None false false))))
              eq_refl ltac:(eexists; reflexivity)) as (_ & H2 & _ & H4 & _).
  split; [reflexivity|]. split; [exact H4|exact H2].
Defined.

Lemma http_build_is_the_manual_path_witness :
  let a := SentimentApp.fresh None false false in
  let text := "a fine product" in
  HttpApp.analyzeText text a = SentimentApp.analyzeText text false a ∧
  SentimentApp.requests (snd (HttpApp.analyzeText text a))
  = [VObj [("text", VStr text); ("save_to_db", VBool true)]].
Proof.
  cbv zeta.
  destruct (http_build_is_the_manual_path (λ _, true) "a fine product"
              {| SentimentApp.point := SentimentApp.AwaitFetch;
                 SentimentApp.realtime := false |}
              (Throw NetworkError) (Throw SyntaxError)
              (SentimentApp.fresh None false false) eq_refl) as (H1 & _).
  assert (SentimentApp.is_empty "a fine product" = false) as He by (vm_compute; reflexivity).
  split; [exact (H1 He)|]. vm_compute. reflexivity.
Defined.

Lemma http_build_one_request_at_a_time_witness :
  let p0 := HttpApp.fresh (SentimentApp.fresh None false false) in
  let answered := Normal {| SentimentApp.ok := true; SentimentApp.status := 200;
                            SentimentApp.statusText := "OK" |} in
  let trace := [HttpApp.Input " good stuff "; HttpApp.Submit; HttpApp.Clear;
                HttpApp.Input "more"; HttpApp.Submit;
                HttpApp.Settle 0 answered (Normal example_result)] in
  ∃ p, HttpApp.run (λ _, true) trace p0 = Some p ∧
       HttpApp.exclusive p ∧
       length (HttpApp.calls p) = 1%nat ∧
       SentimentApp.requests (HttpApp.app p)
       = [VObj [("text", VStr "good stuff"); ("save_to_db", VBool true)]].
Proof.
  cbv zeta. eexists. split; [vm_compute; reflexivity|].
  match goal with |- HttpApp.exclusive ?p ∧ _ =>
    assert (HttpApp.exclusive (HttpApp.fresh (SentimentApp.fresh None false false)))
      as Hex0;
    [split; [simpl; lia|split; [split; [discriminate|done]|intros k Hk; inversion Hk]]|];
    destruct (http_build_one_request_at_a_time (λ _, true)
                [HttpApp.Input " good stuff "; HttpApp.Submit; HttpApp.Clear;
                 HttpApp.Input "more"; HttpApp.Submit;
                 HttpApp.Settle 0
                   (Normal {| SentimentApp.ok := true; SentimentApp.status := 200;
                              SentimentApp.statusText := "OK" |})
                   (Normal example_result)]
                (HttpApp.fresh (SentimentApp.fresh None false false)) p Hex0)
      as (Hex & _)
  end.
  - vm_compute. reflexivity.
  - split; [exact Hex|]. split; reflexivity.
Defined.

(** ** Event names that Object.prototype defines *)

Section Preservation.

Context {A B : Type}.
Variable P : State → Prop.

Lemma preserves_ret (a : A) : preserves P (ret a).
Proof. intros s Hs. exact Hs. Qed.

Lemma preserves_throw e : preserves P (throw e : M State A).
Proof. intros s Hs. exact Hs. Qed.

Lemma preserves_lift (c : Completion A) : preserves P (lift c).
Proof. intros s Hs. exact Hs. Qed.

Lemma preserves_bind (m : M State A) (k : A → M State B) :
  preserves P m → (∀ a, preserves P (k a)) → preserves P (bind m k).
Proof.
  intros Hm Hk s Hs. specialize (Hm s Hs). unfold bind.
  destruct (m s) as [[a|e] s1]; simpl in *; [by apply Hk|exact Hm].
Qed.

Lemma preserves_get_bind (k : State → M State B) :
  (∀ s0, preserves P (k s0)) → preserves P (bind get k).
Proof. intros Hk s Hs. unfold bind, get. by apply Hk. Qed.

Lemma preserves_try_catch (m : M State A) (handler : Error → M State A) :
  preserves P m → (∀ e, preserves P (handler e)) → preserves P (try_catch m handler).
Proof.
  intros Hm Hh s Hs. specialize (Hm s Hs). unfold try_catch.
  destruct (m s) as [[a|e] s1]; simpl in *; [exact Hm|by apply Hh].
Qed.

End Preservation.

Lemma preserves_frame (f : State → State) :
  (∀ s, listeners (this (f s)) = listeners (this s)) → preserves own_names (modify f).
Proof. intros Hf s Hs event He. simpl. rewrite Hf. by apply Hs. Qed.

Lemma own_names_frame s' s :
  listeners (this s') = listeners (this s) → own_names s → own_names s'.
Proof. intros Hl Hs event He. rewrite Hl. by apply Hs. Qed.

Lemma on_own_names event h : preserves own_names (on event h).
Proof.
  intros s Hs ev Hev. unfold on. js_unfold.
  destruct (listeners (this s) !! event) as [l|] eqn:El; simpl.
  - rewrite lookup_insert_ne; [by apply Hs|]. intros <-. rewrite (Hs event Hev) in El.
    discriminate.
  - destruct (inherited event) eqn:Ei; simpl; [by apply Hs|].
    rewrite lookup_insert_ne; [by apply Hs|]. intros <-. congruence.
Qed.

Lemma off_own_names event h : preserves own_names (off event h).
Proof.
  intros s Hs ev Hev. unfold off. js_unfold.
  destruct (listeners (this s) !! event) as [l|] eqn:El; simpl.
  - destruct (indexOf h l); simpl; [|by apply Hs].
    rewrite lookup_insert_ne; [by apply Hs|]. intros <-. rewrite (Hs event Hev) in El.
    discriminate.
  - destruct (inherited event); simpl; by apply Hs.
Qed.

(** Goals of the form [preserves own_names m], by the shape of [m]. *)
Ltac preserve :=
  repeat (intros;
    match goal with
    | |- preserves _ (bind get _) => apply preserves_get_bind
    | |- preserves _ (bind _ _) => apply preserves_bind
    | |- preserves _ (ret _) => apply preserves_ret
    | |- preserves _ (throw _) => apply preserves_throw
    | |- preserves _ (lift _) => apply preserves_lift
    | |- preserves _ (try_catch _ _) => apply preserves_try_catch
    | |- preserves _ (modify _) => apply preserves_frame; reflexivity
    | |- preserves _ (on _ _) => apply on_own_names
    | |- preserves _ (off _ _) => apply off_own_names
    | |- preserves _ (match ?x with _ => _ end) => destruct x
    end).

Section OwnNames.

Variable body : HandlerId -> JSVal -> Behaviour.

Lemma registry_calls_own_names cs : preserves own_names (registry_calls_run cs).
Proof.
  induction cs as [|c cs IH]; simpl; [apply preserves_ret|].
  apply preserves_bind; [destruct c; simpl; preserve|intros _; exact IH].
Qed.

Lemma visit_own_names event data h : preserves own_names (visit body event data h).
Proof.
  unfold visit, call, log. preserve. intros. apply registry_calls_own_names.
Qed.

Lemma forEach_own_names event data n k :
  preserves own_names (forEach event (visit body event data) n k).
Proof.
  revert k. induction n as [|n IH]; intros k; cbn [forEach]; [apply preserves_ret|].
  apply preserves_get_bind. intros s0. apply preserves_bind; [|intros _; apply IH].
  destruct (live_array event s0 !! k); [apply visit_own_names|apply preserves_ret].
Qed.

Lemma emit_own_names event data : preserves own_names (emit body event data).
Proof.
  unfold emit. apply preserves_get_bind. intros s0.
  destruct (listeners (this s0) !! event); [apply forEach_own_names|preserve].
Qed.

Lemma step_own_names e s s' :
  own_names s → step body e s = Some s' → own_names s'.
Proof.
  intros Hs Hstep.
  assert (∀ i f, own_names (update_socket i f s)) as Hupd
    by (intros i f; by apply (own_names_frame _ s)).
  destruct e as [i event|i event_data|i error|i code reason wasClean|k ctor
                |ctor|type data| |event h|event h|event data]; simpl in Hstep.
  - destruct (socket_state i s) as [[]|]; try discriminate. injection Hstep as <-.
    assert (preserves own_names (onopen body event)) as Hp; [|apply Hp, Hupd].
    unfold onopen, log, updateConnectionStatus, showToast. preserve. intros.
    apply emit_own_names.
  - destruct (socket_state i s) as [[]|]; try discriminate. injection Hstep as <-.
    assert (preserves own_names (onmessage body event_data)) as Hp; [|by apply Hp].
    unfold onmessage, log. preserve; intros; apply emit_own_names.
  - assert (preserves own_names (onerror body error)) as Hp.
    { unfold onerror, log, updateConnectionStatus. preserve. intros. apply emit_own_names. }
    destruct (socket_state i s) as [[]|]; try discriminate; injection Hstep as <-;
      by apply Hp.
  - assert (preserves own_names (onclose body code reason wasClean)) as Hp.
    { unfold onclose, scheduleReconnect, setTimeout, log, updateConnectionStatus, showToast.
      preserve; intros; try apply emit_own_names; preserve. }
    destruct (socket_state i s) as [[]|]; try discriminate; injection Hstep as <-;
      apply Hp, Hupd.
  - destruct (timers (page s) !! k); [|discriminate]. injection Hstep as <-.
    assert (preserves own_names (reconnect_callback ctor)) as Hp;
      [|by apply Hp, (own_names_frame _ s)].
    unfold reconnect_callback, connect, new_WebSocket, log, updateConnectionStatus. preserve.
  - injection Hstep as <-.
    assert (preserves own_names (connect ctor)) as Hp; [|by apply Hp].
    unfold connect, new_WebSocket, log, updateConnectionStatus. preserve.
  - injection Hstep as <-. apply (own_names_frame _ s); [|exact Hs].
    by rewrite send_this.
  - injection Hstep as <-. apply (own_names_frame _ s); [|exact Hs].
    destruct (close_fields s) as (-> & _). reflexivity.
  - injection Hstep as <-. by apply on_own_names.
  - injection Hstep as <-. by apply off_own_names.
  - injection Hstep as <-. by apply emit_own_names.
Qed.

Lemma run_own_names trace s s' :
  own_names s → run body trace s = Some s' → own_names s'.
Proof.
  revert s. induction trace as [|e trace IH]; intros s Hs Hrun; simpl in Hrun.
  - injection Hrun as <-. exact Hs.
  - destruct (step body e s) as [s1|] eqn:E; [|discriminate].
    apply (IH s1); [|exact Hrun]. exact (step_own_names e s s1 Hs E).
Qed.

Lemma boot_own_names protocol host ind ctor : own_names (boot protocol host ind ctor).
Proof.
  unfold boot, constructor.
  assert (preserves own_names (connect ctor)) as Hp.
  { unfold connect, new_WebSocket, log, updateConnectionStatus. preserve. }
  apply Hp. intros event _. apply lookup_empty.
Qed.

(** X29.  The registry is a plain object, so the names that Object.prototype
    defines ([constructor], [toString], [__proto__], ...) cannot be used
    as event names.  In every state the manager can reach, [on], [off] and
    [emit] on such a name throw a TypeError and change nothing.  An
    inbound frame whose [type] is such a name is still handed to the
    callbacks of [message]; the dispatch under its own type then fails
    inside [onmessage], which logs it as a parsing error and returns
    normally. *)
Theorem inherited_event_names_are_refused protocol host ind ctor trace s event h data :
  run body trace (boot protocol host ind ctor) = Some s →
  inherited event = true →
  on event h s = (Throw (not_a_function "push"), s) ∧
  off event h s = (Throw (not_a_function "indexOf"), s) ∧
  emit body event data s = (Throw (not_a_function "forEach"), s) ∧
  ∀ envelope, get_prop envelope "type" = Some (VStr event) →
    fst (onmessage body (JsonText envelope) s) = Normal tt ∧
    snd (onmessage body (JsonText envelope) s)
    = snd (log (ErrParsing (not_a_function "forEach"))
             (snd (emit body "message" envelope
                     (snd (log (LogReceived (VStr event)) s))))).
Proof.
  intros Hrun He.
  pose proof (run_own_names trace _ s (boot_own_names protocol host ind ctor) Hrun) as Hs.
  assert (∀ s0 d, own_names s0 →
            emit body event d s0 = (Throw (not_a_function "forEach"), s0)) as Hemit.
  { intros s0 d H0. unfold emit, bind, get. rewrite (H0 event He), He. reflexivity. }
  split; [unfold on; js_unfold; by rewrite (Hs event He), He|].
  split; [unfold off; js_unfold; by rewrite (Hs event He), He|].
  split; [by apply Hemit|].
  intros envelope Ht.
  assert (own_names (snd (emit body "message" envelope
                            (snd (log (LogReceived (VStr event)) s))))) as Hs1.
  { apply emit_own_names. by apply (own_names_frame _ s). }
  pose proof (emit_normal body "message" envelope
                (snd (log (LogReceived (VStr event)) s)) eq_refl) as Hn.
  assert (onmessage body (JsonText envelope) s
          = (Normal tt,
             snd (log (ErrParsing (not_a_function "forEach"))
                    (snd (emit body "message" envelope
                            (snd (log (LogReceived (VStr event)) s))))))) as ->;
    [|done].
  unfold onmessage, try_catch, bind, lift, JSON_parse, ret. rewrite Ht.
  change (to_key (VStr event)) with (Normal event : Completion string).
  destruct (log (LogReceived (VStr event)) s) as [[] s0] eqn:El; [|discriminate El].
  cbn [snd] in *.
  destruct (emit body "message" envelope s0) as [r s1]. cbn [fst snd] in *. subst r.
  rewrite (Hemit s1 envelope Hs1). reflexivity.
Qed.

End OwnNames.

Lemma inherited_event_names_are_refused_witness :
  let s := state_after [Call_on "message" 1%nat; SocketOpen 0 VUndef] example_boot in
  let envelope := VObj [("type", VStr "toString"); ("data", VNull)] in
  run quiet [Call_on "message" 1%nat; SocketOpen 0 VUndef] example_boot = Some s ∧
  inherited "toString" = true ∧
  fst (on "toString" 2%nat s) = Throw (not_a_function "push") ∧
  fst (onmessage quiet (JsonText envelope) s) = Normal tt ∧
  invocations (page (snd (onmessage quiet (JsonText envelope) s))) = [(1%nat, envelope)] ∧
  last (console (page (snd (onmessage quiet (JsonText envelope) s))))
    = Some (ErrParsing (not_a_function "forEach")).
Proof.
  cbv zeta.
  set (s := state_after [Call_on "message" 1%nat; SocketOpen 0 VUndef] example_boot).
  assert (run quiet [Call_on "message" 1%nat; SocketOpen 0 VUndef] example_boot = Some s)
    as Hrun by (vm_compute; reflexivity).
  assert (inherited "toString" = true) as Hi by reflexivity.
  destruct (inherited_event_names_are_refused quiet _ _ _ _ _ _ "toString" 2%nat VNull
              Hrun Hi) as (H1 & _ & _ & H4).
  destruct (H4 (VObj [("type", VStr "toString"); ("data", VNull)]) eq_refl) as [H5 H6].
  split; [exact Hrun|]. split; [exact Hi|]. split; [by rewrite H1|].
  split; [exact H5|]. rewrite H6. split; vm_compute; reflexivity.
Defined.

(** ** The type of a frame as an event name *)

(** [ToPropertyKey] on values a frame can carry as its [type]. *)
Lemma to_key_examples :
  to_key (VStr "analysis_result") = Normal "analysis_result" ∧
  to_key (VNum 42) = Normal "42" ∧
  to_key (VNum (-7)) = Normal "-7" ∧
  to_key (VNum (2 ^ 53)) = Normal "9007199254740992" ∧
  to_key (VNum (2 ^ 53 + 1)) = Normal "9007199254740992" ∧
  to_key (VNum (2 ^ 60)) = Normal "1152921504606847000" ∧
  to_key (VNum (10 ^ 21 - 1)) = Normal "1e+21" ∧
  to_key (VNum (10 ^ 21)) = Normal "1e+21" ∧
  to_key (VNum (2 ^ 70)) = Normal "1.1805916207174113e+21" ∧
  to_key (VNum (- 10 ^ 23)) = Normal "-1e+23" ∧
  to_key (VNum (2 ^ 1024)) = Normal "Infinity" ∧
  to_key (VArr [VNum 1; VNull; VArr [VStr "a"; VUndef]]) = Normal "1,,a," ∧
  to_key (VObj [("a", VNum 1)]) = Normal "[object Object]" ∧
  to_key (VObj [("toString", VNull)])
    = Throw (TypeError "Cannot convert object to primitive value") ∧
  to_key (VArr [VNum 1; VObj [("toString", VStr "x")]])
    = Throw (TypeError "Cannot convert object to primitive value").
Proof. vm_compute. repeat split; reflexivity. Qed.

Section FrameType.

Variable body : HandlerId -> JSVal -> Behaviour.

(** X30.  [onmessage] uses the [type] of the parsed frame as a property
    name of [this.listeners], whatever kind of value it is.  With callbacks
    that leave the registry alone: the callbacks registered under
    [message] are invoked, then those registered under the name the type
    converts to, each with the envelope; when the conversion throws (the
    type is an object with a member [toString] of its own, or an array
    holding one) the callbacks under [message] have run by then, the
    TypeError is caught and logged as a parsing error, and [onmessage]
    returns normally. *)
Theorem onmessage_converts_the_type envelope type s :
  get_prop envelope "type" = Some type →
  (∀ h, registry_calls (body h envelope) = []) →
  let after := snd (onmessage body (JsonText envelope) s) in
  fst (onmessage body (JsonText envelope) s) = Normal tt ∧
  match to_key type with
  | Normal key =>
      invocations (page after)
        = invocations (page s)
          ++ ((λ h, (h, envelope)) <$> (live_array "message" s ++ live_array key s))
  | Throw error =>
      invocations (page after)
        = invocations (page s) ++ ((λ h, (h, envelope)) <$> live_array "message" s) ∧
      last (console (page after)) = Some (ErrParsing error)
  end.
Proof.
  intros Ht Hq. cbv zeta. unfold onmessage, try_catch, bind, lift, log, modify, ret.
  cbn [JSON_parse]. rewrite Ht.
  set (s0 := on_page (λ b, set_console (console b ++ [LogReceived type]) b) s).
  assert (invocations (page s0) = invocations (page s)) as Hinv0 by reflexivity.
  assert (this s0 = this s) as Hthis0 by reflexivity.
  pose proof (emit_quiet_this body "message" envelope s0 Hq) as Q1.
  pose proof (emit_quiet_invocations body "message" envelope s0 Hq) as R1.
  pose proof (emit_normal body "message" envelope s0 eq_refl) as N1.
  destruct (emit body "message" envelope s0) as [r1 s1]. simpl in Q1, R1, N1. subst r1.
  destruct (to_key type) as [key|error]; cbn [fst snd].
  - pose proof (emit_quiet_invocations body key envelope s1 Hq) as R2.
    destruct (emit body key envelope s1) as [[[]|e] s2]; simpl in R2 |- *.
    all: split; [reflexivity|]; rewrite R2, R1, fmap_app, <- app_assoc.
    all: unfold live_array; rewrite Q1; reflexivity.
  - simpl. split; [reflexivity|]. split; [exact R1|apply last_snoc].
Qed.

End FrameType.

Lemma onmessage_converts_the_type_witness :
  let s := state_after [Call_on "message" 1%nat; Call_on "1152921504606847000" 2%nat;
                        SocketOpen 0 VUndef] example_boot in
  let numbered := VObj [("type", VNum (2 ^ 60)); ("data", VNull)] in
  let odd := VObj [("type", VObj [("toString", VNull)]); ("data", VNull)] in
  get_prop numbered "type" = Some (VNum (2 ^ 60)) ∧
  (∀ h, registry_calls (quiet h numbered) = []) ∧
  invocations (page (snd (onmessage quiet (JsonText numbered) s)))
    = [(1%nat, numbered); (2%nat, numbered)] ∧
  invocations (page (snd (onmessage quiet (JsonText odd) s))) = [(1%nat, odd)] ∧
  last (console (page (snd (onmessage quiet (JsonText odd) s))))
    = Some (ErrParsing (TypeError "Cannot convert object to primitive value")).
Proof.
  cbv zeta.
  set (s := state_after [Call_on "message" 1%nat; Call_on "1152921504606847000" 2%nat;
                         SocketOpen 0 VUndef] example_boot).
  destruct (onmessage_converts_the_type quiet
              (VObj [("type", VNum (2 ^ 60)); ("data", VNull)]) (VNum (2 ^ 60)) s
              eq_refl (λ h, eq_refl)) as [_ H1].
  destruct (onmessage_converts_the_type quiet
              (VObj [("type", VObj [("toString", VNull)]); ("data", VNull)])
              (VObj [("toString", VNull)]) s eq_refl (λ h, eq_refl)) as [_ H2].
  change (to_key (VNum (2 ^ 60)))
    with (Normal "1152921504606847000" : Completion string) in H1.
  change (to_key (VObj [("toString", VNull)]))
    with (Throw (TypeError "Cannot convert object to primitive value") : Completion string)
    in H2.
  cbv iota beta in H1, H2. destruct H2 as [H2 H3].
  split; [reflexivity|]. split; [reflexivity|].
  split; [rewrite H1; vm_compute; reflexivity|].
  split; [rewrite H2; vm_compute; reflexivity|exact H3].
Defined.

(** ** The busy flag and the manual calls that wait *)

Section BusyFlag.

Import SentimentApp.

Variable render : JSVal -> bool.

















End BusyFlag.


